(** * nemlig_cli: a shallow embedding of [nemlig_cli.py] and its properties

    The development follows the source file:
    - [PyStr], [PyFloat], [Py]: the operations of Python's [str], [float]
      and of the values a JSON document decodes to, as far as the program
      uses them; an operation that can raise returns an [outcome];
    - [World] and the monad [M]: the HTTP library and the remote service,
      [uuid.uuid4], and the two output streams;
    - the program, function by function: [login], the API client, the
      presenter, the commands and [main];
    - the vocabulary of the statements, and then the properties.

    A Python [str] is modelled by [string]; every [ascii] stands for one
    code point below 256.  A [float] is a binary64 [spec_float].  The
    built-ins follow CPython 3.11: the texts of the exceptions the
    interpreter raises, and [sum] as a fold from the left; no statement
    depends on either. *)

From Stdlib Require Import String Ascii List ZArith QArith Qround Bool Lia.
From Stdlib Require Import DecimalString SpecFloat.
Import ListNotations.

Local Open Scope string_scope.
Local Open Scope Z_scope.

(* ================================================================= *)
(** ** Python strings *)

Module PyStr.

(** [str.isspace] on one code point below 256: TAB, LF, VT, FF, CR,
    FS, GS, RS, US, SPACE, NEL and NBSP. *)
Definition is_space (c : ascii) : bool :=
  let n := N_of_ascii c in
  ((9 <=? n) && (n <=? 13) || (28 <=? n) && (n <=? 32)
   || (n =? 133) || (n =? 160))%N.

(** [len(s)] *)
Definition len (s : string) : Z := Z.of_nat (String.length s).

(** Truth value of a [str]: non-empty. *)
Definition nonempty (s : string) : bool :=
  match s with EmptyString => false | String _ _ => true end.

Fixpoint all_space (s : string) : bool :=
  match s with
  | EmptyString => true
  | String c r => is_space c && all_space r
  end.

Fixpoint no_space (s : string) : bool :=
  match s with
  | EmptyString => true
  | String c r => negb (is_space c) && no_space r
  end.

Fixpoint lstrip (s : string) : string :=
  match s with
  | EmptyString => EmptyString
  | String c r => if is_space c then lstrip r else s
  end.

Fixpoint rstrip (s : string) : string :=
  match s with
  | EmptyString => EmptyString
  | String c r =>
      let r' := rstrip r in
      if is_space c && negb (nonempty r') then EmptyString else String c r'
  end.

(** [s.strip()] *)
Definition strip (s : string) : string := rstrip (lstrip s).

(** [s.split()] with no separator: the maximal runs of non-blank
    characters, in order.  [cur] is the run being read. *)
Fixpoint split_from (s cur : string) : list string :=
  match s with
  | EmptyString => if nonempty cur then [cur] else []
  | String c r =>
      if is_space c
      then (if nonempty cur then cur :: split_from r "" else split_from r "")
      else split_from r (cur ++ String c "")
  end.

Definition split (s : string) : list string := split_from s "".

(** [sep.join(l)] *)
Fixpoint join (sep : string) (l : list string) : string :=
  match l with
  | [] => ""
  | [x] => x
  | x :: r => x ++ sep ++ join sep r
  end.

(** [s * n] *)
Definition repeat (s : string) (n : Z) : string :=
  String.concat "" (List.repeat s (Z.to_nat n)).

(** [str(n)] for an [int]. *)
Definition of_int (n : Z) : string := NilZero.string_of_int (Z.to_int n).

(** [s.rjust(n, "0")] *)
Definition zfill (n : nat) (s : string) : string :=
  String.concat "" (List.repeat "0" (n - String.length s)) ++ s.

(** [needle in s]: [needle] occurs in [s] as a substring. *)
Fixpoint contains (needle s : string) : bool :=
  String.prefix needle s ||
  match s with
  | EmptyString => false
  | String _ r => contains needle r
  end.

(** [c in s] for a single character [c]. *)
Fixpoint has_char (c : ascii) (s : string) : bool :=
  match s with
  | EmptyString => false
  | String d r => Ascii.eqb c d || has_char c r
  end.

Definition dquote : ascii := Ascii false true false false false true false false.

Definition hex_digit (n : N) : ascii :=
  if (n <? 10)%N then ascii_of_N (48 + n) else ascii_of_N (87 + n).

(** One character inside [repr(s)], for the quote character [q]: the
    quote and the backslash are escaped, TAB, LF and CR have their
    letter, and every other non-printable code point below 256 is
    written [\xNN]. *)
Definition repr_char (q c : ascii) : string :=
  let n := N_of_ascii c in
  if Ascii.eqb c q || Ascii.eqb c "\" then String "\" (String c "")
  else if (n =? 9)%N then "\t"
  else if (n =? 10)%N then "\n"
  else if (n =? 13)%N then "\r"
  else if ((n <? 32) || (127 <=? n) && (n <=? 160) || (n =? 173))%N
       then String "\" (String "x"
              (String (hex_digit (n / 16)) (String (hex_digit (n mod 16)) "")))
       else String c "".

Fixpoint repr_body (q : ascii) (s : string) : string :=
  match s with
  | EmptyString => EmptyString
  | String c r => repr_char q c ++ repr_body q r
  end.

(** [repr(s)]: single quotes, unless [s] has a single quote and no
    double quote. *)
Definition repr (s : string) : string :=
  let q := if has_char "'" s && negb (has_char dquote s) then dquote else "'"%char in
  String q (repr_body q s ++ String q "").

(** [s.rstrip("0")] *)
Fixpoint rstrip_zeros (s : string) : string :=
  match s with
  | EmptyString => EmptyString
  | String c r =>
      let r' := rstrip_zeros r in
      if Ascii.eqb c "0" && negb (nonempty r') then EmptyString else String c r'
  end.

End PyStr.

(* ================================================================= *)
(** ** [strip_html_tags] and [wrap_text] *)

(** The regular expression [<[^>]+>] tried at the head of [s]: a ['<'],
    one or more characters other than ['>'], then a ['>'].  The run of
    [[^>]] cannot pass a ['>'], so the only candidate end is the first
    ['>'] after the ['<']; the result is the length of the match. *)
Fixpoint span_not_gt (s : string) : nat * string :=
  match s with
  | EmptyString => (0%nat, s)
  | String c r =>
      if Ascii.eqb c ">" then (0%nat, s)
      else let (n, rest) := span_not_gt r in (S n, rest)
  end.

Definition match_tag (s : string) : option nat :=
  match s with
  | EmptyString => None
  | String c r =>
      if Ascii.eqb c "<"
      then match span_not_gt r with
           | (S n, String d _) =>
               if Ascii.eqb d ">" then Some (S n + 2)%nat else None
           | _ => None
           end
      else None
  end.

(** [re.sub(r"<[^>]+>", "", s)]: scanning from the left, a match at the
    current position is dropped ([skip] counts its remaining characters)
    and any other character is copied. *)
Fixpoint re_sub_tags (s : string) (skip : nat) : string :=
  match s with
  | EmptyString => EmptyString
  | String c r =>
      match skip with
      | S k => re_sub_tags r k
      | O =>
          match match_tag s with
          | Some n => re_sub_tags r (n - 1)
          | None => String c (re_sub_tags r 0)
          end
      end
  end.

Definition strip_html_tags (html : string) : string :=
  PyStr.strip (re_sub_tags html 0).

(** One iteration of the loop of [wrap_text]; the state is
    [(lines, current_line)]. *)
Definition wrap_step (width : Z) (indent : string)
    (st : list string * string) (word : string) : list string * string :=
  let (lines, current_line) := st in
  if PyStr.len current_line + PyStr.len word + 1 >? width
  then ((lines ++ [current_line])%list, indent ++ word)
  else if String.eqb current_line indent
       then (lines, current_line ++ word)
       else (lines, current_line ++ " " ++ word).

Definition wrap_text (text : string) (width : Z) (indent : string)
  : list string :=
  let words := PyStr.split text in
  let (lines, current_line) :=
    fold_left (wrap_step width indent) words ([], indent) in
  if PyStr.nonempty (PyStr.strip current_line)
  then (lines ++ [current_line])%list
  else lines.

(** The default arguments [width=80], [indent="  "]. *)
Definition wrap_text_default (text : string) : list string :=
  wrap_text text 80 "  ".

(* ================================================================= *)
(** ** Python floats

    A [float] is an IEEE 754 binary64 number: [spec_float] at precision
    53 and maximal exponent 1024. *)

Module PyFloat.

Definition prec : Z := 53.
Definition emax : Z := 1024.

Definition add : spec_float -> spec_float -> spec_float := SFadd prec emax.
Definition sub : spec_float -> spec_float -> spec_float := SFsub prec emax.
Definition div : spec_float -> spec_float -> spec_float := SFdiv prec emax.
Definition eqb : spec_float -> spec_float -> bool := SFeqb.

(** [float(n)] for an [int]: rounded to nearest-even, [None] where
    Python raises [OverflowError]. *)
Definition of_int (n : Z) : option spec_float :=
  match binary_normalize prec emax n 0 false with
  | S754_infinity _ => None
  | f => Some f
  end.

(** The float a decimal literal [m] e-[k] of a JSON document denotes
    (for [|m| < 2^53] and [k <= 22], where one division rounds correctly). *)
Definition of_decimal (m : Z) (k : nat) : spec_float :=
  div (binary_normalize prec emax m 0 false)
      (binary_normalize prec emax (10 ^ Z.of_nat k) 0 false).

(** The exact value of a finite float. *)
Definition to_Q (f : spec_float) : Q :=
  match f with
  | S754_finite s m e =>
      Qmult (inject_Z (cond_Zopp s (Zpos m))) (Qpower (inject_Z 2) e)
  | _ => inject_Z 0
  end.

(** [f == n] for an [int] [n]: exact comparison of the two values. *)
Definition eqb_int (f : spec_float) (n : Z) : bool :=
  match f with
  | S754_zero _ => n =? 0
  | S754_finite _ _ _ => Qeq_bool (to_Q f) (inject_Z n)
  | _ => false
  end.

(** Truth value of a float: non-zero. *)
Definition nonzero (f : spec_float) : bool :=
  match f with S754_zero _ => false | _ => true end.

Definition sign_text (s : bool) : string := if s then "-" else "".

(** [n / d] rounded to the nearest integer, ties to even ([0 <= n], [0 < d]). *)
Definition div_half_even (n d : Z) : Z :=
  let q := n / d in
  match 2 * (n mod d) ?= d with
  | Lt => q
  | Gt => q + 1
  | Eq => if Z.even q then q else q + 1
  end.

(** The decimal text of [q / 10^d] with [d] digits after the point. *)
Definition fixed_text (q : Z) (d : nat) : string :=
  let p := 10 ^ Z.of_nat d in
  PyStr.of_int (q / p) ++
  match d with
  | O => ""
  | _ => "." ++ PyStr.zfill d (PyStr.of_int (q mod p))
  end.

(** [format(f, ".<d>f")]: the exact value of [f] rounded half-even to [d]
    decimals. *)
Definition format_fixed (d : nat) (f : spec_float) : string :=
  match f with
  | S754_nan => "nan"
  | S754_infinity s => sign_text s ++ "inf"
  | S754_zero s => sign_text s ++ fixed_text 0 d
  | S754_finite s m e =>
      let n := Zpos m * 10 ^ Z.of_nat d in
      let q := if 0 <=? e then n * 2 ^ e else div_half_even n (2 ^ (- e)) in
      sign_text s ++ fixed_text q d
  end.

(** The decimal exponent of [x > 0]: the [k] with [10^(k-1) <= x < 10^k]. *)
Fixpoint dec_exp_small (fuel : nat) (x : Q) (k : Z) : Z :=
  match fuel with
  | O => k
  | S g => if Qle_bool (1 # 10) x then k
           else dec_exp_small g (Qmult x (inject_Z 10)) (k - 1)
  end.

Definition dec_exp (x : Q) : Z :=
  if Qle_bool (inject_Z 1) x
  then PyStr.len (PyStr.of_int (Qfloor x))
  else dec_exp_small 400 x 0.

(** The [n]-digit decimals next to [x] that read back as the same
    float, that is, lie in its rounding interval from [lo] to [hi]
    (ends included when [incl]); of two, the nearer, and the even one
    when they are as near. *)
Definition candidate (x lo hi : Q) (incl : bool) (k : Z) (n : nat) : option Z :=
  let scale := Qpower (inject_Z 10) (k - Z.of_nat n) in
  let d := Qfloor (Qdiv x scale) in
  let inside y :=
    if incl then Qle_bool lo y && Qle_bool y hi
    else negb (Qle_bool y lo) && negb (Qle_bool hi y) in
  let c1 := Qmult (inject_Z d) scale in
  let c2 := Qmult (inject_Z (d + 1)) scale in
  match inside c1, inside c2 with
  | true, true =>
      match Qcompare (Qminus x c1) (Qminus c2 x) with
      | Lt => Some d
      | Gt => Some (d + 1)
      | Eq => if Z.even d then Some d else Some (d + 1)
      end
  | true, false => Some d
  | false, true => Some (d + 1)
  | false, false => None
  end.

Fixpoint shortest (fuel : nat) (x lo hi : Q) (incl : bool) (k : Z) (n : nat)
  : Z * nat :=
  match fuel with
  | O => (Qfloor (Qdiv x (Qpower (inject_Z 10) (k - Z.of_nat n))), n)
  | S g =>
      match candidate x lo hi incl k n with
      | Some d => (d, n)
      | None => shortest g x lo hi incl k (S n)
      end
  end.

(** The shortest digit string that reads back as [m * 2^e], and the
    position of its decimal point. *)
Definition shortest_digits (m : positive) (e : Z) : string * Z :=
  let x := Qmult (inject_Z (Zpos m)) (Qpower (inject_Z 2) e) in
  let half := Qpower (inject_Z 2) (e - 1) in
  let below :=
    if (Zpos m =? 2 ^ (prec - 1)) && (3 - emax - prec <? e)
    then Qdiv half (inject_Z 2) else half in
  let k := dec_exp x in
  let (d, n) :=
    shortest 17 x (Qminus x below) (Qplus x half) (Z.even (Zpos m)) k 1 in
  let ds := PyStr.of_int d in
  (PyStr.rstrip_zeros ds, k + (PyStr.len ds - Z.of_nat n)).

(** [repr(f)], which is also [str(f)]: the shortest digits, in
    exponent notation when the decimal point is far from them. *)
Definition repr (f : spec_float) : string :=
  match f with
  | S754_nan => "nan"
  | S754_infinity s => sign_text s ++ "inf"
  | S754_zero s => sign_text s ++ "0.0"
  | S754_finite s m e =>
      let (ds, decpt) := shortest_digits m e in
      let n := String.length ds in
      sign_text s ++
      if (decpt <=? -4) || (16 <? decpt)
      then String.substring 0 1 ds ++
           (if (1 <? n)%nat then "." ++ String.substring 1 (n - 1) ds else "") ++
           "e" ++ (if decpt - 1 <? 0 then "-" else "+") ++
           PyStr.zfill 2 (PyStr.of_int (Z.abs (decpt - 1)))
      else if decpt <=? 0
      then "0." ++ PyStr.repeat "0" (- decpt) ++ ds
      else if Z.of_nat n <=? decpt
      then ds ++ PyStr.repeat "0" (decpt - Z.of_nat n) ++ ".0"
      else String.substring 0 (Z.to_nat decpt) ds ++ "." ++
           String.substring (Z.to_nat decpt) (n - Z.to_nat decpt) ds
  end.

End PyFloat.

(* ================================================================= *)
(** ** JSON documents and the Python values they decode to

    [resp.json()] yields [None], [bool], [int], [float], [str], [list]
    and [dict] values.  A [dict] keeps its items in insertion order, with
    distinct keys. *)

#[local] Set Warnings "-register-all".

Inductive json : Type :=
| JNull
| JBool (b : bool)
| JInt (n : Z)
| JFloat (f : spec_float)
| JStr (s : string)
| JArr (items : list json)
| JObj (fields : list (string * json)).

(** A request as the program hands it to [session.get] or [session.post]. *)
Inductive http_method := GET | POST.

Record Request := mkRequest {
  req_method : http_method;
  req_url : string;
  req_headers : list (string * json);
  req_params : list (string * json);
  req_json : option json
}.

(** What the program reads of a [requests.Response]: the status line, the
    final URL, the body text, and the body decoded as JSON (the decoder's
    message where the body is not JSON). *)
Record Response := mkResponse {
  status_code : Z;
  reason : string;
  resp_url : string;
  text : string;
  json_body : string + json
}.

(** Exception classes; each of them derives from [Exception].
    [RequestException] stands for what the HTTP library raises when no
    response arrives. *)
Inductive exc_class :=
| Exception
| ProductNotFoundError
| HTTPError
| RequestException
| JSONDecodeError
| KeyError
| AttributeError
| TypeError
| ValueError
| OverflowError
| IndexError.

(** An exception: its class, [str(e)], and [e.response]. *)
Record exc := mkExc {
  exc_cls : exc_class;
  exc_str : string;
  exc_response : option Response
}.

Definition class_name (c : exc_class) : string :=
  match c with
  | Exception => "Exception"
  | ProductNotFoundError => "ProductNotFoundError"
  | HTTPError => "HTTPError"
  | RequestException => "RequestException"
  | JSONDecodeError => "JSONDecodeError"
  | KeyError => "KeyError"
  | AttributeError => "AttributeError"
  | TypeError => "TypeError"
  | ValueError => "ValueError"
  | OverflowError => "OverflowError"
  | IndexError => "IndexError"
  end.

Definition exc_class_eqb (a b : exc_class) : bool :=
  String.eqb (class_name a) (class_name b).

(** The result of evaluating an expression: a value, or a raised exception. *)
Inductive outcome (A : Type) : Type :=
| Ok (a : A)
| Raised (e : exc).
Arguments Ok {A} a.
Arguments Raised {A} e.

Definition raise {A : Type} (c : exc_class) (msg : string) : outcome A :=
  Raised (mkExc c msg None).

Definition obind {A B : Type} (x : outcome A) (k : A -> outcome B) : outcome B :=
  match x with
  | Ok a => k a
  | Raised e => Raised e
  end.

Declare Scope outcome_scope.
Delimit Scope outcome_scope with outcome.
Notation "'let?' x ':=' c 'in' k" :=
  (obind c (fun x => k))
  (at level 10, x pattern, c at level 100, k at level 200) : outcome_scope.

Module Py.

Local Open Scope outcome_scope.

Definition nl : string := String "010" "".

Definition type_name (v : json) : string :=
  match v with
  | JNull => "NoneType"
  | JBool _ => "bool"
  | JInt _ => "int"
  | JFloat _ => "float"
  | JStr _ => "str"
  | JArr _ => "list"
  | JObj _ => "dict"
  end.

(** [bool(v)] *)
Definition truthy (v : json) : bool :=
  match v with
  | JNull => false
  | JBool b => b
  | JInt n => negb (n =? 0)
  | JFloat f => PyFloat.nonzero f
  | JStr s => PyStr.nonempty s
  | JArr l => match l with [] => false | _ => true end
  | JObj l => match l with [] => false | _ => true end
  end.

(** [repr(v)] *)
Fixpoint repr (v : json) : string :=
  match v with
  | JNull => "None"
  | JBool b => if b then "True" else "False"
  | JInt n => PyStr.of_int n
  | JFloat f => PyFloat.repr f
  | JStr s => PyStr.repr s
  | JArr l =>
      "[" ++
      (fix items (l : list json) : string :=
         match l with
         | [] => ""
         | [x] => repr x
         | x :: r => repr x ++ ", " ++ items r
         end) l ++ "]"
  | JObj l =>
      "{" ++
      (fix items (l : list (string * json)) : string :=
         match l with
         | [] => ""
         | [(k, x)] => PyStr.repr k ++ ": " ++ repr x
         | (k, x) :: r => PyStr.repr k ++ ": " ++ repr x ++ ", " ++ items r
         end) l ++ "}"
  end.

(** [str(v)], what an f-string field [{v}] produces. *)
Definition str (v : json) : string :=
  match v with
  | JStr s => s
  | _ => repr v
  end.

(** The item of a [dict] under a key. *)
Fixpoint lookup (key : string) (fields : list (string * json)) : option json :=
  match fields with
  | [] => None
  | (k, v) :: r => if String.eqb k key then Some v else lookup key r
  end.

Definition no_attribute {A : Type} (v : json) (attr : string) : outcome A :=
  raise AttributeError
    ("'" ++ type_name v ++ "' object has no attribute '" ++ attr ++ "'").

(** [v.get(key, default)] *)
Definition get (v : json) (key : string) (default : json) : outcome json :=
  match v with
  | JObj fields =>
      Ok (match lookup key fields with Some x => x | None => default end)
  | _ => no_attribute v "get"
  end.

(** [v.get(key)], with [None] for a missing key. *)
Definition get1 (v : json) (key : string) : outcome json := get v key JNull.

(** [v[key]] for a [str] key. *)
Definition subscript (v : json) (key : string) : outcome json :=
  match v with
  | JObj fields =>
      match lookup key fields with
      | Some x => Ok x
      | None => raise KeyError (PyStr.repr key)
      end
  | JStr _ => raise TypeError "string indices must be integers, not 'str'"
  | JArr _ => raise TypeError "list indices must be integers or slices, not str"
  | _ => raise TypeError ("'" ++ type_name v ++ "' object is not subscriptable")
  end.

(** [v == s] for a [str] [s]. *)
Definition eq_str (v : json) (s : string) : bool :=
  match v with
  | JStr t => String.eqb t s
  | _ => false
  end.

(** [v == n] for an [int] [n]; [True] and [False] are the ints 1 and 0. *)
Definition eq_int (v : json) (n : Z) : bool :=
  match v with
  | JBool b => (if b then 1 else 0) =? n
  | JInt m => m =? n
  | JFloat f => PyFloat.eqb_int f n
  | _ => false
  end.

(** [s in v] for a [str] [s]: a key of a [dict], an item of a [list], a
    substring of a [str]. *)
Definition contains (s : string) (v : json) : outcome bool :=
  match v with
  | JObj fields =>
      Ok (match lookup s fields with Some _ => true | None => false end)
  | JArr items => Ok (existsb (fun x => eq_str x s) items)
  | JStr t => Ok (PyStr.contains s t)
  | _ => raise TypeError
           ("argument of type '" ++ type_name v ++ "' is not iterable")
  end.

(** The items a [for] loop over [v] visits: the items of a [list], the
    keys of a [dict], the characters of a [str]. *)
Fixpoint chars (s : string) : list json :=
  match s with
  | EmptyString => []
  | String c r => JStr (String c "") :: chars r
  end.

Definition iter (v : json) : outcome (list json) :=
  match v with
  | JArr l => Ok l
  | JObj l => Ok (map (fun kv => JStr (fst kv)) l)
  | JStr s => Ok (chars s)
  | _ => raise TypeError ("'" ++ type_name v ++ "' object is not iterable")
  end.

(** [s.split(sep)] for a one-character separator. *)
Fixpoint split_on (sep : ascii) (s : string) : list string :=
  match s with
  | EmptyString => [""]
  | String c r =>
      if Ascii.eqb c sep then "" :: split_on sep r
      else match split_on sep r with
           | x :: xs => String c x :: xs
           | [] => [String c ""]
           end
  end.

(** [v.split("T")]: only a [str] has the method. *)
Definition split_T (v : json) : outcome (list string) :=
  match v with
  | JStr s => Ok (split_on "T" s)
  | _ => no_attribute v "split"
  end.

(** [l[i]] on a list of strings. *)
Definition item (l : list string) (i : nat) : outcome string :=
  match nth_error l i with
  | Some x => Ok x
  | None => raise IndexError "list index out of range"
  end.

(** [sep.join(v)]: every item must be a [str]. *)
Fixpoint join_items (sep : string) (i : nat) (l : list json) : outcome string :=
  match l with
  | [] => Ok ""
  | x :: r =>
      match x with
      | JStr s =>
          match r with
          | [] => Ok s
          | _ => let? t := join_items sep (S i) r in Ok (s ++ sep ++ t)
          end
      | _ =>
          raise TypeError
            ("sequence item " ++ PyStr.of_int (Z.of_nat i)
             ++ ": expected str instance, " ++ type_name x ++ " found")
      end
  end.

Definition join (sep : string) (v : json) : outcome string :=
  match v with
  | JArr _ | JObj _ | JStr _ => let? l := iter v in join_items sep 0 l
  | _ => raise TypeError "can only join an iterable"
  end.

(** The first item of a list that passes a test which may raise: the
    loop [for x in l: if test(x): found = x; break]. *)
Fixpoint find_first (test : json -> outcome bool) (l : list json)
  : outcome (option json) :=
  match l with
  | [] => Ok None
  | x :: r =>
      let? b := test x in
      if b then Ok (Some x) else find_first test r
  end.

(** [[f(x) for x in l]] *)
Fixpoint map_o {A B : Type} (f : A -> outcome B) (l : list A) : outcome (list B) :=
  match l with
  | [] => Ok []
  | x :: r => let? y := f x in let? ys := map_o f r in Ok (y :: ys)
  end.

(** [len(v)] *)
Definition len (v : json) : outcome Z :=
  match v with
  | JStr s => Ok (PyStr.len s)
  | JArr l => Ok (Z.of_nat (List.length l))
  | JObj l => Ok (Z.of_nat (List.length l))
  | _ => raise TypeError ("object of type '" ++ type_name v ++ "' has no len()")
  end.

(** Python numbers. *)
Inductive num :=
| NInt (n : Z)
| NFloat (f : spec_float).

Definition num_json (x : num) : json :=
  match x with
  | NInt n => JInt n
  | NFloat f => JFloat f
  end.

(** The number a value is in arithmetic, if any; a [bool] is an [int]. *)
Definition as_num (v : json) : option num :=
  match v with
  | JBool b => Some (NInt (if b then 1 else 0))
  | JInt n => Some (NInt n)
  | JFloat f => Some (NFloat f)
  | _ => None
  end.

(** [float(x)] *)
Definition to_float (x : num) : outcome spec_float :=
  match x with
  | NFloat f => Ok f
  | NInt n =>
      match PyFloat.of_int n with
      | Some f => Ok f
      | None => raise OverflowError "int too large to convert to float"
      end
  end.

(** [a op b] for [+] and [-]: on two ints the exact result, otherwise on
    floats. *)
Definition arith (op : string) (zop : Z -> Z -> Z)
    (fop : spec_float -> spec_float -> spec_float) (a b : json)
  : outcome num :=
  match as_num a, as_num b with
  | Some (NInt m), Some (NInt n) => Ok (NInt (zop m n))
  | Some x, Some y =>
      let? f := to_float x in
      let? g := to_float y in
      Ok (NFloat (fop f g))
  | _, _ =>
      raise TypeError
        ("unsupported operand type(s) for " ++ op ++ ": '" ++ type_name a
         ++ "' and '" ++ type_name b ++ "'")
  end.

Definition sub : json -> json -> outcome num := arith "-" Z.sub PyFloat.sub.
Definition add : json -> json -> outcome num := arith "+" Z.add PyFloat.add.

(** [sum(l)]: [0 + l[0] + l[1] + ...] *)
Fixpoint sum_from (acc : num) (l : list json) : outcome num :=
  match l with
  | [] => Ok acc
  | x :: r => let? acc' := add (num_json acc) x in sum_from acc' r
  end.

Definition sum (l : list json) : outcome num := sum_from (NInt 0) l.

(** [sum(f(x) for x in l)]: the generator yields [f(x)] when [sum] asks
    for the next item, so each [f(x)] is computed just before it is
    added. *)
Fixpoint sum_gen_from {A : Type} (f : A -> outcome json) (acc : num)
    (l : list A) : outcome num :=
  match l with
  | [] => Ok acc
  | x :: r =>
      let? y := f x in
      let? acc' := add (num_json acc) y in
      sum_gen_from f acc' r
  end.

Definition sum_gen {A : Type} (f : A -> outcome json) (l : list A)
  : outcome num :=
  sum_gen_from f (NInt 0) l.

(** [format(v, ".<d>f")], the f-string field [{v:.<d>f}]. *)
Definition format_f (d : nat) (v : json) : outcome string :=
  match as_num v with
  | Some x => let? f := to_float x in Ok (PyFloat.format_fixed d f)
  | None =>
      match v with
      | JStr _ =>
          raise ValueError "Unknown format code 'f' for object of type 'str'"
      | _ =>
          raise TypeError
            ("unsupported format string passed to " ++ type_name v
             ++ ".__format__")
      end
  end.

End Py.

(* ================================================================= *)
(** ** The world the program runs in

    The HTTP library and the remote service answer every request with a
    response or with an exception of the library; the answer may depend
    on the requests sent before (the session's cookies).  [uuid4] is the
    sequence of values [uuid.uuid4()] yields.  The program adds to the
    log of requests, to the count of identifiers drawn and to the two
    output streams (one entry per [print] call). *)

Record World := mkWorld {
  remote : list Request -> Request -> exc + Response;
  uuid4 : nat -> string;
  sent : list Request;
  drawn : nat;
  stdout : list string;
  stderr : list string
}.

Definition M (A : Type) : Type := World -> outcome A * World.

Definition ret {A : Type} (a : A) : M A := fun w => (Ok a, w).

Definition bind {A B : Type} (m : M A) (k : A -> M B) : M B :=
  fun w =>
    match m w with
    | (Ok a, w') => k a w'
    | (Raised e, w') => (Raised e, w')
    end.

Definition lift {A : Type} (x : outcome A) : M A := fun w => (x, w).

(** [try: body except <handles>: handler] *)
Definition try_except {A : Type} (body : M A) (handles : exc -> bool)
    (handler : exc -> M A) : M A :=
  fun w =>
    match body w with
    | (Ok a, w') => (Ok a, w')
    | (Raised e, w') => if handles e then handler e w' else (Raised e, w')
    end.

Declare Scope py_scope.
Delimit Scope py_scope with py.
Notation "x <- c ;; k" := (bind c (fun x => k))
  (at level 61, c at next level, right associativity) : py_scope.
Notation "x <~ c ;; k" := (bind (lift c) (fun x => k))
  (at level 61, c at next level, right associativity) : py_scope.
Notation "c ;; k" := (bind c (fun _ => k))
  (at level 61, right associativity) : py_scope.

Local Open Scope py_scope.
Local Open Scope outcome_scope.

(** The four ways the program changes the world. *)
Definition add_stdout (s : string) (w : World) : World :=
  mkWorld (remote w) (uuid4 w) (sent w) (drawn w) (stdout w ++ [s]) (stderr w).

Definition add_stderr (s : string) (w : World) : World :=
  mkWorld (remote w) (uuid4 w) (sent w) (drawn w) (stdout w) (stderr w ++ [s]).

Definition add_drawn (w : World) : World :=
  mkWorld (remote w) (uuid4 w) (sent w) (S (drawn w)) (stdout w) (stderr w).

Definition add_sent (r : Request) (w : World) : World :=
  mkWorld (remote w) (uuid4 w) (sent w ++ [r]) (drawn w) (stdout w) (stderr w).

(** [print(s)] and [print(s, file=sys.stderr)] *)
Definition print (s : string) : M unit := fun w => (Ok tt, add_stdout s w).

Definition print_err (s : string) : M unit := fun w => (Ok tt, add_stderr s w).

(** [str(uuid.uuid4())] *)
Definition new_uuid : M string :=
  fun w => (Ok (uuid4 w (drawn w)), add_drawn w).

(** [session.get(...)] and [session.post(...)]: the request is logged
    and the world answers. *)
Definition session_request (r : Request) : M Response :=
  fun w =>
    match remote w (sent w) r with
    | inr resp => (Ok resp, add_sent r w)
    | inl e => (Raised e, add_sent r w)
    end.

Definition session_get (url : string) (headers params : list (string * json))
  : M Response :=
  session_request (mkRequest GET url headers params None).

Definition session_post (url : string) (headers : list (string * json))
    (payload : json) : M Response :=
  session_request (mkRequest POST url headers [] (Some payload)).

(** [resp.raise_for_status()] *)
Definition raise_for_status (resp : Response) : outcome unit :=
  let c := status_code resp in
  let msg kind :=
    PyStr.of_int c ++ " " ++ kind ++ " Error: " ++ reason resp
    ++ " for url: " ++ resp_url resp in
  if (400 <=? c) && (c <? 500)
  then Raised (mkExc HTTPError (msg "Client") (Some resp))
  else if (500 <=? c) && (c <? 600)
  then Raised (mkExc HTTPError (msg "Server") (Some resp))
  else Ok tt.

(** [resp.json()] *)
Definition resp_json (resp : Response) : outcome json :=
  match json_body resp with
  | inr v => Ok v
  | inl msg => raise JSONDecodeError msg
  end.

(** [d[key] = v] on a dict with [str] keys. *)
Fixpoint dict_set (key : string) (v : json) (d : list (string * json))
  : list (string * json) :=
  match d with
  | [] => [(key, v)]
  | (k, x) :: r =>
      if String.eqb k key then (k, v) :: r else (k, x) :: dict_set key v r
  end.

(** [for x in l: body(x)] *)
Fixpoint for_each {A : Type} (l : list A) (body : A -> M unit) : M unit :=
  match l with
  | [] => ret tt
  | x :: r => body x ;; for_each r body
  end.

(** A loop that updates one variable. *)
Fixpoint for_fold {A S : Type} (l : list A) (acc : S) (body : S -> A -> M S)
  : M S :=
  match l with
  | [] => ret acc
  | x :: r => acc' <- body acc x ;; for_fold r acc' body
  end.

(* ================================================================= *)
(** ** The program *)

Definition BASE_URL : string := "https://www.nemlig.com".
Definition SEARCH_API_URL : string :=
  "https://webapi.prod.knl.nemlig.it/searchgateway/api".

(** [AuthTokens]; its [session] is the world's request log. *)
Record AuthTokens := mkAuthTokens {
  xsrf_token : json;
  bearer_token : json
}.

(** [ORDER_STATUS_MAP.get(status_code, default)]: the keys are the ints
    1, 2 and 4; a [list] or [dict] key cannot be hashed. *)
Definition ORDER_STATUS_MAP_get (status_code : json) (default : string)
  : outcome string :=
  match status_code with
  | JArr _ | JObj _ =>
      raise TypeError ("unhashable type: '" ++ Py.type_name status_code ++ "'")
  | _ =>
      Ok (if Py.eq_int status_code 1 then "Pending"
          else if Py.eq_int status_code 2 then "Processing"
          else if Py.eq_int status_code 4 then "Delivered"
          else default)
  end.

Definition MAX_ORDER_HISTORY_LOOKUP : Z := 100.

Definition get_common_headers : M (list (string * json)) :=
  cid <- new_uuid ;;
  ret [ ("Accept", JStr "application/json, text/plain, */*");
        ("Content-Type", JStr "application/json");
        ("User-Agent", JStr "Mozilla/5.0 (X11; Linux x86_64) AppleWebKit/537.36 (KHTML, like Gecko) Chrome/136.0.0.0 Safari/537.36");
        ("Device-Size", JStr "desktop");
        ("Platform", JStr "web");
        ("Version", JStr "11.201.0");
        ("X-Correlation-Id", JStr cid) ].

Definition login (username password : string) : M AuthTokens :=
  headers <- get_common_headers ;;
  (* Step 1: Get XSRF token *)
  print_err "Step 1: Getting XSRF token..." ;;
  resp <- session_get (BASE_URL ++ "/webapi/AntiForgery") headers [] ;;
  _ <~ raise_for_status resp ;;
  xsrf_data <~ resp_json resp ;;
  xsrf_token <~ Py.subscript xsrf_data "Value" ;;
  (* Step 2: Get Bearer token *)
  print_err "Step 2: Getting Bearer token..." ;;
  cid <- new_uuid ;;
  let headers := dict_set "X-Correlation-Id" (JStr cid) headers in
  resp <- session_get (BASE_URL ++ "/webapi/Token") headers [] ;;
  _ <~ raise_for_status resp ;;
  token_data <~ resp_json resp ;;
  bearer_token <~ Py.subscript token_data "access_token" ;;
  (* Step 3: Login *)
  print_err "Step 3: Logging in..." ;;
  cid <- new_uuid ;;
  let headers := dict_set "X-Correlation-Id" (JStr cid) headers in
  let headers := dict_set "X-XSRF-TOKEN" xsrf_token headers in
  let headers :=
    dict_set "Authorization" (JStr ("Bearer " ++ Py.str bearer_token)) headers in
  let headers :=
    dict_set "Referer" (JStr (BASE_URL ++ "/login?returnUrl=%2F")) headers in
  let login_payload :=
    JObj [ ("Username", JStr username);
           ("Password", JStr password);
           ("CheckForExistingProducts", JBool true);
           ("DoMerge", JBool true);
           ("AppInstalled", JBool false);
           ("SaveExistingBasket", JBool false) ] in
  resp <- session_post (BASE_URL ++ "/webapi/login") headers login_payload ;;
  _ <~ raise_for_status resp ;;
  login_result <~ resp_json resp ;;
  has_redirect <~ Py.contains "RedirectUrl" login_result ;;
  if negb has_redirect
  then lift (raise Exception ("Login failed: " ++ Py.str login_result))
  else
  print_err "Login successful!" ;;
  (* Get fresh tokens after login *)
  cid <- new_uuid ;;
  let headers := dict_set "X-Correlation-Id" (JStr cid) headers in
  resp <- session_get (BASE_URL ++ "/webapi/Token") headers [] ;;
  _ <~ raise_for_status resp ;;
  token_data <~ resp_json resp ;;
  bearer_token <~ Py.subscript token_data "access_token" ;;
  (* Get fresh XSRF token *)
  resp <- session_get (BASE_URL ++ "/webapi/AntiForgery") headers [] ;;
  _ <~ raise_for_status resp ;;
  xsrf_data <~ resp_json resp ;;
  xsrf_token <~ Py.subscript xsrf_data "Value" ;;
  ret (mkAuthTokens xsrf_token bearer_token).

(** The headers every call after login starts from. *)
Definition auth_headers (auth : AuthTokens) : M (list (string * json)) :=
  headers <- get_common_headers ;;
  let headers :=
    dict_set "Authorization" (JStr ("Bearer " ++ Py.str (bearer_token auth)))
             headers in
  ret (dict_set "X-XSRF-TOKEN" (xsrf_token auth) headers).

Definition get_app_settings (auth : AuthTokens) : M json :=
  headers <- auth_headers auth ;;
  resp <- session_get (BASE_URL ++ "/webapi/v2/AppSettings/Website") headers [] ;;
  _ <~ raise_for_status resp ;;
  lift (resp_json resp).

(** The dict [get_page_settings] returns. *)
Record PageSettings := mkPageSettings {
  ps_timestamp : json;
  ps_timeslotUtc : json;
  ps_deliveryZoneId : json;
  ps_userId : json
}.

Definition get_page_settings (auth : AuthTokens) : M PageSettings :=
  headers <- auth_headers auth ;;
  settings <- get_app_settings auth ;;
  let timeslot_utc := JStr "2025120216-180-1020" in
  let params := [("GetAsJson", JStr "1"); ("d", JStr "1")] in
  resp <- session_get (BASE_URL ++ "/") headers params ;;
  _ <~ raise_for_status resp ;;
  data <~ resp_json resp ;;
  page_settings <~ Py.get data "Settings" (JObj []) ;;
  slot <~ Py.get1 page_settings "TimeslotUtc" ;;
  timeslot_utc <~ (if Py.truthy slot
                   then Py.subscript page_settings "TimeslotUtc"
                   else Ok timeslot_utc) ;;
  timestamp <~ Py.get settings "CombinedProductsAndSitecoreTimestamp" (JStr "") ;;
  zone <~ Py.get page_settings "DeliveryZoneId" (JInt 1) ;;
  user <~ Py.get page_settings "UserId" (JStr "") ;;
  ret (mkPageSettings timestamp timeslot_utc zone user).

Definition search_products (auth : AuthTokens) (query : string) (limit : Z)
  : M json :=
  page_settings <- get_page_settings auth ;;
  cid <- new_uuid ;;
  let headers :=
    [ ("Accept", JStr "application/json, text/plain, */*");
      ("Authorization", JStr ("Bearer " ++ Py.str (bearer_token auth)));
      ("X-Correlation-Id", JStr cid);
      ("Referer", JStr (BASE_URL ++ "/"));
      ("User-Agent", JStr "Mozilla/5.0 (X11; Linux x86_64) AppleWebKit/537.36") ] in
  let params :=
    [ ("query", JStr query);
      ("take", JInt limit);
      ("skip", JInt 0);
      ("recipeCount", JInt 0);
      ("timestamp", ps_timestamp page_settings);
      ("timeslotUtc", ps_timeslotUtc page_settings);
      ("deliveryZoneId", ps_deliveryZoneId page_settings) ] in
  let params :=
    if Py.truthy (ps_userId page_settings)
    then dict_set "includeFavorites" (ps_userId page_settings) params
    else params in
  resp <- session_get (SEARCH_API_URL ++ "/search") headers params ;;
  _ <~ raise_for_status resp ;;
  data <~ resp_json resp ;;
  products_data <~ Py.get data "Products" (JObj []) ;;
  lift (Py.get products_data "Products" (JArr [])).

Definition get_basket (auth : AuthTokens) : M json :=
  headers <- auth_headers auth ;;
  resp <- session_get (BASE_URL ++ "/webapi/basket/GetBasket") headers [] ;;
  _ <~ raise_for_status resp ;;
  lift (resp_json resp).

Definition add_to_basket (auth : AuthTokens) (product_id : string) (quantity : Z)
  : M json :=
  headers <- auth_headers auth ;;
  let headers := dict_set "Referer" (JStr (BASE_URL ++ "/")) headers in
  let payload :=
    JObj [ ("ProductId", JStr product_id);
           ("quantity", JInt quantity);
           ("AffectPartialQuantity", JBool false);
           ("disableQuantityValidation", JBool false) ] in
  resp <- session_post (BASE_URL ++ "/webapi/basket/AddToBasket") headers payload ;;
  _ <~ raise_for_status resp ;;
  lift (resp_json resp).

Definition get_order_history (auth : AuthTokens) (skip take : Z) : M json :=
  headers <- auth_headers auth ;;
  let params := [("skip", JInt skip); ("take", JInt take)] in
  resp <- session_get (BASE_URL ++ "/webapi/order/GetBasicOrderHistory")
                      headers params ;;
  _ <~ raise_for_status resp ;;
  lift (resp_json resp).

Definition get_order_details (auth : AuthTokens) (order_id : Z) : M json :=
  headers <- auth_headers auth ;;
  resp <- session_get (BASE_URL ++ "/webapi/v2/order/GetOrderHistory/"
                       ++ PyStr.of_int order_id) headers [] ;;
  _ <~ raise_for_status resp ;;
  lift (resp_json resp).

(** The first loop of [get_product_details]: the [Url] of the first
    search result whose [Id] is the product id, [None] when the loop
    ends without a match. *)
Definition find_product_url (products : json) (product_id : string)
  : outcome json :=
  let? items := Py.iter products in
  let? found :=
    Py.find_first
      (fun p => let? id := Py.get1 p "Id" in Ok (Py.eq_str id product_id))
      items in
  match found with
  | Some p => Py.get1 p "Url"
  | None => Ok JNull
  end.

(** The second loop: the first item of the page whose [TemplateName] is
    [productdetailspot]. *)
Definition find_detail_block (content : list json) : outcome (option json) :=
  Py.find_first
    (fun item =>
       let? t := Py.get1 item "TemplateName" in
       Ok (Py.eq_str t "productdetailspot"))
    content.

Definition get_product_details (auth : AuthTokens) (product_id : string)
  : M json :=
  products <- search_products auth product_id 5 ;;
  product_url <~ find_product_url products product_id ;;
  if negb (Py.truthy product_url)
  then
    n <~ Py.len products ;;
    lift (raise ProductNotFoundError
            ("Product " ++ product_id ++ " not found. "
             ++ "Search returned " ++ PyStr.of_int n
             ++ " products but none matched ID."))
  else
  page_settings <- get_page_settings auth ;;
  headers <- auth_headers auth ;;
  let params :=
    [ ("GetAsJson", JStr "1");
      ("t", ps_timeslotUtc page_settings);
      ("d", JStr "1") ] in
  resp <- session_get (BASE_URL ++ "/" ++ Py.str product_url) headers params ;;
  _ <~ raise_for_status resp ;;
  data <~ resp_json resp ;;
  content <~ Py.get data "content" (JArr []) ;;
  items <~ Py.iter content ;;
  found <~ find_detail_block items ;;
  match found with
  | Some item => ret item
  | None =>
      template_names <~
        Py.map_o (fun item => Py.get item "TemplateName" (JStr "unknown")) items ;;
      lift (raise ProductNotFoundError
              ("Product " ++ product_id
               ++ ": No 'productdetailspot' in response. "
               ++ "Found templates: " ++ Py.repr (JArr template_names)))
  end.

(* ----------------------------------------------------------------- *)
(** *** Presenter *)

Definition format_product (product : json) : outcome string :=
  let? price := Py.get product "Price" (JInt 0) in
  let? name := Py.get product "Name" (JStr "Unknown") in
  let? brand := Py.get product "Brand" (JStr "") in
  let? description := Py.get product "Description" (JStr "") in
  let? product_id := Py.get product "Id" (JStr "") in
  let? image_url := Py.get product "PrimaryImage" (JStr "") in
  let? availability := Py.get product "Availability" (JObj []) in
  let? available := Py.get availability "IsAvailableInStock" (JBool false) in
  let availability_str :=
    if Py.truthy available then "In stock" else "OUT OF STOCK" in
  let? price_2f := Py.format_f 2 price in
  let line :=
    "  [" ++ Py.str product_id ++ "] " ++ Py.str name
    ++ " (" ++ Py.str brand ++ ") - " ++ price_2f ++ " kr - "
    ++ Py.str description ++ " [" ++ availability_str ++ "]" in
  if Py.truthy image_url
  then Ok (line ++ Py.nl ++ "    Image: " ++ Py.str image_url)
  else Ok line.

Definition format_basket_line (line : json) : outcome string :=
  let? name := Py.get line "Name" (JStr "Unknown") in
  let? brand := Py.get line "Brand" (JStr "") in
  let? quantity := Py.get line "Quantity" (JInt 0) in
  let? item_price := Py.get line "ItemPrice" (JInt 0) in
  let? total_price := Py.get line "Price" (JInt 0) in
  let? product_id := Py.get line "Id" (JStr "") in
  let? item_price_2f := Py.format_f 2 item_price in
  let? total_price_2f := Py.format_f 2 total_price in
  Ok ("  [" ++ Py.str product_id ++ "] " ++ Py.str name
      ++ " (" ++ Py.str brand ++ ") x" ++ Py.str quantity
      ++ " @ " ++ item_price_2f ++ " kr = " ++ total_price_2f ++ " kr").

(** [v.split("T")[i]] and [v.split("T")[1][:5] if "T" in v else ""] *)
Definition split_T_item (v : json) (i : nat) : outcome string :=
  let? parts := Py.split_T v in Py.item parts i.

Definition time_of (v : json) : outcome string :=
  let? has_T := Py.contains "T" v in
  if has_T
  then let? t := split_T_item v 1 in Ok (String.substring 0 5 t)
  else Ok "".

Definition format_order_summary (order : json) : outcome string :=
  let? order_num := Py.get order "OrderNumber" (JStr "Unknown") in
  let? order_id := Py.get order "Id" (JStr "") in
  let? total := Py.get order "Total" (JInt 0) in
  let? status_code := Py.get order "Status" (JInt 0) in
  let? order_date := Py.get order "OrderDate" (JStr "") in
  let? date_part :=
    if Py.truthy order_date then split_T_item order_date 0 else Ok "Unknown" in
  let? status :=
    ORDER_STATUS_MAP_get status_code ("Status " ++ Py.str status_code) in
  let? delivery_time := Py.get order "DeliveryTime" (JObj []) in
  let? delivery_start := Py.get delivery_time "Start" (JStr "") in
  let? delivery_end := Py.get delivery_time "End" (JStr "") in
  let? delivery_str :=
    if Py.truthy delivery_start && Py.truthy delivery_end
    then
      let? start_time := time_of delivery_start in
      let? end_time := time_of delivery_end in
      let? has_T := Py.contains "T" delivery_start in
      let? delivery_date :=
        if has_T then split_T_item delivery_start 0 else Ok "" in
      Ok (delivery_date ++ " " ++ start_time ++ "-" ++ end_time)
    else Ok "N/A" in
  let? total_2f := Py.format_f 2 total in
  Ok ("  [" ++ Py.str order_id ++ "] " ++ Py.str order_num ++ " - "
      ++ date_part ++ " - " ++ total_2f ++ " kr - " ++ status
      ++ " - Delivery: " ++ delivery_str).

Definition format_order_line (line : json) : outcome string :=
  let? name := Py.get line "ProductName" (JStr "Unknown") in
  let? quantity := Py.get line "Quantity" (JInt 0) in
  let? amount := Py.get line "Amount" (JInt 0) in
  let? avg_price := Py.get line "AverageItemPrice" (JInt 0) in
  let? product_num := Py.get line "ProductNumber" (JStr "") in
  let? description := Py.get line "Description" (JStr "") in
  let? has_campaign := Py.get line "HasCampaign" (JBool false) in
  let campaign_str := if Py.truthy has_campaign then " [OFFER]" else "" in
  let? quantity_0f := Py.format_f 0 quantity in
  let? avg_price_2f := Py.format_f 2 avg_price in
  let? amount_2f := Py.format_f 2 amount in
  Ok ("  [" ++ Py.str product_num ++ "] " ++ Py.str name ++ " - "
      ++ Py.str description ++ " x" ++ quantity_0f ++ " @ " ++ avg_price_2f
      ++ " kr = " ++ amount_2f ++ " kr" ++ campaign_str).


(** The list [output] of [format_order_details], before it is joined. *)
Definition order_details_output (order lines : json) : outcome (list string) :=
  let? order_num := Py.get order "OrderNumber" (JStr "Unknown") in
  let? order_id := Py.get order "Id" (JStr "") in
  let? total := Py.get order "Total" (JInt 0) in
  let? subtotal := Py.get order "SubTotal" (JInt 0) in
  let? delivery_fee := Py.sub total subtotal in
  let title := "Order " ++ Py.str order_num in
  let? subtotal_2f := Py.format_f 2 subtotal in
  let? delivery_2f := Py.format_f 2 (Py.num_json delivery_fee) in
  let? total_2f := Py.format_f 2 total in
  let? n := Py.len lines in
  let head :=
    [ title;
      PyStr.repeat "=" (PyStr.len title);
      "";
      "Order ID:     " ++ Py.str order_id;
      "Subtotal:     " ++ subtotal_2f ++ " kr";
      "Delivery:     " ++ delivery_2f ++ " kr";
      "Total:        " ++ total_2f ++ " kr";
      "";
      "Items (" ++ PyStr.of_int n ++ "):" ] in
  let? items := Py.iter lines in
  let? body := Py.map_o format_order_line items in
  let? line_total :=
    Py.sum_gen (fun line => Py.get line "Amount" (JInt 0)) items in
  let? line_total_2f := Py.format_f 2 (Py.num_json line_total) in
  let foot := [""; "  Lines total: " ++ line_total_2f ++ " kr"] in
  Ok (head ++ body ++ foot)%list.

Definition format_order_details (order lines : json) : outcome string :=
  let? output := order_details_output order lines in
  Ok (PyStr.join Py.nl output).

(** [strip_html_tags] on a value: [re.sub] wants a [str]. *)
Definition strip_html_tags_of (v : json) : outcome string :=
  match v with
  | JStr s => Ok (strip_html_tags s)
  | _ =>
      raise TypeError
        ("expected string or bytes-like object, got '" ++ Py.type_name v ++ "'")
  end.

Definition format_product_details (product : json) : outcome string :=
  (* Basic info *)
  let? name := Py.get product "Name" (JStr "Unknown") in
  let? brand := Py.get product "Brand" (JStr "") in
  let? product_id := Py.get product "Id" (JStr "") in
  let? price := Py.get product "Price" (JInt 0) in
  let? unit_price := Py.get product "UnitPriceCalc" (JInt 0) in
  let? unit_label := Py.get product "UnitPriceLabel" (JStr "") in
  let? description := Py.get product "Description" (JStr "") in
  let? category := Py.get product "Category" (JStr "") in
  let? subcategory := Py.get product "SubCategory" (JStr "") in
  let? name_len := Py.len name in
  let? price_2f := Py.format_f 2 price in
  let? unit_price_2f := Py.format_f 2 unit_price in
  let lines :=
    [ Py.str name;
      PyStr.repeat "=" name_len;
      "";
      "ID:          " ++ Py.str product_id;
      "Brand:       " ++ Py.str brand;
      "Category:    " ++ Py.str category ++ " > " ++ Py.str subcategory;
      "Description: " ++ Py.str description;
      "";
      "Price:       " ++ price_2f ++ " kr (" ++ unit_price_2f ++ " "
        ++ Py.str unit_label ++ ")" ] in
  (* Campaign info *)
  let? campaign := Py.get1 product "Campaign" in
  let? lines :=
    if Py.truthy campaign
    then
      let? campaign_type := Py.get campaign "Type" (JStr "") in
      let? min_qty := Py.get campaign "MinQuantity" (JInt 0) in
      let? campaign_price := Py.get campaign "TotalPrice" (JInt 0) in
      let? campaign_price_2f := Py.format_f 2 campaign_price in
      let row :=
        "Campaign:    " ++ Py.str min_qty ++ " for " ++ campaign_price_2f
        ++ " kr (" ++ Py.str campaign_type ++ ")" in
      Ok (lines ++ [row])%list
    else Ok lines in
  (* Availability *)
  let? availability := Py.get product "Availability" (JObj []) in
  let? in_stock := Py.get availability "IsAvailableInStock" (JBool false) in
  let? delivery_ok := Py.get availability "IsDeliveryAvailable" (JBool false) in
  let stock_status := if Py.truthy in_stock then "In stock" else "OUT OF STOCK" in
  let delivery_status :=
    if Py.truthy delivery_ok then "Available" else "Not available" in
  let stock_row := "Stock:       " ++ stock_status in
  let delivery_row := "Delivery:    " ++ delivery_status in
  let lines := (lines ++ [""; stock_row; delivery_row])%list in
  (* Attributes *)
  let? attributes := Py.get product "Attributes" (JArr []) in
  let? lines :=
    if Py.truthy attributes
    then
      let? attrs := Py.iter attributes in
      let? rows :=
        Py.map_o
          (fun attr =>
             let? attr_name := Py.get attr "Name" (JStr "") in
             let? attr_value := Py.get attr "Value" (JStr "") in
             Ok ("  " ++ Py.str attr_name ++ ": " ++ Py.str attr_value))
          attrs in
      Ok (lines ++ [""; "Attributes:"] ++ rows)%list
    else Ok lines in
  (* Labels *)
  let? labels := Py.get product "Labels" (JArr []) in
  let? lines :=
    if Py.truthy labels
    then
      let? joined := Py.join ", " labels in
      let row := "Labels:      " ++ joined in
      Ok (lines ++ [""; row])%list
    else Ok lines in
  (* Product description (HTML text, strip tags for CLI) *)
  let? text := Py.get product "Text" (JStr "") in
  let? lines :=
    if Py.truthy text
    then
      let? clean_text := strip_html_tags_of text in
      if PyStr.nonempty clean_text
      then Ok (lines ++ [""; "About:"] ++ wrap_text_default clean_text)%list
      else Ok lines
    else Ok lines in
  (* URL *)
  let? url := Py.get product "Url" (JStr "") in
  let row := "URL:         " ++ BASE_URL ++ "/" ++ Py.str url in
  let lines := if Py.truthy url then (lines ++ [""; row])%list else lines in
  Ok (PyStr.join Py.nl lines).

(* ----------------------------------------------------------------- *)
(** *** Commands

    Every command returns the exit code of the process. *)

Definition cmd_search (auth : AuthTokens) (query : string) (limit : Z) : M Z :=
  print_err ("Searching for '" ++ query ++ "'...") ;;
  products <- search_products auth query limit ;;
  if negb (Py.truthy products)
  then
    print ("No products found for '" ++ query ++ "'") ;;
    ret 1
  else
  n <~ Py.len products ;;
  print (Py.nl ++ "Found " ++ PyStr.of_int n ++ " products:" ++ Py.nl) ;;
  items <~ Py.iter products ;;
  for_each items (fun product =>
    line <~ format_product product ;;
    print line) ;;
  ret 0.

Definition cmd_basket (auth : AuthTokens) : M Z :=
  print_err "Fetching basket..." ;;
  basket <- get_basket auth ;;
  lines <~ Py.get basket "Lines" (JArr []) ;;
  if negb (Py.truthy lines)
  then
    print "Your basket is empty." ;;
    ret 0
  else
  n <~ Py.len lines ;;
  print (Py.nl ++ "Basket (" ++ PyStr.of_int n ++ " items):" ++ Py.nl) ;;
  items <~ Py.iter lines ;;
  total <- for_fold items (Py.NInt 0) (fun total line =>
    row <~ format_basket_line line ;;
    print row ;;
    price <~ Py.get line "Price" (JInt 0) ;;
    lift (Py.add (Py.num_json total) price)) ;;
  total_2f <~ Py.format_f 2 (Py.num_json total) ;;
  print (Py.nl ++ "  Total: " ++ total_2f ++ " kr") ;;
  ret 0.

Definition cmd_add (auth : AuthTokens) (product_id : string) (quantity : Z)
  : M Z :=
  print_err ("Adding product " ++ product_id ++ " (quantity: "
             ++ PyStr.of_int quantity ++ ") to basket...") ;;
  result <- add_to_basket auth product_id quantity ;;
  (* Find the added product in the result *)
  lines <~ Py.get result "Lines" (JArr []) ;;
  items <~ Py.iter lines ;;
  added_line <~
    Py.find_first
      (fun line => let? id := Py.get1 line "Id" in Ok (Py.eq_str id product_id))
      items ;;
  match added_line with
  | Some line =>
      print (Py.nl ++ "Added to basket:") ;;
      row <~ format_basket_line line ;;
      print row
  | None => print ("Product " ++ product_id ++ " added to basket.")
  end ;;
  (* Show basket total *)
  total <~ Py.sum_gen (fun line => Py.get line "Price" (JInt 0)) items ;;
  total_2f <~ Py.format_f 2 (Py.num_json total) ;;
  n <~ Py.len lines ;;
  print (Py.nl ++ "Basket total: " ++ total_2f ++ " kr (" ++ PyStr.of_int n
         ++ " items)") ;;
  ret 0.

Definition cmd_details (auth : AuthTokens) (product_id : string) : M Z :=
  print_err ("Fetching details for product " ++ product_id ++ "...") ;;
  found <-
    try_except
      (product <- get_product_details auth product_id ;; ret (Some product))
      (fun e => exc_class_eqb (exc_cls e) ProductNotFoundError)
      (fun e => print_err ("Error: " ++ exc_str e) ;; ret None) ;;
  match found with
  | None => ret 1
  | Some product =>
      print "" ;;
      details <~ format_product_details product ;;
      print details ;;
      ret 0
  end.

(** The lookup loop of [cmd_history]: the first order whose [Id] is
    [order_id]. *)
Definition find_order (orders : list json) (order_id : Z)
  : outcome (option json) :=
  Py.find_first
    (fun o => let? id := Py.get1 o "Id" in Ok (Py.eq_int id order_id))
    orders.

(** The branch [if order_id:] of [cmd_history]: details of one order. *)
Definition history_lookup (auth : AuthTokens) (order_id : Z) : M Z :=
  print_err ("Fetching order " ++ PyStr.of_int order_id ++ "...") ;;
  (* Get order summary from recent history *)
  history <- get_order_history auth 0 MAX_ORDER_HISTORY_LOOKUP ;;
  orders <~ Py.get history "Orders" (JArr []) ;;
  items <~ Py.iter orders ;;
  order <~ find_order items order_id ;;
  match order with
  | None =>
      print_err ("Order " ++ PyStr.of_int order_id ++ " not found in last "
                 ++ PyStr.of_int MAX_ORDER_HISTORY_LOOKUP ++ " orders.") ;;
      ret 1
  | Some order =>
      (* Get line items *)
      details <- get_order_details auth order_id ;;
      lines <~ Py.get details "Lines" (JArr []) ;;
      print "" ;;
      out <~ format_order_details order lines ;;
      print out ;;
      ret 0
  end.

(** The [else] branch: the list of recent orders. *)
Definition history_list (auth : AuthTokens) (limit : Z) : M Z :=
  print_err "Fetching order history..." ;;
  history <- get_order_history auth 0 limit ;;
  orders <~ Py.get history "Orders" (JArr []) ;;
  num_pages <~ Py.get history "NumberOfPages" (JInt 1) ;;
  if negb (Py.truthy orders)
  then
    print "No orders found." ;;
    ret 0
  else
  n <~ Py.len orders ;;
  print (Py.nl ++ "Order History (" ++ PyStr.of_int n ++ " orders, "
         ++ Py.str num_pages ++ " pages total):" ++ Py.nl) ;;
  items <~ Py.iter orders ;;
  for_each items (fun order =>
    row <~ format_order_summary order ;;
    print row) ;;
  print (Py.nl ++ "Use 'history ORDER_ID' to see order details.") ;;
  ret 0.

(** [args.order_id] is [None] or an [int]; [if order_id:] holds for a
    non-zero int. *)
Definition order_id_given (order_id : option Z) : option Z :=
  match order_id with
  | Some id => if id =? 0 then None else Some id
  | None => None
  end.

Definition cmd_history (auth : AuthTokens) (order_id : option Z) (limit : Z)
  : M Z :=
  match order_id_given order_id with
  | Some id => history_lookup auth id
  | None => history_list auth limit
  end.

(** The command line after [argparse]: the two required options and
    one of the five subcommands with its arguments. *)
Inductive Command :=
| Search (query : string) (limit : Z)
| Details (product_id : string)
| Basket
| Add (product_id : string) (quantity : Z)
| History (order_id : option Z) (limit : Z).

Record Args := mkArgs {
  username : string;
  password : string;
  command : Command
}.

(** The body of the [try] block of [main]. *)
Definition run_command (args : Args) : M Z :=
  auth <- login (username args) (password args) ;;
  match command args with
  | Search query limit => cmd_search auth query limit
  | Details product_id => cmd_details auth product_id
  | Basket => cmd_basket auth
  | Add product_id quantity => cmd_add auth product_id quantity
  | History order_id limit => cmd_history auth order_id limit
  end.

(** The two [except] clauses of [main]: [HTTPError] first, then every
    other [Exception]. *)
Definition handle_error (e : exc) : M Z :=
  if exc_class_eqb (exc_cls e) HTTPError
  then
    print_err ("HTTP Error: " ++ exc_str e) ;;
    match exc_response e with
    | Some resp => print_err ("Response: " ++ text resp)
    | None => ret tt
    end ;;
    ret 1
  else
    print_err ("Error: " ++ exc_str e) ;;
    ret 1.

Definition main (args : Args) : M Z :=
  try_except (run_command args) (fun _ => true) handle_error.

(** The exit status [sys.exit(main())] gives the process; an exception
    that left [main] would end it with status 1. *)
Definition exit_code (args : Args) (w : World) : Z :=
  match fst (main args w) with
  | Ok code => code
  | Raised _ => 1
  end.

(* ================================================================= *)
(** ** Vocabulary of the statements *)

(** A word as [split] yields it: not empty and free of blanks. *)
Definition is_word (w : string) : Prop :=
  PyStr.nonempty w = true /\ PyStr.no_space w = true.

(** The state of the loop: the lines closed so far and the open line hold
    the words [seen]; [cur] are those of the open line. *)
Definition wrap_inv (indent : string) (st : list string * string)
    (seen : list string) : Prop :=
  exists cur : list string,
    snd st = indent ++ PyStr.join " " cur
    /\ Forall is_word cur
    /\ (List.concat (map PyStr.split (fst st)) ++ cur)%list = seen.

(** A value [format(v, ".2f")] accepts: a [bool], a [float], or an
    [int] that [float] can hold. *)
Definition formattable (v : json) : bool :=
  match v with
  | JBool _ | JFloat _ => true
  | JInt n => match PyFloat.of_int n with Some _ => true | None => false end
  | _ => false
  end.

Definition is_dict (v : json) : bool :=
  match v with JObj _ => true | _ => false end.

(** A field that is absent, or present with a value that passes [ok]. *)
Definition absent_or (ok : json -> bool) (key : string)
    (fields : list (string * json)) : bool :=
  match Py.lookup key fields with
  | None => true
  | Some v => ok v
  end.

(** "A missing [key] defaults to [default]" for a formatter [f]: a dict
    without the key is rendered as the same dict with the key set to
    the default. *)
Definition missing_defaults_to (f : json -> outcome string) (key : string)
    (default : json) : Prop :=
  forall fields : list (string * json),
    Py.lookup key fields = None ->
    f (JObj fields) = f (JObj ((key, default) :: fields)).

(** The value of a field, or a default: [d.get(key, default)] on a dict. *)
Definition field_or (fields : list (string * json)) (key : string)
    (default : json) : json :=
  match Py.lookup key fields with
  | Some v => v
  | None => default
  end.



(** The remote end answers the next requests, whatever they are, with
    the replies of [script], in order. *)
Fixpoint scripted_from (f : list Request -> Request -> exc + Response)
    (hist : list Request) (script : list (exc + Response)) : Prop :=
  match script with
  | [] => True
  | a :: rest =>
      forall r : Request, f hist r = a /\ scripted_from f (hist ++ [r]) rest
  end.

Definition scripted (w : World) (script : list (exc + Response)) : Prop :=
  scripted_from (remote w) (sent w) script.

(** A response with a status that [raise_for_status] lets through and
    the JSON body [v]. *)
Definition json_reply (resp : Response) (v : json) : Prop :=
  raise_for_status resp = Ok tt /\ resp_json resp = Ok v.

(** The [X-Correlation-Id] header of a request. *)
Definition correlation_id (r : Request) : option json :=
  Py.lookup "X-Correlation-Id" (req_headers r).

(** A world that answers by the position of the request in the run; past
    the end of the script it answers 404. *)
Definition not_found : Response :=
  mkResponse 404 "Not Found" "" "" (inl "Expecting value").

Definition script_world (script : list Response) (uuids : nat -> string) : World :=
  mkWorld (fun hist _ => inr (nth (List.length hist) script not_found))
          uuids [] 0 [] [].

Definition ok_response (v : json) : Response :=
  mkResponse 200 "OK" "" "" (inr v).

(** The values [uuid4] yields in the sample worlds. *)
Definition sample_uuid (n : nat) : string :=
  "00000000-0000-4000-8000-00000000000" ++ PyStr.of_int (Z.of_nat n).

(** The dict [get_common_headers] returns for the identifier [cid]. *)
Definition common_headers (cid : string) : list (string * json) :=
  [ ("Accept", JStr "application/json, text/plain, */*");
    ("Content-Type", JStr "application/json");
    ("User-Agent", JStr "Mozilla/5.0 (X11; Linux x86_64) AppleWebKit/537.36 (KHTML, like Gecko) Chrome/136.0.0.0 Safari/537.36");
    ("Device-Size", JStr "desktop");
    ("Platform", JStr "web");
    ("Version", JStr "11.201.0");
    ("X-Correlation-Id", JStr cid) ].

(** [m] run in [w] raises an exception of the class called [name]. *)
Definition raises_named {A : Type} (name : string) (m : M A) (w : World) : Prop :=
  exists e, fst (m w) = Raised e /\ class_name (exc_cls e) = name.

(** A handshake that succeeds, and one whose login is refused. *)
Definition login_replies : list Response :=
  [ ok_response (JObj [("Value", JStr "xsrf-0")]);
    ok_response (JObj [("access_token", JStr "bearer-0")]);
    ok_response (JObj [("RedirectUrl", JStr "/")]);
    ok_response (JObj [("access_token", JStr "bearer-1")]);
    ok_response (JObj [("Value", JStr "xsrf-1")]) ].

Definition refused_replies : list Response :=
  [ ok_response (JObj [("Value", JStr "xsrf-0")]);
    ok_response (JObj [("access_token", JStr "bearer-0")]);
    ok_response (JObj [("Error", JStr "bad credentials")]) ].

Definition sample_auth : AuthTokens :=
  mkAuthTokens (JStr "xsrf-1") (JStr "bearer-1").

(** The value of a field of a dict, [None] when it is missing. *)
Definition field (v : json) (key : string) : json :=
  match v with
  | JObj fields => field_or fields key JNull
  | _ => JNull
  end.

(** The search result [p] has the requested id. *)
Definition id_is (product_id : string) (p : json) : bool :=
  Py.eq_str (field p "Id") product_id.

(** The url the first loop of [get_product_details] ends with. *)
Definition matched_url (product_id : string) (products : list json) : json :=
  match find (id_is product_id) products with
  | Some p => field p "Url"
  | None => JNull
  end.

Definition is_detail_block (item : json) : bool :=
  Py.eq_str (field item "TemplateName") "productdetailspot".

(** "No search result has the id, or the page has no detail block". *)
Definition no_id_or_no_block (product_id : string) (products content : list json)
  : Prop :=
  existsb (id_is product_id) products = false
  \/ existsb is_detail_block content = false.

(** The replies to the requests of [get_product_details] for a search
    that returns [products] and a product page with [content]: the app
    settings, the front page and the search, then settings and front
    page again, then the product page. *)
Definition details_replies (products content : list json) : list Response :=
  let settings := ok_response (JObj [("CombinedProductsAndSitecoreTimestamp", JStr "t0")]) in
  let front := ok_response (JObj [("Settings", JObj [("TimeslotUtc", JStr "2025120216-180-1020")])]) in
  [ settings; front;
    ok_response (JObj [("Products", JObj [("Products", JArr products)])]);
    settings; front;
    ok_response (JObj [("content", JArr content)]) ].

Definition milk_without_url : list json :=
  [ JObj [("Id", JStr "5000123"); ("Name", JStr "Milk")] ].

Definition milk_with_url : list json :=
  [ JObj [("Id", JStr "5000123"); ("Name", JStr "Milk");
          ("Url", JStr "milk-5000123")] ].

Definition detail_page : list json :=
  [ JObj [("TemplateName", JStr "breadcrumb")];
    JObj [("TemplateName", JStr "productdetailspot"); ("Name", JStr "Milk")] ].

(** The page settings the sample front page leads to. *)
Definition sample_page_settings : PageSettings :=
  mkPageSettings (JStr "t0") (JStr "2025120216-180-1020") (JInt 1) (JStr "").

(** The order [o] has the id [order_id]: the test of the lookup loop. *)
Definition has_id (order_id : Z) (o : json) : bool :=
  Py.eq_int (field o "Id") order_id.






(** A run of the whole program that ends with an empty basket. *)
Definition empty_basket_replies : list Response :=
  (login_replies ++ [ok_response (JObj [("Lines", JArr [])])])%list.

(** What [main] writes to the error stream for an exception. *)
Definition diagnostic (e : exc) : list string :=
  if exc_class_eqb (exc_cls e) HTTPError
  then ("HTTP Error: " ++ exc_str e)
       :: match exc_response e with
          | Some resp => ["Response: " ++ text resp]
          | None => []
          end
  else ["Error: " ++ exc_str e].

(** No suffix of [s] starts with a match of [<[^>]+>]: the pattern is
    found nowhere in [s]. *)
Fixpoint tag_free (s : string) : bool :=
  match s with
  | EmptyString => true
  | String _ r =>
      match match_tag s with
      | Some _ => false
      | None => tag_free r
      end
  end.

(** [a] is [b] with some characters left out. *)
Inductive subseq : string -> string -> Prop :=
| subseq_nil : subseq "" ""
| subseq_keep (c : ascii) (a b : string) :
    subseq a b -> subseq (String c a) (String c b)
| subseq_drop (c : ascii) (a b : string) :
    subseq a b -> subseq a (String c b).

(** A line of [wrap_text] is in order: it fits in [width] columns, or it
    is the bare indent, or the indent and one word of the text. *)
Definition line_ok (width : Z) (indent : string) (words : list string)
    (line : string) : Prop :=
  PyStr.len line <= width
  \/ line = indent
  \/ exists w, In w words /\ line = indent ++ w.

(** The text [format_order_summary] shows for an integer status code. *)
Definition status_text (code : Z) : string :=
  if code =? 1 then "Pending"
  else if code =? 2 then "Processing"
  else if code =? 4 then "Delivered"
  else "Status " ++ PyStr.of_int code.

(** An order as the history lists it, and one with neither date nor
    delivery window. *)
Definition sample_order : list (string * json) :=
  [ ("Id", JInt 4711); ("OrderNumber", JStr "N-4711");
    ("Total", JFloat (PyFloat.of_decimal 10750 2)); ("Status", JInt 4);
    ("OrderDate", JStr "2025-11-25T06:07:18Z");
    ("DeliveryTime",
     JObj [ ("Start", JStr "2025-11-26T10:00:00Z");
            ("End", JStr "2025-11-27T12:30:00Z") ]) ].

Definition bare_order : list (string * json) :=
  [ ("Id", JInt 4712); ("Total", JInt 99); ("Status", JInt 3) ].

(** [m] leaves a stream as it found it, whatever its outcome. *)
Definition keeps {A : Type} (stream : World -> list string) (m : M A) : Prop :=
  forall w : World, stream (snd (m w)) = stream w.

(** The JSON body [login] posts. *)
Definition login_payload (username password : string) : json :=
  JObj [ ("Username", JStr username);
         ("Password", JStr password);
         ("CheckForExistingProducts", JBool true);
         ("DoMerge", JBool true);
         ("AppInstalled", JBool false);
         ("SaveExistingBasket", JBool false) ].

(** What a token fetch makes of a reply: the exception of the library,
    the [HTTPError] of an error status, the error of a body that is not
    JSON or lacks the key, or the token. *)
Definition token_of (reply : exc + Response) (key : string) : outcome json :=
  match reply with
  | inl e => Raised e
  | inr resp =>
      let? _ := raise_for_status resp in
      let? data := resp_json resp in
      Py.subscript data key
  end.

(** The four progress messages of a login that succeeds. *)
Definition login_messages : list string :=
  [ "Step 1: Getting XSRF token..."; "Step 2: Getting Bearer token...";
    "Step 3: Logging in..."; "Login successful!" ].

(** A handshake whose first reply lacks the token. *)
Definition no_token_replies : list Response :=
  [ ok_response (JObj [("Message", JStr "maintenance")]) ].

(** The time slot [get_page_settings] falls back on. *)
Definition fallback_timeslot : json := JStr "2025120216-180-1020".

(** The page settings read off the app settings [settings] and the
    sub-dict [page] of the front page, with their defaults. *)
Definition page_settings_of (settings page : list (string * json)) : PageSettings :=
  mkPageSettings
    (field_or settings "CombinedProductsAndSitecoreTimestamp" (JStr ""))
    (if Py.truthy (field_or page "TimeslotUtc" JNull)
     then field_or page "TimeslotUtc" JNull
     else fallback_timeslot)
    (field_or page "DeliveryZoneId" (JInt 1))
    (field_or page "UserId" (JStr "")).

(** The three replies to a search that finds one product: the app
    settings, the front page of a customer who is logged in, and the
    search result. *)
Definition search_replies : list Response :=
  [ ok_response (JObj [("CombinedProductsAndSitecoreTimestamp", JStr "t0")]);
    ok_response (JObj [("Settings", JObj [("UserId", JStr "u-17")])]);
    ok_response (JObj [("Products", JObj [("Products", JArr milk_with_url)])]) ].


(** The world after the lines [lines] have gone to the output stream. *)
Definition printed (lines : list string) (w : World) : World :=
  mkWorld (remote w) (uuid4 w) (sent w) (drawn w) (stdout w ++ lines) (stderr w).

(** A search result of two products, the second with a price that is
    not a number. *)
Definition milk_and_bad_price : list json :=
  [ JObj [("Id", JStr "5000123"); ("Name", JStr "Milk"); ("Price", JInt 12)];
    JObj [("Id", JStr "5000124"); ("Name", JStr "Bread"); ("Price", JStr "n/a")] ].

Definition two_products_replies : list Response :=
  [ ok_response (JObj []); ok_response (JObj []);
    ok_response (JObj [("Products", JObj [("Products", JArr milk_and_bad_price)])]) ].


(** [line.get("Price", 0)], the price [cmd_basket] and [cmd_add] add up. *)
Definition line_price (line : json) : outcome json :=
  Py.get line "Price" (JInt 0).

(** A basket of two lines whose ids are numbers, as the reply to
    [add_to_basket]. *)
Definition two_lines : list json :=
  [ JObj [("Id", JInt 5000123); ("Name", JStr "Milk"); ("Quantity", JInt 2);
          ("ItemPrice", JFloat (PyFloat.of_decimal 1250 2));
          ("Price", JInt 25)];
    JObj [("Id", JInt 5000124); ("Name", JStr "Bread"); ("Quantity", JInt 1);
          ("ItemPrice", JFloat (PyFloat.of_decimal 1995 2));
          ("Price", JFloat (PyFloat.of_decimal 1995 2))] ].

Definition basket_replies : list Response :=
  [ ok_response (JObj [("Lines", JArr two_lines)]) ].


(** The replies to [history 4711]: a history with two orders that share
    the id, and the lines of the order. *)
Definition twin_orders : list json :=
  [ JObj [("Id", JInt 4711); ("OrderNumber", JStr "N-1");
          ("Total", JFloat (PyFloat.of_decimal 10750 2));
          ("SubTotal", JInt 100)];
    JObj [("Id", JInt 4711); ("OrderNumber", JStr "N-2")] ].

Definition lookup_replies : list Response :=
  [ ok_response (JObj [("Orders", JArr twin_orders)]);
    ok_response (JObj [("Lines", JArr [])]) ].

(** A history whose second order has a status that cannot be looked up. *)
Definition orders_with_bad_status : list json :=
  [ JObj bare_order; JObj [("Id", JInt 4713); ("Status", JArr [])] ].

Definition list_replies : list Response :=
  [ ok_response (JObj [("Orders", JArr orders_with_bad_status)]) ].


(** The progress message a command starts with. *)
Definition progress (c : Command) : string :=
  match c with
  | Search query _ => "Searching for '" ++ query ++ "'..."
  | Details product_id => "Fetching details for product " ++ product_id ++ "..."
  | Basket => "Fetching basket..."
  | Add product_id quantity =>
      "Adding product " ++ product_id ++ " (quantity: "
      ++ PyStr.of_int quantity ++ ") to basket..."
  | History order_id _ =>
      match order_id_given order_id with
      | Some id => "Fetching order " ++ PyStr.of_int id ++ "..."
      | None => "Fetching order history..."
      end
  end.

(** A reply with the status 503, and a run in which it follows the
    login. *)
Definition unavailable : Response :=
  mkResponse 503 "Service Unavailable"
    "https://www.nemlig.com/webapi/basket/GetBasket" "<html>down</html>"
    (inl "Expecting value").

Definition unavailable_replies : list Response :=
  (login_replies ++ [unavailable])%list.

(** A run of [m] ends at a request that is answered with [r], with the
    exception [e]: it leaves one request more and the streams as they
    were. *)
Definition stops_on {A : Type} (r : Response) (e : exc) (m : M A) : Prop :=
  forall w : World,
    scripted w [inr r] ->
    exists (w' : World) (q : Request),
      m w = (Raised e, w')
      /\ sent w' = (sent w ++ [q])%list
      /\ stdout w' = stdout w
      /\ stderr w' = stderr w.


(** The replies to [details 5000123] when the time slot changes between
    the two fetches of the page settings. *)
Definition details_replies_two_slots : list Response :=
  [ ok_response (JObj []);
    ok_response (JObj [("Settings", JObj [("TimeslotUtc", JStr "slot-1")])]);
    ok_response (JObj [("Products", JObj [("Products", JArr milk_with_url)])]);
    ok_response (JObj []);
    ok_response (JObj [("Settings", JObj [("TimeslotUtc", JStr "slot-2")])]);
    ok_response (JObj [("content", JArr detail_page)]) ].

(** A product page whose detail block has a number for a name. *)
Definition numbered_page : list json :=
  [ JObj [("TemplateName", JStr "productdetailspot"); ("Name", JInt 5)] ].


(** [m], run in [w], sends the one request described, with both tokens
    of [auth] and the next identifier of [w], and returns [v]. *)
Definition sends_one (auth : AuthTokens) (w : World) (m : M json) (v : json)
    (method : http_method) (url : string) (params : list (string * json))
    (body : option json) : Prop :=
  exists (w' : World) (q : Request),
    m w = (Ok v, w')
    /\ sent w' = (sent w ++ [q])%list
    /\ drawn w' = S (drawn w)
    /\ req_method q = method
    /\ req_url q = url
    /\ req_params q = params
    /\ req_json q = body
    /\ Py.lookup "X-XSRF-TOKEN" (req_headers q) = Some (xsrf_token auth)
    /\ Py.lookup "Authorization" (req_headers q)
       = Some (JStr ("Bearer " ++ Py.str (bearer_token auth)))
    /\ correlation_id q = Some (JStr (uuid4 w (drawn w))).

(** [s] starts with a tag, as the pattern reads: a ['<'], one or more
    characters other than ['>'], and a ['>']. *)
Definition starts_with_tag (s : string) : Prop :=
  exists body rest : string,
    PyStr.nonempty body = true
    /\ PyStr.has_char ">" body = false
    /\ s = "<" ++ body ++ ">" ++ rest.

(** "Simple tag removal", read from left to right: where the text
    starts with a tag the tag is dropped whole, and any other character
    is kept as it is. *)
Inductive tags_removed : string -> string -> Prop :=
| removed_end : tags_removed "" ""
| removed_tag (body rest out : string) :
    PyStr.nonempty body = true ->
    PyStr.has_char ">" body = false ->
    tags_removed rest out ->
    tags_removed ("<" ++ body ++ ">" ++ rest) out
| removed_keep (c : ascii) (s out : string) :
    ~ starts_with_tag (String c s) ->
    tags_removed s out ->
    tags_removed (String c s) (String c out).


(** A run of the whole program that lists a basket of two lines. *)
Definition listed_basket_replies : list Response :=
  (login_replies ++ basket_replies)%list.

(* ================================================================= *)
(** * Properties *)

#[local] Arguments Ascii.eqb : simpl never.
#[local] Arguments String.eqb : simpl never.
#[local] Arguments PyStr.is_space : simpl never.

(* ----------------------------------------------------------------- *)
(** ** Strings *)

Section StringFacts.

Lemma append_nil_r (s : string) : s ++ "" = s.
Proof. induction s as [|c s IH]; simpl; [reflexivity | now rewrite IH]. Qed.

Lemma append_assoc (a b c : string) : (a ++ b) ++ c = a ++ (b ++ c).
Proof. induction a as [|x a IH]; simpl; [reflexivity | now rewrite IH]. Qed.

Lemma nonempty_false (s : string) : PyStr.nonempty s = false <-> s = "".
Proof. destruct s; simpl; split; congruence. Qed.

Lemma nonempty_app_r (a b : string) :
  PyStr.nonempty b = true -> PyStr.nonempty (a ++ b) = true.
Proof. destruct a; simpl; auto. Qed.

Lemma all_space_app (a b : string) :
  PyStr.all_space (a ++ b) = PyStr.all_space a && PyStr.all_space b.
Proof.
  induction a as [|c a IH]; simpl; [reflexivity|].
  now rewrite IH, andb_assoc.
Qed.

Lemma lstrip_all_space (s : string) :
  PyStr.all_space s = true -> PyStr.lstrip s = "".
Proof.
  induction s as [|c s IH]; simpl; [reflexivity|].
  intros H. apply andb_true_iff in H as [Hc Hs]. now rewrite Hc, IH.
Qed.

Lemma rstrip_nonempty (s : string) :
  PyStr.all_space s = false -> PyStr.nonempty (PyStr.rstrip s) = true.
Proof.
  induction s as [|c s IH]; simpl; [discriminate|].
  destruct (PyStr.is_space c); simpl; [|reflexivity].
  intros H. now rewrite (IH H).
Qed.

Lemma lstrip_keeps_nonspace (s : string) :
  PyStr.all_space s = false -> PyStr.all_space (PyStr.lstrip s) = false.
Proof.
  induction s as [|c s IH]; simpl; [discriminate|].
  destruct (PyStr.is_space c) eqn:Hc; simpl; [exact IH|].
  intros _. now rewrite Hc.
Qed.

(** [s.strip()] is empty exactly when [s] is blank. *)
Lemma strip_nonempty (s : string) :
  PyStr.nonempty (PyStr.strip s) = negb (PyStr.all_space s).
Proof.
  unfold PyStr.strip. destruct (PyStr.all_space s) eqn:H; simpl.
  - now rewrite (lstrip_all_space _ H).
  - apply rstrip_nonempty, lstrip_keeps_nonspace, H.
Qed.

Lemma lstrip_no_space_head (c : ascii) (s : string) :
  PyStr.is_space c = false -> PyStr.lstrip (String c s) = String c s.
Proof. intros H; simpl; now rewrite H. Qed.

End StringFacts.

(* ----------------------------------------------------------------- *)
(** ** [strip_html_tags] *)

Section StripHtml.

Lemma span_not_gt_body (body rest : string) :
  PyStr.has_char ">" body = false ->
  span_not_gt (body ++ String ">" rest) = (String.length body, String ">" rest).
Proof.
  induction body as [|c body IH]; simpl; intros H.
  - reflexivity.
  - apply orb_false_iff in H as [Hc Hb].
    rewrite Ascii.eqb_sym, Hc, (IH Hb). reflexivity.
Qed.

Lemma re_sub_tags_skip (a b : string) :
  re_sub_tags (a ++ b) (String.length a) = re_sub_tags b 0.
Proof.
  induction a as [|c a IH]; simpl; [reflexivity | exact IH].
Qed.

Lemma match_tag_other (c : ascii) (r : string) :
  Ascii.eqb c "<" = false -> match_tag (String c r) = None.
Proof. intros H; simpl; now rewrite H. Qed.

Lemma re_sub_tags_plain (s : string) :
  PyStr.has_char "<" s = false -> re_sub_tags s 0 = s.
Proof.
  induction s as [|c s IH]; intros H; [reflexivity|].
  simpl in H. apply orb_false_iff in H as [Hc Hs].
  rewrite Ascii.eqb_sym in Hc.
  change (re_sub_tags (String c s) 0)
    with (match match_tag (String c s) with
          | Some n => re_sub_tags s (n - 1)
          | None => String c (re_sub_tags s 0)
          end).
  rewrite (match_tag_other _ _ Hc), (IH Hs). reflexivity.
Qed.

Lemma re_sub_tags_tag (body rest : string) :
  PyStr.nonempty body = true ->
  PyStr.has_char ">" body = false ->
  re_sub_tags ("<" ++ body ++ ">" ++ rest) 0 = re_sub_tags rest 0.
Proof.
  intros Hne Hgt.
  change ("<" ++ body ++ ">" ++ rest) with (String "<" (body ++ String ">" rest)).
  change (re_sub_tags (String "<" (body ++ String ">" rest)) 0)
    with (match match_tag (String "<" (body ++ String ">" rest)) with
          | Some n => re_sub_tags (body ++ String ">" rest) (n - 1)
          | None => String "<" (re_sub_tags (body ++ String ">" rest) 0)
          end).
  unfold match_tag. rewrite Ascii.eqb_refl, (span_not_gt_body _ _ Hgt).
  destruct body as [|c body]; [discriminate|].
  cbn [String.length]. rewrite Ascii.eqb_refl.
  replace (S (String.length body) + 2 - 1)%nat
    with (String.length (String c body ++ ">")).
  - change (String c body ++ String ">" rest)
      with (String c (body ++ String ">" rest)).
    replace (String c (body ++ String ">" rest))
      with ((String c body ++ ">") ++ rest)
      by (rewrite append_assoc; reflexivity).
    apply re_sub_tags_skip.
  - simpl. clear. induction body as [|d body IH]; simpl; [reflexivity|].
    simpl in IH. lia.
Qed.

Lemma span_not_gt_split (s : string) :
  exists body : string,
    s = body ++ snd (span_not_gt s)
    /\ String.length body = fst (span_not_gt s)
    /\ PyStr.has_char ">" body = false.
Proof.
  induction s as [|c s IH]; [now exists ""|].
  cbn [span_not_gt]. destruct (Ascii.eqb_spec c ">") as [->|Hc].
  - now exists "".
  - destruct IH as (body & E & L & H).
    destruct (span_not_gt s) as [n rest]. cbn [fst snd] in *.
    exists (String c body). cbn [String.length PyStr.has_char].
    split; [cbn; now rewrite <- E|]. split; [now rewrite L|].
    rewrite H, orb_false_r. apply Ascii.eqb_neq. congruence.
Qed.

(** [match_tag] finds a match exactly where the text starts with a tag. *)
Lemma match_tag_some (s : string) (n : nat) :
  match_tag s = Some n -> starts_with_tag s.
Proof.
  destruct s as [|c r]; [discriminate|]. unfold match_tag.
  destruct (Ascii.eqb_spec c "<") as [->|]; [|discriminate].
  destruct (span_not_gt_split r) as (body & E & L & H).
  destruct (span_not_gt r) as [k rest]. cbn [fst snd] in *.
  destruct k as [|k]; [discriminate|].
  destruct rest as [|d rest]; [discriminate|].
  destruct (Ascii.eqb_spec d ">") as [->|]; [|discriminate].
  intros _. exists body, rest. split; [now destruct body|].
  split; [exact H|]. now rewrite E.
Qed.

Lemma starts_with_tag_match (s : string) :
  starts_with_tag s -> exists n, match_tag s = Some n.
Proof.
  intros (body & rest & Hne & Hgt & ->).
  change ("<" ++ body ++ ">" ++ rest) with (String "<" (body ++ String ">" rest)).
  unfold match_tag. rewrite Ascii.eqb_refl, (span_not_gt_body _ _ Hgt).
  destruct body as [|c body]; [discriminate|].
  cbn [String.length]. rewrite Ascii.eqb_refl. eauto.
Qed.

Lemma tag_length (body rest : string) :
  String.length ("<" ++ body ++ ">" ++ rest)
  = S (S (String.length body + String.length rest)).
Proof.
  cbn. f_equal. induction body as [|c body IH]; cbn; [reflexivity|].
  now rewrite IH.
Qed.

(** The scan of [re_sub_tags] removes the tags, and what removes the
    tags gives the result of the scan. *)
Lemma re_sub_tags_removes (n : nat) :
  forall s : string,
    (String.length s <= n)%nat -> tags_removed s (re_sub_tags s 0).
Proof.
  induction n as [|n IH]; intros [|c r] Hlen; try apply removed_end.
  - cbn in Hlen. lia.
  - change (re_sub_tags (String c r) 0)
      with (match match_tag (String c r) with
            | Some m => re_sub_tags r (m - 1)
            | None => String c (re_sub_tags r 0)
            end).
    destruct (match_tag (String c r)) as [m|] eqn:E.
    + destruct (match_tag_some _ _ E) as (body & rest & Hne & Hgt & Hs).
      assert (re_sub_tags (String c r) 0 = re_sub_tags r (m - 1)) as <-.
      { change (re_sub_tags (String c r) 0)
          with (match match_tag (String c r) with
                | Some m => re_sub_tags r (m - 1)
                | None => String c (re_sub_tags r 0)
                end).
        now rewrite E. }
      rewrite Hs in Hlen |- *. rewrite tag_length in Hlen.
      rewrite (re_sub_tags_tag _ _ Hne Hgt).
      apply removed_tag; [exact Hne | exact Hgt|]. apply IH. lia.
    + apply removed_keep.
      * intros H. apply starts_with_tag_match in H as [m H]. congruence.
      * apply IH. cbn in Hlen. lia.
Qed.

Lemma tags_removed_scan (s out : string) :
  tags_removed s out -> re_sub_tags s 0 = out.
Proof.
  induction 1 as [|body rest out Hne Hgt _ IH|c s out Hno _ IH].
  - reflexivity.
  - now rewrite re_sub_tags_tag.
  - change (re_sub_tags (String c s) 0)
      with (match match_tag (String c s) with
            | Some m => re_sub_tags s (m - 1)
            | None => String c (re_sub_tags s 0)
            end).
    destruct (match_tag (String c s)) as [m|] eqn:E.
    + exfalso. apply Hno. exact (match_tag_some _ _ E).
    + now rewrite IH.
Qed.

(** C8: [strip_html_tags] removes tags and nothing else.  For every
    input, the text is read from left to right, a tag (from a ['<'] over
    one or more characters other than ['>'] to the first ['>']) is
    dropped whole wherever the text starts with one, every other
    character is kept as it is, and the blanks at the two ends of what
    is kept are stripped: there is one text with the tags removed, and
    the result is that text stripped.  So a tag at the start disappears
    whole; text with no ['<'] is returned as it is but for the blanks at
    its ends, and an entity such as [&amp;] is not decoded; and
    [strip_html_tags("<b>Hello</b> world")] is ["Hello world"]. *)
Theorem strip_html_tags_removes_tags_only :
  strip_html_tags "<b>Hello</b> world" = "Hello world"
  /\ (forall body rest : string,
        PyStr.nonempty body = true ->
        PyStr.has_char ">" body = false ->
        strip_html_tags ("<" ++ body ++ ">" ++ rest) = strip_html_tags rest)
  /\ (forall s : string,
        PyStr.has_char "<" s = false -> strip_html_tags s = PyStr.strip s)
  /\ strip_html_tags "<p>Fish &amp; chips &lt;3</p>" = "Fish &amp; chips &lt;3"
  /\ (forall html : string,
        exists kept : string,
          tags_removed html kept
          /\ forall k : string, tags_removed html k -> k = kept)
  /\ (forall html kept : string,
        tags_removed html kept -> strip_html_tags html = PyStr.strip kept).
Proof.
  split; [reflexivity|]. split; [|split; [|split; [reflexivity|split]]].
  - intros body rest Hne Hgt. unfold strip_html_tags.
    now rewrite re_sub_tags_tag.
  - intros s H. unfold strip_html_tags. now rewrite re_sub_tags_plain.
  - intros html. exists (re_sub_tags html 0). split.
    + now apply (re_sub_tags_removes (String.length html)).
    + intros k H. symmetry. exact (tags_removed_scan _ _ H).
  - intros html kept H. unfold strip_html_tags.
    now rewrite (tags_removed_scan _ _ H).
Qed.

Lemma strip_html_tags_removes_tags_only_witness :
  (PyStr.nonempty "br /" = true /\ PyStr.has_char ">" "br /" = false
   /\ strip_html_tags ("<" ++ "br /" ++ ">" ++ "next") = strip_html_tags "next")
  /\ (PyStr.has_char "<" " a &gt; b " = false
      /\ strip_html_tags " a &gt; b " = PyStr.strip " a &gt; b ")
  /\ (tags_removed "Hello <b>world</b> " "Hello world "
      /\ strip_html_tags "Hello <b>world</b> " = "Hello world").
Proof.
  split; [|split].
  - split; [reflexivity|]. split; [reflexivity|].
    apply (proj1 (proj2 strip_html_tags_removes_tags_only)); reflexivity.
  - split; [reflexivity|].
    apply (proj1 (proj2 (proj2 strip_html_tags_removes_tags_only))); reflexivity.
  - assert (tags_removed "Hello <b>world</b> " "Hello world ") as D.
    { do 6 (apply removed_keep;
            [intros (b & r & _ & _ & E); discriminate E|]).
      apply (removed_tag "b" "world</b> "); [reflexivity | reflexivity|].
      do 5 (apply removed_keep;
            [intros (b & r & _ & _ & E); discriminate E|]).
      apply (removed_tag "/b" " "); [reflexivity | reflexivity|].
      apply removed_keep; [intros (b & r & _ & _ & E); discriminate E|].
      apply removed_end. }
    split; [exact D|].
    exact (proj2 (proj2 (proj2 (proj2 (proj2 strip_html_tags_removes_tags_only))))
             _ _ D).
Defined.

End StripHtml.

(* ----------------------------------------------------------------- *)
(** ** [wrap_text] *)

Section WrapText.

Lemma no_space_app (a b : string) :
  PyStr.no_space (a ++ b) = PyStr.no_space a && PyStr.no_space b.
Proof.
  induction a as [|c a IH]; simpl; [reflexivity|].
  now rewrite IH, andb_assoc.
Qed.

Lemma split_from_blank (ws s : string) :
  PyStr.all_space ws = true ->
  PyStr.split_from (ws ++ s) "" = PyStr.split_from s "".
Proof.
  induction ws as [|c ws IH]; simpl; intros H; [reflexivity|].
  apply andb_true_iff in H as [Hc Hw]. rewrite Hc. now apply IH.
Qed.

Lemma split_from_run (w s cur : string) :
  PyStr.no_space w = true ->
  PyStr.split_from (w ++ s) cur = PyStr.split_from s (cur ++ w).
Proof.
  revert cur. induction w as [|c w IH]; simpl; intros cur H.
  - now rewrite append_nil_r.
  - apply andb_true_iff in H as [Hc Hw].
    apply negb_true_iff in Hc. rewrite Hc, (IH _ Hw), append_assoc.
    reflexivity.
Qed.

Lemma split_from_words (s cur : string) :
  PyStr.no_space cur = true -> Forall is_word (PyStr.split_from s cur).
Proof.
  revert cur. induction s as [|c s IH]; simpl; intros cur Hcur.
  - destruct (PyStr.nonempty cur) eqn:E; constructor; [split|]; auto.
  - destruct (PyStr.is_space c) eqn:Hc.
    + destruct (PyStr.nonempty cur) eqn:E.
      * constructor; [split; assumption | now apply IH].
      * now apply IH.
    + apply IH. rewrite no_space_app, Hcur. simpl. now rewrite Hc.
Qed.

Lemma split_words (s : string) : Forall is_word (PyStr.split s).
Proof. now apply split_from_words. Qed.

(** Splitting the words of a line put together with single spaces gives
    the words back. *)
Lemma split_join (ws : list string) :
  Forall is_word ws -> PyStr.split_from (PyStr.join " " ws) "" = ws.
Proof.
  induction 1 as [|w ws [Hne Hns] Hws IH]; [reflexivity|].
  destruct ws as [|w' ws].
  - simpl. rewrite <- (append_nil_r w) at 1.
    rewrite (split_from_run _ _ _ Hns). simpl. now rewrite Hne.
  - change (PyStr.join " " (w :: w' :: ws))
      with (w ++ String " " (PyStr.join " " (w' :: ws))).
    rewrite (split_from_run _ _ _ Hns).
    change (PyStr.split_from (String " " (PyStr.join " " (w' :: ws))) ("" ++ w))
      with (if PyStr.is_space " "
            then (if PyStr.nonempty w
                  then w :: PyStr.split_from (PyStr.join " " (w' :: ws)) ""
                  else PyStr.split_from (PyStr.join " " (w' :: ws)) "")
            else PyStr.split_from (PyStr.join " " (w' :: ws)) (w ++ " ")).
    change (PyStr.is_space " ") with true. cbv iota.
    now rewrite Hne, IH.
Qed.

Lemma split_line (indent : string) (ws : list string) :
  PyStr.all_space indent = true ->
  Forall is_word ws ->
  PyStr.split (indent ++ PyStr.join " " ws) = ws.
Proof.
  intros Hi Hws. unfold PyStr.split.
  rewrite (split_from_blank _ _ Hi). now apply split_join.
Qed.

Lemma join_snoc (ws : list string) (w : string) :
  ws <> [] ->
  PyStr.join " " (ws ++ [w]) = PyStr.join " " ws ++ " " ++ w.
Proof.
  induction ws as [|x ws IH]; intros Hne; [congruence|].
  destruct ws as [|y ws]; [reflexivity|].
  change (PyStr.join " " ((x :: y :: ws) ++ [w]))
    with (x ++ " " ++ PyStr.join " " ((y :: ws) ++ [w])).
  rewrite IH by discriminate.
  change (PyStr.join " " (x :: y :: ws))
    with (x ++ " " ++ PyStr.join " " (y :: ws)).
  now rewrite !append_assoc.
Qed.

Lemma join_nonempty (ws : list string) :
  Forall is_word ws -> ws <> [] -> PyStr.nonempty (PyStr.join " " ws) = true.
Proof.
  intros H Hne. destruct H as [|w ws [Hw _] _]; [congruence|].
  destruct w; [discriminate|]. destruct ws; reflexivity.
Qed.

Lemma join_has_nonspace (ws : list string) :
  Forall is_word ws -> ws <> [] -> PyStr.all_space (PyStr.join " " ws) = false.
Proof.
  intros H Hne. destruct H as [|w ws [Hw Hns] _]; [congruence|].
  destruct w as [|c w]; [discriminate|]. simpl in Hns.
  apply andb_true_iff in Hns as [Hc _]. apply negb_true_iff in Hc.
  destruct ws; simpl; now rewrite Hc.
Qed.

Lemma append_eq_self (a b : string) : a ++ b = a -> b = "".
Proof.
  induction a as [|c a IH]; simpl; [auto|]. intros H. injection H. exact IH.
Qed.

Lemma wrap_step_inv (width : Z) (indent : string)
    (st : list string * string) (seen : list string) (w : string) :
  PyStr.all_space indent = true ->
  is_word w ->
  wrap_inv indent st seen ->
  wrap_inv indent (wrap_step width indent st w) (seen ++ [w]).
Proof.
  intros Hi Hw (cur & Hline & Hcur & Hseen). destruct st as [lines line].
  simpl in Hline, Hseen. subst line seen. unfold wrap_step.
  destruct (PyStr.len _ + PyStr.len w + 1 >? width).
  - exists [w]. simpl. split; [reflexivity|]. split; [now constructor|].
    rewrite map_app, concat_app. simpl.
    rewrite (split_line _ _ Hi Hcur), app_nil_r. reflexivity.
  - destruct (String.eqb_spec (indent ++ PyStr.join " " cur) indent) as [E|E].
    + apply append_eq_self in E.
      assert (cur = []) as ->.
      { destruct cur as [|x cur]; [reflexivity|].
        pose proof (join_nonempty (x :: cur) Hcur ltac:(discriminate)) as Hn.
        rewrite E in Hn. discriminate. }
      exists [w]. simpl. rewrite append_nil_r.
      split; [reflexivity|]. split; [now constructor|].
      now rewrite app_nil_r.
    + assert (cur <> []) as Hne.
      { intros ->. apply E. simpl. apply append_nil_r. }
      exists (cur ++ [w])%list. simpl.
      split; [|split].
      * rewrite (join_snoc _ _ Hne), !append_assoc. reflexivity.
      * apply Forall_app. split; [assumption | now constructor].
      * now rewrite app_assoc.
Qed.

Lemma wrap_loop_inv (width : Z) (indent : string) (words : list string) :
  PyStr.all_space indent = true ->
  Forall is_word words ->
  forall st seen,
    wrap_inv indent st seen ->
    wrap_inv indent (fold_left (wrap_step width indent) words st)
             (seen ++ words).
Proof.
  intros Hi. induction 1 as [|w words Hw Hws IH]; intros st seen Hinv; simpl.
  - now rewrite app_nil_r.
  - replace (seen ++ w :: words)%list with ((seen ++ [w]) ++ words)%list
      by (rewrite <- app_assoc; reflexivity).
    apply IH. now apply wrap_step_inv.
Qed.

(** C9: [wrap_text] keeps the words of its input: the words of the
    returned lines, read line after line, are exactly the words of the
    text, in the same order, for every width and for every indent made
    of blanks (the default indent is two spaces). *)
Theorem wrap_text_preserves_words (text : string) (width : Z) (indent : string) :
  PyStr.all_space indent = true ->
  List.concat (map PyStr.split (wrap_text text width indent)) = PyStr.split text.
Proof.
  intros Hi. unfold wrap_text.
  pose proof (wrap_loop_inv width indent (PyStr.split text) Hi
                (split_words text) ([], indent) []) as H.
  destruct (fold_left _ _ _) as [lines line].
  destruct H as (cur & Hline & Hcur & Hseen).
  { exists []. simpl. rewrite append_nil_r. repeat split; constructor. }
  simpl in Hline, Hseen. rewrite strip_nonempty. subst line.
  destruct cur as [|x cur].
  - simpl. rewrite append_nil_r, Hi. simpl.
    now rewrite app_nil_r in Hseen.
  - rewrite all_space_app, Hi.
    rewrite (join_has_nonspace _ Hcur) by discriminate. cbn [andb negb].
    rewrite map_app, concat_app. cbn [map List.concat].
    rewrite (split_line _ _ Hi Hcur), app_nil_r. exact Hseen.
Qed.

Lemma wrap_text_preserves_words_witness :
  PyStr.all_space "  " = true
  /\ List.concat
       (map PyStr.split (wrap_text "to  be or not	to be" 12 "  "))
     = PyStr.split "to  be or not	to be".
Proof.
  split; [reflexivity|].
  apply (wrap_text_preserves_words "to  be or not	to be" 12 "  ").
  reflexivity.
Defined.

End WrapText.

(* ----------------------------------------------------------------- *)
(** ** [format_product] *)

Section FormatProduct.

(** Comparisons of two string literals are evaluated. *)
Ltac eval_eqb :=
  repeat match goal with
    | |- context [String.eqb ?a ?b] =>
        let v := eval vm_compute in (String.eqb a b) in
        change (String.eqb a b) with v
    end;
  cbv iota.

Lemma format_f_formattable (d : nat) (v : json) :
  formattable v = true -> exists s, Py.format_f d v = Ok s.
Proof.
  destruct v as [|b|n|f|s|l|l]; simpl; try discriminate; intros H.
  - destruct b; eexists; reflexivity.
  - unfold Py.format_f, Py.to_float. simpl.
    destruct (PyFloat.of_int n); [eexists; reflexivity | discriminate].
  - eexists; reflexivity.
Qed.

Lemma format_product_total (fields : list (string * json)) :
  absent_or formattable "Price" fields = true ->
  absent_or is_dict "Availability" fields = true ->
  exists s, format_product (JObj fields) = Ok s.
Proof.
  unfold absent_or, format_product. cbn [Py.get obind].
  intros Hp Ha.
  destruct (Py.lookup "Availability" fields) as [[| | | | | |a]|];
    try discriminate; cbn [Py.get obind];
    (destruct (Py.lookup "Price" fields) as [v|];
     [ destruct (format_f_formattable 2 v Hp) as [s ->]
     | destruct (format_f_formattable 2 (JInt 0) eq_refl) as [s ->] ];
     cbn [obind];
     match goal with |- context [if ?c then _ else _] => destruct c end;
     eexists; reflexivity).
Qed.

Lemma format_product_default (key : string) (default : json) :
  In (key, default)
     [ ("Name", JStr "Unknown"); ("Brand", JStr ""); ("Price", JInt 0);
       ("Availability", JObj [("IsAvailableInStock", JBool false)]) ] ->
  missing_defaults_to format_product key default.
Proof.
  intros Hin fields Hmiss.
  repeat (destruct Hin as [E|Hin]; [injection E as <- <- |]); [ | | | | destruct Hin ];
    unfold format_product; cbn [Py.get Py.lookup obind]; eval_eqb;
    rewrite Hmiss; reflexivity.
Qed.

(** C7 (as amended): for a product dict whose [Price], when present, is
    a number and whose [Availability], when present, is a dict,
    [format_product] returns a string; a missing name is rendered as
    ["Unknown"], a missing brand as the empty string, a missing price as
    0 and a missing availability as not in stock. *)
Theorem format_product_defaults :
  (forall fields : list (string * json),
      absent_or formattable "Price" fields = true ->
      absent_or is_dict "Availability" fields = true ->
      exists s, format_product (JObj fields) = Ok s)
  /\ missing_defaults_to format_product "Name" (JStr "Unknown")
  /\ missing_defaults_to format_product "Brand" (JStr "")
  /\ missing_defaults_to format_product "Price" (JInt 0)
  /\ missing_defaults_to format_product "Availability"
       (JObj [("IsAvailableInStock", JBool false)])
  /\ format_product (JObj [])
     = Ok "  [] Unknown () - 0.00 kr -  [OUT OF STOCK]".
Proof.
  split; [exact format_product_total|].
  repeat split; try (apply format_product_default; simpl; tauto).
Qed.

Lemma format_product_defaults_witness :
  absent_or formattable "Price" [("Id", JStr "701025"); ("Price", JInt 12)] = true
  /\ absent_or is_dict "Availability" [("Id", JStr "701025"); ("Price", JInt 12)] = true
  /\ (exists s,
        format_product (JObj [("Id", JStr "701025"); ("Price", JInt 12)]) = Ok s)
  /\ (Py.lookup "Brand" [("Id", JStr "701025")] = None
      /\ format_product (JObj [("Id", JStr "701025")])
         = format_product (JObj [("Brand", JStr ""); ("Id", JStr "701025")])).
Proof.
  split; [reflexivity|]. split; [reflexivity|]. split.
  - apply (proj1 format_product_defaults); reflexivity.
  - split; [reflexivity|].
    apply (proj1 (proj2 (proj2 format_product_defaults))). reflexivity.
Defined.

(** C7 as stated fails on the brand: the default in the code is the
    empty string, so a product without a brand shows [()], which is not
    what the brand ["Unknown"] shows. *)
Lemma format_product_brand_not_unknown :
  ~ missing_defaults_to format_product "Brand" (JStr "Unknown").
Proof.
  intros H. specialize (H [] eq_refl). vm_compute in H. discriminate.
Qed.

End FormatProduct.

(** [format_product] raises on a price that is text. *)
Example format_product_text_price :
  format_product (JObj [("Price", JStr "12.50")])
  = raise ValueError "Unknown format code 'f' for object of type 'str'".
Proof. reflexivity. Qed.

(* ----------------------------------------------------------------- *)
(** ** [format_order_details] *)

Section OrderDetails.

Lemma obind_ok {A B : Type} (x : outcome A) (k : A -> outcome B) (b : B) :
  obind x k = Ok b -> exists a, x = Ok a /\ k a = Ok b.
Proof. destruct x as [a|e]; simpl; [eauto | discriminate]. Qed.

Lemma sub_formattable (a b : json) :
  formattable a = true -> formattable b = true ->
  exists fee, Py.sub a b = Ok fee.
Proof.
  unfold Py.sub, Py.arith, Py.to_float.
  destruct a as [|x|m|f|s|l|l]; try discriminate;
    destruct b as [|y|n|g|t|k|k]; try discriminate; simpl; intros Ha Hb;
    try (eexists; reflexivity);
    repeat match goal with
      | H : context [PyFloat.of_int ?n] |- _ =>
          destruct (PyFloat.of_int n); [|discriminate]
      end;
    simpl; try (eexists; reflexivity).
  all: try (destruct x; eexists; reflexivity).
  all: try (destruct y; eexists; reflexivity).
Qed.






End OrderDetails.

(* ----------------------------------------------------------------- *)
(** ** Running the program step by step *)

Section Steps.

Context {A B : Type}.

Lemma bind_eq (m : M A) (k : A -> M B) (w w1 : World) (a : A) :
  m w = (Ok a, w1) -> bind m k w = k a w1.
Proof. unfold bind. now intros ->. Qed.

Lemma bind_raised (m : M A) (k : A -> M B) (w w1 : World) (e : exc) :
  m w = (Raised e, w1) -> bind m k w = (Raised e, w1).
Proof. unfold bind. now intros ->. Qed.

Lemma bind_ret (a : A) (k : A -> M B) (w : World) : bind (ret a) k w = k a w.
Proof. reflexivity. Qed.

Lemma bind_lift (x : outcome A) (k : A -> M B) (w : World) :
  bind (lift x) k w
  = match x with Ok a => k a w | Raised e => (Raised e, w) end.
Proof. unfold bind, lift. now destruct x. Qed.

Lemma bind_print_err (s : string) (k : unit -> M B) (w : World) :
  bind (print_err s) k w = k tt (add_stderr s w).
Proof. reflexivity. Qed.

Lemma bind_print (s : string) (k : unit -> M B) (w : World) :
  bind (print s) k w = k tt (add_stdout s w).
Proof. reflexivity. Qed.

Lemma bind_new_uuid (k : string -> M B) (w : World) :
  bind new_uuid k w = k (uuid4 w (drawn w)) (add_drawn w).
Proof. reflexivity. Qed.

Lemma bind_common_headers (k : list (string * json) -> M B) (w : World) :
  bind get_common_headers k w
  = k (common_headers (uuid4 w (drawn w))) (add_drawn w).
Proof. reflexivity. Qed.

Lemma bind_request (r : Request) (k : Response -> M B) (w : World) :
  bind (session_request r) k w
  = match remote w (sent w) r with
    | inr resp => k resp (add_sent r w)
    | inl e => (Raised e, add_sent r w)
    end.
Proof. unfold bind, session_request. now destruct (remote w (sent w) r). Qed.

Lemma bind_lift_ok (x : outcome A) (k : A -> M B) (w w' : World) (b : B) :
  bind (lift x) k w = (Ok b, w') -> exists a, x = Ok a /\ k a w = (Ok b, w').
Proof. rewrite bind_lift. destruct x; [eauto | discriminate]. Qed.

Lemma bind_request_ok (r : Request) (k : Response -> M B) (w w' : World) (b : B) :
  bind (session_request r) k w = (Ok b, w') ->
  exists resp,
    remote w (sent w) r = inr resp /\ k resp (add_sent r w) = (Ok b, w').
Proof.
  rewrite bind_request. destruct (remote w (sent w) r); [discriminate | eauto].
Qed.

End Steps.

Lemma bind_auth_headers {B : Type} (auth : AuthTokens)
    (k : list (string * json) -> M B) (w : World) :
  bind (auth_headers auth) k w
  = k (dict_set "X-XSRF-TOKEN" (xsrf_token auth)
         (dict_set "Authorization"
            (JStr ("Bearer " ++ Py.str (bearer_token auth)))
            (common_headers (uuid4 w (drawn w)))))
      (add_drawn w).
Proof. reflexivity. Qed.

Lemma lookup_dict_set_same (k : string) (v : json) (d : list (string * json)) :
  Py.lookup k (dict_set k v d) = Some v.
Proof.
  induction d as [|[k' x] d IH]; simpl.
  - now rewrite String.eqb_refl.
  - destruct (String.eqb k' k) eqn:E; simpl; now rewrite E.
Qed.

Lemma lookup_dict_set_other (k k' : string) (v : json) (d : list (string * json)) :
  String.eqb k' k = false ->
  Py.lookup k (dict_set k' v d) = Py.lookup k d.
Proof.
  intros Hk. induction d as [|[k0 x] d IH]; simpl.
  - now rewrite Hk.
  - destruct (String.eqb k0 k') eqn:E; simpl.
    + apply String.eqb_eq in E as ->. now rewrite Hk.
    + now rewrite IH.
Qed.

(** One step of a run that is known to end well: the next operation is
    carried out, the case where it raises is closed. *)
Ltac run_ok_step H :=
  cbv beta zeta in H;
  lazymatch type of H with
  | bind get_common_headers ?k ?w = _ =>
      rewrite (bind_common_headers k w) in H
  | bind (auth_headers ?a) ?k ?w = _ =>
      rewrite (bind_auth_headers a k w) in H
  | bind (print_err ?s) ?k ?w = _ => rewrite (bind_print_err s k w) in H
  | bind (print ?s) ?k ?w = _ => rewrite (bind_print s k w) in H
  | bind new_uuid ?k ?w = _ => rewrite (bind_new_uuid k w) in H
  | bind (session_request ?r) ?k ?w = _ =>
      let resp := fresh "resp" in
      let E := fresh "Ereq" in
      apply bind_request_ok in H as (resp & E & H)
  | bind (lift ?x) ?k ?w = _ =>
      let a := fresh "a" in
      let E := fresh "E" in
      apply bind_lift_ok in H as (a & E & H)
  end.

Ltac run_ok H := repeat run_ok_step H.

(* ----------------------------------------------------------------- *)
(** ** The login handshake *)

Section Login.

(** C5 (what the code does): a login that succeeds sends five requests
    and draws four identifiers; the first four requests carry one fresh
    identifier each, and the fifth, the second fetch of the anti-forgery
    token, carries the identifier of the fourth again. *)
Theorem login_fifth_request_reuses_id
    (u p : string) (w w' : World) (auth : AuthTokens) :
  login u p w = (Ok auth, w') ->
  exists r1 r2 r3 r4 r5 : Request,
    sent w' = (sent w ++ [r1; r2; r3; r4; r5])%list
    /\ drawn w' = (drawn w + 4)%nat
    /\ correlation_id r1 = Some (JStr (uuid4 w (drawn w)))
    /\ correlation_id r2 = Some (JStr (uuid4 w (drawn w + 1)))
    /\ correlation_id r3 = Some (JStr (uuid4 w (drawn w + 2)))
    /\ correlation_id r4 = Some (JStr (uuid4 w (drawn w + 3)))
    /\ correlation_id r5 = correlation_id r4
    /\ req_url r4 = BASE_URL ++ "/webapi/Token"
    /\ req_url r5 = BASE_URL ++ "/webapi/AntiForgery".
Proof.
  intros H. unfold login, session_get, session_post in H.
  run_ok H.
  match type of H with
  | (if ?b then _ else _) _ = _ => destruct b; [discriminate H|]
  end.
  run_ok H.
  injection H as _ <-.
  do 5 eexists. split.
  { cbn [sent add_sent add_stderr add_drawn]. rewrite <- !app_assoc.
    cbn [app]. reflexivity. }
  split.
  { cbn [drawn add_sent add_stderr add_drawn]. lia. }
  cbn [uuid4 drawn add_sent add_stderr add_drawn].
  rewrite !Nat.add_succ_r, !Nat.add_0_r.
  unfold correlation_id. cbn [req_headers req_url].
  repeat split;
    repeat first
      [ rewrite lookup_dict_set_same
      | rewrite lookup_dict_set_other by reflexivity ];
    reflexivity.
Qed.

End Login.

Lemma login_fifth_request_reuses_id_witness :
  login "user@example.dk" "secret" (script_world login_replies sample_uuid)
  = (Ok sample_auth,
     snd (login "user@example.dk" "secret"
            (script_world login_replies sample_uuid)))
  /\ exists r1 r2 r3 r4 r5 : Request,
       sent (snd (login "user@example.dk" "secret"
                    (script_world login_replies sample_uuid)))
       = [r1; r2; r3; r4; r5]
       /\ correlation_id r4 = Some (JStr (sample_uuid 3))
       /\ correlation_id r5 = Some (JStr (sample_uuid 3)).
Proof.
  assert (login "user@example.dk" "secret" (script_world login_replies sample_uuid)
          = (Ok sample_auth,
             snd (login "user@example.dk" "secret"
                    (script_world login_replies sample_uuid)))) as H
    by (vm_compute; reflexivity).
  split; [exact H|].
  destruct (login_fifth_request_reuses_id _ _ _ _ _ H)
    as (r1 & r2 & r3 & r4 & r5 & Hs & _ & _ & _ & _ & H4 & H5 & _).
  exists r1, r2, r3, r4, r5. split; [exact Hs|].
  split; [exact H4 | rewrite H5; exact H4].
Defined.

(** The scripts of the sample worlds are what [scripted] asks for. *)
Lemma script_world_scripted_from (script : list Response) (uuids : nat -> string)
    (rest : list Response) :
  forall hist : list Request,
    skipn (List.length hist) script = rest ->
    scripted_from (remote (script_world script uuids)) hist (map inr rest).
Proof.
  induction rest as [|a rest IH]; intros hist H; simpl; [exact I|].
  intros r. split.
  - f_equal. clear IH r. revert script H.
    induction (List.length hist) as [|n IHn]; intros [|x script] H;
      try discriminate; simpl in *.
    + now injection H.
    + now apply IHn.
  - apply IH. rewrite length_app. simpl. rewrite Nat.add_1_r.
    clear IH r. revert script H.
    induction (List.length hist) as [|n IHn]; intros [|x script] H;
      try discriminate; simpl in *.
    + now injection H.
    + now apply IHn.
Qed.

Lemma script_world_scripted (script : list Response) (uuids : nat -> string) :
  scripted (script_world script uuids) (map inr script).
Proof. now apply script_world_scripted_from. Qed.

Section Scripted.

Lemma scripted_add_stderr (s : string) (w : World) (sc : list (exc + Response)) :
  scripted w sc -> scripted (add_stderr s w) sc.
Proof. exact (fun H => H). Qed.

Lemma scripted_add_stdout (s : string) (w : World) (sc : list (exc + Response)) :
  scripted w sc -> scripted (add_stdout s w) sc.
Proof. exact (fun H => H). Qed.

Lemma scripted_add_drawn (w : World) (sc : list (exc + Response)) :
  scripted w sc -> scripted (add_drawn w) sc.
Proof. exact (fun H => H). Qed.

Lemma scripted_tail (r : Request) (w : World) (a : exc + Response)
    (sc : list (exc + Response)) :
  scripted w (a :: sc) -> scripted (add_sent r w) sc.
Proof. intros H. exact (proj2 (H r)). Qed.

Lemma bind_request_scripted {B : Type} (r : Request) (k : Response -> M B)
    (w : World) (resp : Response) (sc : list (exc + Response)) :
  scripted w (inr resp :: sc) ->
  bind (session_request r) k w = k resp (add_sent r w).
Proof. intros H. rewrite bind_request, (proj1 (H r)). reflexivity. Qed.

Lemma bind_request_failed {B : Type} (r : Request) (k : Response -> M B)
    (w : World) (e : exc) (sc : list (exc + Response)) :
  scripted w (inl e :: sc) ->
  bind (session_request r) k w = (Raised e, add_sent r w).
Proof. intros H. rewrite bind_request, (proj1 (H r)). reflexivity. Qed.

End Scripted.

(** One step of a run in a world whose replies are known by [Hs]; the
    value of a pure step is looked up among the hypotheses. *)
Ltac run_step Hs :=
  cbv beta zeta;
  lazymatch goal with
  | |- bind get_common_headers ?k ?w = _ =>
      rewrite (bind_common_headers k w); apply scripted_add_drawn in Hs
  | |- bind (auth_headers ?a) ?k ?w = _ =>
      rewrite (bind_auth_headers a k w); apply scripted_add_drawn in Hs
  | |- bind (print_err ?s) ?k ?w = _ =>
      rewrite (bind_print_err s k w); apply (scripted_add_stderr s) in Hs
  | |- bind (print ?s) ?k ?w = _ =>
      rewrite (bind_print s k w); apply (scripted_add_stdout s) in Hs
  | |- bind new_uuid ?k ?w = _ =>
      rewrite (bind_new_uuid k w); apply scripted_add_drawn in Hs
  | |- bind (session_request ?r) ?k ?w = _ =>
      rewrite (bind_request_scripted r k w _ _ Hs);
      apply (scripted_tail r) in Hs
  | |- bind (lift ?x) ?k ?w = _ =>
      rewrite (bind_lift x k w);
      match goal with
      | E : x = _ |- _ => rewrite E
      end
  | |- bind (ret ?a) ?k ?w = _ => rewrite (bind_ret a k w)
  end.

Ltac run Hs := repeat run_step Hs.

Section LoginRefused.

(** C1 (as amended): when the login POST is answered with a JSON body
    in which ["RedirectUrl" in login_result] is false, [login] raises a
    plain [Exception] whose text is [Login failed: ] followed by the
    body; no token is fetched again, and [main] reports it through its
    handler of unexpected exceptions and returns 1. *)
Theorem login_without_redirect_raises
    (u p : string) (w : World) (r1 r2 r3 : Response)
    (v1 v2 login_result x b : json) :
  scripted w [inr r1; inr r2; inr r3] ->
  json_reply r1 v1 -> Py.subscript v1 "Value" = Ok x ->
  json_reply r2 v2 -> Py.subscript v2 "access_token" = Ok b ->
  json_reply r3 login_result ->
  Py.contains "RedirectUrl" login_result = Ok false ->
  exists w' : World,
    login u p w
    = (Raised (mkExc Exception ("Login failed: " ++ Py.str login_result) None),
       w')
    /\ List.length (sent w') = (List.length (sent w) + 3)%nat
    /\ forall c : Command,
         exists w'' : World,
           main (mkArgs u p c) w = (Ok 1, w'')
           /\ stdout w'' = stdout w
           /\ stderr w''
              = (stderr w'
                 ++ [("Error: Login failed: " ++ Py.str login_result)%string])%list.
Proof.
  intros Hs [S1 J1] X [S2 J2] T [S3 J3] C.
  assert (exists w',
            login u p w
            = (Raised (mkExc Exception
                         ("Login failed: " ++ Py.str login_result) None), w')
            /\ List.length (sent w') = (List.length (sent w) + 3)%nat
            /\ stdout w' = stdout w) as (w' & Hrun & Hlen & Hout).
  { eexists. split; [|split].
    - unfold login, session_get, session_post. run Hs.
      cbv beta zeta. cbn [negb]. reflexivity.
    - cbn [sent add_sent add_stderr add_drawn]. rewrite !length_app.
      simpl. lia.
    - reflexivity. }
  exists w'. split; [exact Hrun|]. split; [exact Hlen|].
  intros c. eexists. split; [|split].
  - unfold main, try_except, run_command.
    rewrite (bind_raised _ _ _ _ _ Hrun). cbv beta iota.
    unfold handle_error.
    change (exc_class_eqb _ HTTPError) with false. cbv iota.
    rewrite bind_print_err. reflexivity.
  - exact Hout.
  - reflexivity.
Qed.

Lemma login_without_redirect_raises_witness :
  scripted (script_world refused_replies sample_uuid) (map inr refused_replies)
  /\ exists w' : World,
       login "user@example.dk" "wrong" (script_world refused_replies sample_uuid)
       = (Raised (mkExc Exception
                    "Login failed: {'Error': 'bad credentials'}" None), w')
       /\ List.length (sent w') = 3%nat.
Proof.
  split; [apply script_world_scripted|].
  destruct (login_without_redirect_raises
              "user@example.dk" "wrong"
              (script_world refused_replies sample_uuid)
              (ok_response (JObj [("Value", JStr "xsrf-0")]))
              (ok_response (JObj [("access_token", JStr "bearer-0")]))
              (ok_response (JObj [("Error", JStr "bad credentials")]))
              (JObj [("Value", JStr "xsrf-0")])
              (JObj [("access_token", JStr "bearer-0")])
              (JObj [("Error", JStr "bad credentials")])
              (JStr "xsrf-0") (JStr "bearer-0")
              (script_world_scripted refused_replies sample_uuid)
              (conj eq_refl eq_refl) eq_refl
              (conj eq_refl eq_refl) eq_refl
              (conj eq_refl eq_refl) eq_refl)
    as (w' & Hrun & Hlen & _).
  exists w'. split; [exact Hrun | exact Hlen].
Defined.

(** C1 as stated fails on the class of the error: for the body
    [{"Error": "bad credentials"}] the login does fail, but with a
    plain [Exception]; no class [AuthError] exists in the program. *)
Lemma login_refused_is_not_AuthError :
  raises_named "Exception" (login "user@example.dk" "wrong")
               (script_world refused_replies sample_uuid)
  /\ ~ raises_named "AuthError" (login "user@example.dk" "wrong")
                    (script_world refused_replies sample_uuid).
Proof.
  split.
  - eexists. split; [vm_compute; reflexivity | reflexivity].
  - intros (e & He & Hname). vm_compute in He. injection He as <-.
    vm_compute in Hname. discriminate.
Qed.

End LoginRefused.

(* ----------------------------------------------------------------- *)
(** ** [get_product_details] *)

Section ProductDetails.

Lemma find_first_dicts (key : string) (f : json -> bool) (l : list json) :
  forallb is_dict l = true ->
  Py.find_first (fun p => let? v := Py.get1 p key in Ok (f v)) l
  = Ok (find (fun p => f (field p key)) l).
Proof.
  induction l as [|p l IH]; simpl; intros H; [reflexivity|].
  apply andb_true_iff in H as [Hp Hl].
  destruct p as [| | | | | |fields]; try discriminate.
  cbn [Py.get1 Py.get obind field field_or].
  destruct (f _); [reflexivity | now apply IH].
Qed.

Lemma find_dict (f : json -> bool) (l : list json) (p : json) :
  forallb is_dict l = true -> find f l = Some p -> is_dict p = true.
Proof.
  induction l as [|q l IH]; simpl; [discriminate|]. intros H.
  apply andb_true_iff in H as [Hq Hl].
  destruct (f q); [now intros [= <-] | now apply IH].
Qed.

Lemma find_product_url_dicts (product_id : string) (products : list json) :
  forallb is_dict products = true ->
  find_product_url (JArr products) product_id
  = Ok (matched_url product_id products).
Proof.
  intros H. unfold find_product_url, matched_url. cbn [Py.iter obind].
  rewrite (find_first_dicts "Id" (fun id => Py.eq_str id product_id) _ H).
  cbn [obind]. fold (id_is product_id).
  destruct (find (id_is product_id) products) as [p|] eqn:E; [|reflexivity].
  pose proof (find_dict _ _ _ H E) as Hp.
  destruct p; try discriminate. reflexivity.
Qed.

Lemma find_detail_block_dicts (content : list json) :
  forallb is_dict content = true ->
  find_detail_block content = Ok (find is_detail_block content).
Proof.
  intros H. unfold find_detail_block.
  now rewrite (find_first_dicts "TemplateName"
                 (fun t => Py.eq_str t "productdetailspot") _ H).
Qed.

Lemma find_none_existsb {X : Type} (f : X -> bool) (l : list X) :
  find f l = None <-> existsb f l = false.
Proof.
  induction l as [|x l IH]; simpl; [tauto|].
  destruct (f x); simpl; [split; discriminate | exact IH].
Qed.

Lemma map_o_get_dicts (key : string) (d : json) (l : list json) :
  forallb is_dict l = true ->
  exists names, Py.map_o (fun item => Py.get item key d) l = Ok names.
Proof.
  induction l as [|p l IH]; simpl; intros H; [eexists; reflexivity|].
  apply andb_true_iff in H as [Hp Hl].
  destruct p; try discriminate. destruct (IH Hl) as [names ->].
  eexists; reflexivity.
Qed.

(** When the first loop ends without a url, the product is reported as
    not found and nothing is requested after the search. *)
Lemma details_without_url (auth : AuthTokens) (product_id : string)
    (w w1 : World) (products : list json) :
  search_products auth product_id 5 w = (Ok (JArr products), w1) ->
  forallb is_dict products = true ->
  Py.truthy (matched_url product_id products) = false ->
  exists msg,
    get_product_details auth product_id w
    = (Raised (mkExc ProductNotFoundError msg None), w1).
Proof.
  intros Hsearch Hd Hurl. eexists.
  unfold get_product_details. rewrite (bind_eq _ _ _ _ _ Hsearch).
  rewrite bind_lift, (find_product_url_dicts _ _ Hd). cbv beta iota.
  rewrite Hurl. cbn [negb]. rewrite bind_lift. cbn [Py.len]. cbv beta iota.
  reflexivity.
Qed.

(** When it ends with a url, the page is fetched, and the result is the
    first detail block of the page, or the product is reported as not
    found if the page has none. *)
Lemma details_with_url (auth : AuthTokens) (product_id : string)
    (w w1 w2 : World) (products content : list json) (ps : PageSettings)
    (resp : Response) (data : json) :
  search_products auth product_id 5 w = (Ok (JArr products), w1) ->
  forallb is_dict products = true ->
  Py.truthy (matched_url product_id products) = true ->
  get_page_settings auth w1 = (Ok ps, w2) ->
  scripted w2 [inr resp] ->
  json_reply resp data ->
  Py.get data "content" (JArr []) = Ok (JArr content) ->
  forallb is_dict content = true ->
  exists w3,
    match find is_detail_block content with
    | Some item => get_product_details auth product_id w = (Ok item, w3)
    | None =>
        exists msg,
          get_product_details auth product_id w
          = (Raised (mkExc ProductNotFoundError msg None), w3)
    end.
Proof.
  intros Hsearch Hd Hurl Hps Hs [S J] Hc Hcd. eexists.
  assert (Hblock := find_detail_block_dicts _ Hcd).
  destruct (find is_detail_block content) as [item|] eqn:E.
  - unfold get_product_details. rewrite (bind_eq _ _ _ _ _ Hsearch).
    rewrite bind_lift, (find_product_url_dicts _ _ Hd). cbv beta iota.
    rewrite Hurl. cbn [negb]. rewrite (bind_eq _ _ _ _ _ Hps).
    unfold session_get. run Hs. cbv beta zeta.
    rewrite bind_lift. cbn [Py.iter]. cbv beta iota.
    rewrite bind_lift, Hblock. reflexivity.
  - destruct (map_o_get_dicts "TemplateName" (JStr "unknown") _ Hcd)
      as [names Hn].
    eexists.
    unfold get_product_details. rewrite (bind_eq _ _ _ _ _ Hsearch).
    rewrite bind_lift, (find_product_url_dicts _ _ Hd). cbv beta iota.
    rewrite Hurl. cbn [negb]. rewrite (bind_eq _ _ _ _ _ Hps).
    unfold session_get. run Hs. cbv beta zeta.
    rewrite bind_lift. cbn [Py.iter]. cbv beta iota.
    rewrite bind_lift, Hblock. cbv beta iota.
    rewrite bind_lift, Hn. reflexivity.
Qed.

End ProductDetails.

Section ProductNotFound.

(** C2 (as amended): take a search for the id with [take=5] that
    returns a list of dicts.  If none has the id, [get_product_details]
    raises [ProductNotFoundError].  And when the product page is fetched
    well and its content is a list of dicts, [ProductNotFoundError] is
    raised exactly when the first search result with the id is missing
    or has a missing or empty url, or the page has no item whose
    template name is [productdetailspot]. *)
Theorem product_not_found_iff
    (auth : AuthTokens) (product_id : string) (w w1 : World)
    (products : list json) :
  search_products auth product_id 5 w = (Ok (JArr products), w1) ->
  forallb is_dict products = true ->
  (existsb (id_is product_id) products = false ->
   raises_named "ProductNotFoundError" (get_product_details auth product_id) w)
  /\ forall (w2 : World) (ps : PageSettings) (resp : Response) (data : json)
            (content : list json),
       get_page_settings auth w1 = (Ok ps, w2) ->
       scripted w2 [inr resp] ->
       json_reply resp data ->
       Py.get data "content" (JArr []) = Ok (JArr content) ->
       forallb is_dict content = true ->
       (raises_named "ProductNotFoundError"
          (get_product_details auth product_id) w
        <-> Py.truthy (matched_url product_id products) = false
            \/ existsb is_detail_block content = false).
Proof.
  intros Hsearch Hd. split.
  - intros Hno. apply find_none_existsb in Hno.
    destruct (details_without_url auth product_id w w1 products Hsearch Hd)
      as [msg Hrun].
    { unfold matched_url. now rewrite Hno. }
    exists (mkExc ProductNotFoundError msg None). now rewrite Hrun.
  - intros w2 ps resp data content Hps Hs Hj Hc Hcd.
    destruct (Py.truthy (matched_url product_id products)) eqn:Hurl.
    + destruct (details_with_url auth product_id w w1 w2 products content
                  ps resp data Hsearch Hd Hurl Hps Hs Hj Hc Hcd) as [w3 Hrun].
      destruct (find is_detail_block content) as [item|] eqn:E.
      * split.
        -- intros (e & He & _). rewrite Hrun in He. discriminate.
        -- intros [H|H]; [discriminate|].
           apply find_none_existsb in H. congruence.
      * destruct Hrun as [msg Hrun]. split.
        -- intros _. right. now apply find_none_existsb.
        -- intros _. exists (mkExc ProductNotFoundError msg None).
           now rewrite Hrun.
    + destruct (details_without_url auth product_id w w1 products
                  Hsearch Hd Hurl) as [msg Hrun].
      split; [now left|].
      intros _. exists (mkExc ProductNotFoundError msg None). now rewrite Hrun.
Qed.

Lemma scripted_one (w : World) (resp : Response) :
  (forall r, remote w (sent w) r = inr resp) -> scripted w [inr resp].
Proof. intros H r. split; [apply H | exact I]. Qed.

Lemma product_not_found_iff_witness :
  search_products sample_auth "5000123" 5
    (script_world (details_replies milk_with_url []) sample_uuid)
  = (Ok (JArr milk_with_url),
     snd (search_products sample_auth "5000123" 5
            (script_world (details_replies milk_with_url []) sample_uuid)))
  /\ (raises_named "ProductNotFoundError"
        (get_product_details sample_auth "5000123")
        (script_world (details_replies milk_with_url []) sample_uuid)
      <-> Py.truthy (matched_url "5000123" milk_with_url) = false
          \/ existsb is_detail_block [] = false).
Proof.
  assert (search_products sample_auth "5000123" 5
            (script_world (details_replies milk_with_url []) sample_uuid)
          = (Ok (JArr milk_with_url),
             snd (search_products sample_auth "5000123" 5
                    (script_world (details_replies milk_with_url []) sample_uuid))))
    as H by (vm_compute; reflexivity).
  split; [exact H|].
  refine (proj2 (product_not_found_iff _ _ _ _ _ H eq_refl)
            (snd (get_page_settings sample_auth
                    (snd (search_products sample_auth "5000123" 5
                            (script_world (details_replies milk_with_url [])
                                          sample_uuid)))))
            sample_page_settings
            (ok_response (JObj [("content", JArr [])]))
            (JObj [("content", JArr [])]) [] _ _ (conj eq_refl eq_refl)
            eq_refl eq_refl).
  - vm_compute; reflexivity.
  - apply scripted_one. intros r. vm_compute. reflexivity.
Defined.

(** C2 as stated fails in one direction: here a search result has the
    id and the product page the world would serve has its detail block,
    yet the product is reported as not found, because the result has no
    url. *)
Lemma product_not_found_despite_id_match :
  fst (search_products sample_auth "5000123" 5
         (script_world (details_replies milk_without_url detail_page)
                       sample_uuid))
  = Ok (JArr milk_without_url)
  /\ raises_named "ProductNotFoundError"
       (get_product_details sample_auth "5000123")
       (script_world (details_replies milk_without_url detail_page) sample_uuid)
  /\ ~ no_id_or_no_block "5000123" milk_without_url detail_page.
Proof.
  split; [vm_compute; reflexivity|]. split.
  - eexists. split; [vm_compute; reflexivity | reflexivity].
  - intros [H|H]; vm_compute in H; discriminate.
Qed.

(** C10: a search result with the requested id whose url is missing or
    empty makes [get_product_details] raise [ProductNotFoundError]
    straight after the search: the world is the one the search left, so
    the page of the product is not requested. *)
Theorem id_match_without_url_not_found
    (auth : AuthTokens) (product_id : string) (w w1 : World)
    (products : list json) (fields : list (string * json)) :
  search_products auth product_id 5 w = (Ok (JArr products), w1) ->
  forallb is_dict products = true ->
  find (id_is product_id) products = Some (JObj fields) ->
  Py.lookup "Url" fields = None \/ Py.lookup "Url" fields = Some (JStr "") ->
  Py.lookup "Id" fields = Some (JStr product_id)
  /\ exists msg,
       get_product_details auth product_id w
       = (Raised (mkExc ProductNotFoundError msg None), w1).
Proof.
  intros Hsearch Hd Hfind Hurl. split.
  - apply find_some in Hfind as [_ Hid].
    unfold id_is, field, field_or in Hid.
    destruct (Py.lookup "Id" fields) as [[| | | |s| |]|]; try discriminate.
    apply String.eqb_eq in Hid. now subst.
  - apply (details_without_url auth product_id w w1 products Hsearch Hd).
    unfold matched_url. rewrite Hfind. unfold field, field_or.
    destruct Hurl as [-> | ->]; reflexivity.
Qed.

Lemma id_match_without_url_not_found_witness :
  find (id_is "5000123") milk_without_url
  = Some (JObj [("Id", JStr "5000123"); ("Name", JStr "Milk")])
  /\ exists msg,
       get_product_details sample_auth "5000123"
         (script_world (details_replies milk_without_url detail_page) sample_uuid)
       = (Raised (mkExc ProductNotFoundError msg None),
          snd (search_products sample_auth "5000123" 5
                 (script_world (details_replies milk_without_url detail_page)
                               sample_uuid))).
Proof.
  split; [reflexivity|].
  refine (proj2 (id_match_without_url_not_found
                   sample_auth "5000123" _ _ milk_without_url
                   [("Id", JStr "5000123"); ("Name", JStr "Milk")]
                   _ eq_refl eq_refl (or_introl eq_refl))).
  vm_compute; reflexivity.
Defined.

End ProductNotFound.

(* ----------------------------------------------------------------- *)
(** ** [cmd_history]: looking an order up *)

Section HistoryLookup.





End HistoryLookup.

(* ----------------------------------------------------------------- *)
(** ** Exit codes *)

Section ExitCodes.

Lemma bind_ok_inv {A B : Type} (m : M A) (k : A -> M B) (w w' : World) (b : B) :
  bind m k w = (Ok b, w') ->
  exists a w1, m w = (Ok a, w1) /\ k a w1 = (Ok b, w').
Proof.
  unfold bind. destruct (m w) as [[a|e] w1]; [eauto | discriminate].
Qed.

(** The value a run that ends well returns is the one of its last
    [ret]: the steps before it are skipped. *)
Ltac to_last_ret H :=
  repeat
    (cbv beta zeta in H;
     lazymatch type of H with
     | bind _ _ _ = (Ok _, _) =>
         let a := fresh "a" in
         let w1 := fresh "w" in
         apply bind_ok_inv in H as (a & w1 & _ & H)
     | (if ?b then _ else _) _ = _ => destruct b
     | match ?x with _ => _ end _ = _ => destruct x
     end);
  unfold ret in H; injection H as <- _; auto.

Lemma cmd_search_code (auth : AuthTokens) (q : string) (l : Z) (w w' : World) (c : Z) :
  cmd_search auth q l w = (Ok c, w') -> c = 0 \/ c = 1.
Proof. intros H. unfold cmd_search in H. to_last_ret H. Qed.

Lemma cmd_basket_code (auth : AuthTokens) (w w' : World) (c : Z) :
  cmd_basket auth w = (Ok c, w') -> c = 0 \/ c = 1.
Proof. intros H. unfold cmd_basket in H. to_last_ret H. Qed.

Lemma cmd_add_code (auth : AuthTokens) (pid : string) (q : Z) (w w' : World) (c : Z) :
  cmd_add auth pid q w = (Ok c, w') -> c = 0 \/ c = 1.
Proof. intros H. unfold cmd_add in H. to_last_ret H. Qed.

Lemma cmd_details_code (auth : AuthTokens) (pid : string) (w w' : World) (c : Z) :
  cmd_details auth pid w = (Ok c, w') -> c = 0 \/ c = 1.
Proof. intros H. unfold cmd_details in H. to_last_ret H. Qed.

Lemma cmd_history_code (auth : AuthTokens) (oid : option Z) (l : Z)
    (w w' : World) (c : Z) :
  cmd_history auth oid l w = (Ok c, w') -> c = 0 \/ c = 1.
Proof.
  intros H. unfold cmd_history in H.
  destruct (order_id_given oid);
    [unfold history_lookup in H | unfold history_list in H];
    to_last_ret H.
Qed.

Lemma run_command_code (args : Args) (w w' : World) (c : Z) :
  run_command args w = (Ok c, w') -> c = 0 \/ c = 1.
Proof.
  intros H. unfold run_command in H.
  apply bind_ok_inv in H as (auth & w1 & _ & H).
  destruct (command args);
    eauto using cmd_search_code, cmd_basket_code, cmd_add_code,
      cmd_details_code, cmd_history_code.
Qed.

Lemma handle_error_run (e : exc) (w : World) :
  exists w', handle_error e w = (Ok 1, w')
             /\ stdout w' = stdout w
             /\ stderr w' = (stderr w ++ diagnostic e)%list.
Proof.
  unfold handle_error, diagnostic.
  destruct (exc_class_eqb (exc_cls e) HTTPError).
  - rewrite bind_print_err. destruct (exc_response e) as [resp|].
    + eexists. split; [reflexivity|]. split; [reflexivity|].
      cbn [stderr add_stderr]. now rewrite <- app_assoc.
    + eexists. split; [reflexivity|]. split; reflexivity.
  - rewrite bind_print_err. eexists. split; [reflexivity|].
    split; reflexivity.
Qed.

Lemma main_of_raised (args : Args) (w w' : World) (e : exc) :
  run_command args w = (Raised e, w') ->
  exists w'', main args w = (Ok 1, w'')
              /\ stdout w'' = stdout w'
              /\ stderr w'' = (stderr w' ++ diagnostic e)%list.
Proof.
  intros H. unfold main, try_except. rewrite H. apply handle_error_run.
Qed.

Lemma main_of_ok (args : Args) (w w' : World) (c : Z) :
  run_command args w = (Ok c, w') -> main args w = (Ok c, w').
Proof. intros H. unfold main, try_except. now rewrite H. Qed.

Lemma exit_code_of_command (args : Args) (w w0 w' : World) (auth : AuthTokens)
    (c : Z) :
  login (username args) (password args) w = (Ok auth, w0) ->
  match command args with
  | Search query limit => cmd_search auth query limit
  | Details product_id => cmd_details auth product_id
  | Basket => cmd_basket auth
  | Add product_id quantity => cmd_add auth product_id quantity
  | History order_id limit => cmd_history auth order_id limit
  end w0 = (Ok c, w') ->
  exit_code args w = c.
Proof.
  intros Hlogin Hcmd. unfold exit_code.
  rewrite (main_of_ok args w w' c); [reflexivity|].
  unfold run_command. now rewrite (bind_eq _ _ _ _ _ Hlogin).
Qed.

Lemma exit_code_0_or_1 (args : Args) (w : World) :
  exit_code args w = 0 \/ exit_code args w = 1.
Proof.
  unfold exit_code.
  destruct (run_command args w) as [[c|e] w'] eqn:H.
  - rewrite (main_of_ok _ _ _ _ H). simpl. eapply run_command_code, H.
  - destruct (main_of_raised _ _ _ _ H) as (w'' & -> & _). now right.
Qed.

End ExitCodes.

Section ExitCodeCases.

Lemma search_empty_code (auth : AuthTokens) (q : string) (l : Z)
    (w w1 : World) (products : json) :
  search_products auth q l (add_stderr ("Searching for '" ++ q ++ "'...") w)
  = (Ok products, w1) ->
  Py.truthy products = false ->
  cmd_search auth q l w
  = (Ok 1, add_stdout ("No products found for '" ++ q ++ "'") w1).
Proof.
  intros Hs Ht. unfold cmd_search.
  rewrite bind_print_err, (bind_eq _ _ _ _ _ Hs), Ht. reflexivity.
Qed.

Lemma details_not_found_code (auth : AuthTokens) (pid : string)
    (w w1 : World) (e : exc) :
  get_product_details auth pid
    (add_stderr ("Fetching details for product " ++ pid ++ "...") w)
  = (Raised e, w1) ->
  exc_cls e = ProductNotFoundError ->
  cmd_details auth pid w = (Ok 1, add_stderr ("Error: " ++ exc_str e) w1).
Proof.
  intros Hd Hc. unfold cmd_details. rewrite bind_print_err.
  unfold bind at 1. unfold try_except.
  rewrite (bind_raised _ _ _ _ _ Hd), Hc. reflexivity.
Qed.

Lemma order_not_found_code (auth : AuthTokens) (id limit : Z)
    (w w1 : World) (history : json) (orders : list json) :
  id <> 0 ->
  get_order_history auth 0 MAX_ORDER_HISTORY_LOOKUP
    (add_stderr ("Fetching order " ++ PyStr.of_int id ++ "...") w)
  = (Ok history, w1) ->
  Py.get history "Orders" (JArr []) = Ok (JArr orders) ->
  find_order orders id = Ok None ->
  cmd_history auth (Some id) limit w
  = (Ok 1, add_stderr ("Order " ++ PyStr.of_int id ++ " not found in last "
                       ++ PyStr.of_int MAX_ORDER_HISTORY_LOOKUP ++ " orders.")
                      w1).
Proof.
  intros Hid Hh Ho Hf. unfold cmd_history, order_id_given.
  rewrite (proj2 (Z.eqb_neq id 0) Hid). unfold history_lookup.
  rewrite bind_print_err, (bind_eq _ _ _ _ _ Hh), bind_lift, Ho.
  cbv beta iota. rewrite bind_lift. cbn [Py.iter]. cbv beta iota.
  rewrite bind_lift, Hf. reflexivity.
Qed.

Lemma basket_empty_code (auth : AuthTokens) (w w1 : World) (basket lines : json) :
  get_basket auth (add_stderr "Fetching basket..." w) = (Ok basket, w1) ->
  Py.get basket "Lines" (JArr []) = Ok lines ->
  Py.truthy lines = false ->
  cmd_basket auth w = (Ok 0, add_stdout "Your basket is empty." w1).
Proof.
  intros Hb Hl Ht. unfold cmd_basket.
  rewrite bind_print_err, (bind_eq _ _ _ _ _ Hb), bind_lift, Hl, Ht.
  reflexivity.
Qed.

Lemma history_empty_code (auth : AuthTokens) (oid : option Z) (limit : Z)
    (w w1 : World) (history orders pages : json) :
  order_id_given oid = None ->
  get_order_history auth 0 limit (add_stderr "Fetching order history..." w)
  = (Ok history, w1) ->
  Py.get history "Orders" (JArr []) = Ok orders ->
  Py.get history "NumberOfPages" (JInt 1) = Ok pages ->
  Py.truthy orders = false ->
  cmd_history auth oid limit w = (Ok 0, add_stdout "No orders found." w1).
Proof.
  intros Hid Hh Ho Hp Ht. unfold cmd_history. rewrite Hid.
  unfold history_list.
  rewrite bind_print_err, (bind_eq _ _ _ _ _ Hh), bind_lift, Ho.
  cbv beta iota. rewrite bind_lift, Hp, Ht. reflexivity.
Qed.

End ExitCodeCases.

(* ----------------------------------------------------------------- *)
(** ** More on [strip_html_tags] *)

Section StripHtmlMore.

Lemma span_not_gt_rest (s : string) :
  (snd (span_not_gt s) = "" /\ PyStr.has_char ">" s = false)
  \/ exists rest, snd (span_not_gt s) = String ">" rest.
Proof.
  induction s as [|c s IH]; simpl; [now left|].
  destruct (Ascii.eqb_spec c ">") as [->|Hc].
  - right. now exists s.
  - destruct (span_not_gt s) as [n rest]. simpl in *.
    destruct IH as [[-> Hs] | [rest' ->]].
    + left. split; [reflexivity|].
      rewrite Hs, orb_false_r. apply Ascii.eqb_neq. congruence.
    + right. now exists rest'.
Qed.

Lemma span_not_gt_no_gt (s : string) :
  PyStr.has_char ">" s = false -> snd (span_not_gt s) = "".
Proof.
  intros H. destruct (span_not_gt_rest s) as [[E _] | [rest E]]; [exact E|].
  exfalso. revert H E. induction s as [|c s IH]; simpl; [discriminate|].
  intros H. apply orb_false_iff in H as [Hc Hs].
  rewrite Ascii.eqb_sym, Hc. destruct (span_not_gt s). simpl in *. auto.
Qed.

Lemma has_char_re_sub_tags (c : ascii) (s : string) :
  forall k, PyStr.has_char c (re_sub_tags s k) = true ->
            PyStr.has_char c s = true.
Proof.
  induction s as [|x s IH]; intros k; [auto|].
  cbn [PyStr.has_char].
  destruct k as [|k].
  - change (re_sub_tags (String x s) 0)
      with (match match_tag (String x s) with
            | Some n => re_sub_tags s (n - 1)
            | None => String x (re_sub_tags s 0)
            end).
    destruct (match_tag (String x s)).
    + intros H. rewrite (IH _ H). apply orb_true_r.
    + cbn [PyStr.has_char]. intros H. apply orb_true_iff in H as [H|H].
      * now rewrite H.
      * rewrite (IH _ H). apply orb_true_r.
  - cbn [re_sub_tags]. intros H. rewrite (IH _ H). apply orb_true_r.
Qed.

(** A ['<'] that opens no tag in [r] opens none in what is left of [r]. *)
Lemma match_tag_none_kept (c : ascii) (r : string) :
  match_tag (String c r) = None ->
  match_tag (String c (re_sub_tags r 0)) = None.
Proof.
  unfold match_tag. destruct (Ascii.eqb c "<"); [|reflexivity].
  destruct r as [|d r]; [reflexivity|].
  destruct (Ascii.eqb_spec d ">") as [->|Hd].
  - intros _.
    change (re_sub_tags (String ">" r) 0) with (String ">" (re_sub_tags r 0)).
    reflexivity.
  - intros H.
    assert (snd (span_not_gt (String d r)) = "") as E.
    { destruct (span_not_gt_rest (String d r)) as [[E _] | [rest E]];
        [exact E|].
      destruct (span_not_gt (String d r)) as [n rest'] eqn:S.
      simpl in E. subst rest'. destruct n as [|n].
      - simpl in S. apply Ascii.eqb_neq in Hd. rewrite Hd in S.
        destruct (span_not_gt r). discriminate.
      - rewrite Ascii.eqb_refl in H. discriminate. }
    assert (PyStr.has_char ">" (String d r) = false) as Hno.
    { destruct (span_not_gt_rest (String d r)) as [[_ Hno] | [rest E']];
        [exact Hno | congruence]. }
    assert (PyStr.has_char ">" (re_sub_tags (String d r) 0) = false) as Hout.
    { destruct (PyStr.has_char ">" (re_sub_tags (String d r) 0)) eqn:X;
        [|reflexivity].
      apply has_char_re_sub_tags in X. congruence. }
    apply span_not_gt_no_gt in Hout.
    destruct (span_not_gt (re_sub_tags (String d r) 0)) as [m rest].
    simpl in Hout. subst rest. now destruct m.
Qed.

Lemma re_sub_tags_tag_free (s : string) :
  forall k, tag_free (re_sub_tags s k) = true.
Proof.
  induction s as [|c s IH]; intros k; [reflexivity|].
  destruct k as [|k]; [|apply IH].
  change (re_sub_tags (String c s) 0)
    with (match match_tag (String c s) with
          | Some n => re_sub_tags s (n - 1)
          | None => String c (re_sub_tags s 0)
          end).
  destruct (match_tag (String c s)) eqn:E; [apply IH|].
  cbn [tag_free]. rewrite (match_tag_none_kept _ _ E). apply IH.
Qed.

Lemma tag_free_tail (c : ascii) (s : string) :
  tag_free (String c s) = true -> tag_free s = true.
Proof. cbn [tag_free]. now destruct (match_tag (String c s)). Qed.

Lemma tag_free_suffix (a b : string) :
  tag_free (a ++ b) = true -> tag_free b = true.
Proof.
  induction a as [|c a IH]; [auto|]. intros H. apply IH.
  exact (tag_free_tail _ _ H).
Qed.

Lemma tag_free_head (s : string) : tag_free s = true -> match_tag s = None.
Proof.
  destruct s as [|c s]; [reflexivity|]. cbn [tag_free].
  now destruct (match_tag (String c s)).
Qed.

Lemma tag_free_lstrip (s : string) :
  tag_free s = true -> tag_free (PyStr.lstrip s) = true.
Proof.
  induction s as [|c s IH]; [auto|]. intros H. cbn [PyStr.lstrip].
  destruct (PyStr.is_space c); [|exact H].
  apply IH. exact (tag_free_tail _ _ H).
Qed.

Lemma span_not_gt_app (a b : string) (n : nat) (d : ascii) (rest : string) :
  span_not_gt a = (n, String d rest) ->
  span_not_gt (a ++ b) = (n, String d (rest ++ b)).
Proof.
  revert n. induction a as [|c a IH]; intros n; simpl; [discriminate|].
  destruct (Ascii.eqb c ">").
  - now intros [= <- <- <-].
  - destruct (span_not_gt a) as [m r] eqn:E. intros [= <- ->].
    now rewrite (IH _ eq_refl).
Qed.

Lemma match_tag_app (a b : string) (n : nat) :
  match_tag a = Some n -> match_tag (a ++ b) = Some n.
Proof.
  destruct a as [|c a]; [discriminate|]. cbn [append]. unfold match_tag.
  destruct (Ascii.eqb c "<"); [|discriminate].
  destruct (span_not_gt a) as [[|m] [|d rest]] eqn:E; try discriminate.
  now rewrite (span_not_gt_app _ b _ _ _ E).
Qed.

Lemma rstrip_prefix (s : string) : exists ws, s = PyStr.rstrip s ++ ws.
Proof.
  induction s as [|c s [ws IH]]; [now exists ""|]. cbn [PyStr.rstrip].
  destruct (PyStr.is_space c && negb (PyStr.nonempty (PyStr.rstrip s))).
  - now exists (String c s).
  - exists ws. cbn [append]. now rewrite <- IH.
Qed.

Lemma tag_free_rstrip (s : string) :
  tag_free s = true -> tag_free (PyStr.rstrip s) = true.
Proof.
  induction s as [|c s IH]; [auto|]. intros H. cbn [PyStr.rstrip].
  destruct (PyStr.is_space c && negb (PyStr.nonempty (PyStr.rstrip s)));
    [reflexivity|].
  cbn [tag_free].
  destruct (match_tag (String c (PyStr.rstrip s))) eqn:E.
  - destruct (rstrip_prefix s) as [ws Hws].
    apply (match_tag_app _ ws) in E. cbn [append] in E. rewrite <- Hws in E.
    apply tag_free_head in H. congruence.
  - apply IH. exact (tag_free_tail _ _ H).
Qed.

Lemma re_sub_tags_fixed (s : string) :
  tag_free s = true -> re_sub_tags s 0 = s.
Proof.
  induction s as [|c s IH]; [auto|]. intros H.
  change (re_sub_tags (String c s) 0)
    with (match match_tag (String c s) with
          | Some n => re_sub_tags s (n - 1)
          | None => String c (re_sub_tags s 0)
          end).
  rewrite (tag_free_head _ H), (IH (tag_free_tail _ _ H)). reflexivity.
Qed.

Lemma rstrip_idem (s : string) : PyStr.rstrip (PyStr.rstrip s) = PyStr.rstrip s.
Proof.
  induction s as [|c s IH]; [reflexivity|]. cbn [PyStr.rstrip].
  destruct (PyStr.is_space c && negb (PyStr.nonempty (PyStr.rstrip s))) eqn:E;
    [reflexivity|].
  cbn [PyStr.rstrip]. now rewrite IH, E.
Qed.

Lemma lstrip_shape (s : string) :
  PyStr.lstrip s = ""
  \/ exists c r, PyStr.lstrip s = String c r /\ PyStr.is_space c = false.
Proof.
  induction s as [|c s IH]; [now left|]. cbn [PyStr.lstrip].
  destruct (PyStr.is_space c) eqn:E; [exact IH|]. right. eauto.
Qed.

Lemma strip_idem (s : string) : PyStr.strip (PyStr.strip s) = PyStr.strip s.
Proof.
  unfold PyStr.strip.
  destruct (lstrip_shape s) as [-> | (c & r & -> & Hc)]; [reflexivity|].
  cbn [PyStr.rstrip]. rewrite Hc. cbn [andb PyStr.lstrip]. rewrite Hc.
  cbn [PyStr.rstrip]. rewrite Hc. cbn [andb]. now rewrite rstrip_idem.
Qed.

Lemma strip_html_tags_tag_free (html : string) :
  tag_free (strip_html_tags html) = true.
Proof.
  unfold strip_html_tags, PyStr.strip.
  apply tag_free_rstrip, tag_free_lstrip, re_sub_tags_tag_free.
Qed.

(** X1: no tag is left in the result of [strip_html_tags]: at no
    position of the result does the pattern [<[^>]+>] match. *)
Theorem strip_html_tags_leaves_no_tag (html before rest : string) :
  strip_html_tags html = before ++ rest -> match_tag rest = None.
Proof.
  intros H. apply tag_free_head, (tag_free_suffix before).
  rewrite <- H. apply strip_html_tags_tag_free.
Qed.

Lemma strip_html_tags_leaves_no_tag_witness :
  strip_html_tags "a <<b>i</b> > c" = "a " ++ "i > c"
  /\ match_tag "i > c" = None.
Proof.
  split; [reflexivity|].
  apply (strip_html_tags_leaves_no_tag "a <<b>i</b> > c" "a " "i > c").
  reflexivity.
Defined.

(** X2: [strip_html_tags] is idempotent: stripping a stripped text
    changes nothing. *)
Theorem strip_html_tags_idempotent (html : string) :
  strip_html_tags (strip_html_tags html) = strip_html_tags html.
Proof.
  unfold strip_html_tags at 1.
  rewrite (re_sub_tags_fixed _ (strip_html_tags_tag_free html)).
  unfold strip_html_tags. apply strip_idem.
Qed.

Lemma subseq_refl (s : string) : subseq s s.
Proof. induction s; constructor; auto. Qed.

Lemma subseq_trans (a b c : string) : subseq a b -> subseq b c -> subseq a c.
Proof.
  intros Hab Hbc. revert a Hab.
  induction Hbc as [|x b c Hbc IH|x b c Hbc IH]; intros a Hab.
  - exact Hab.
  - inversion Hab; subst.
    + apply subseq_keep. now apply IH.
    + apply subseq_drop. now apply IH.
  - apply subseq_drop. now apply IH.
Qed.

Lemma subseq_empty (s : string) : subseq "" s.
Proof. induction s; constructor; auto. Qed.

Lemma subseq_re_sub_tags (s : string) : forall k, subseq (re_sub_tags s k) s.
Proof.
  induction s as [|c s IH]; intros k; [constructor|].
  destruct k as [|k]; [|apply subseq_drop, IH].
  change (re_sub_tags (String c s) 0)
    with (match match_tag (String c s) with
          | Some n => re_sub_tags s (n - 1)
          | None => String c (re_sub_tags s 0)
          end).
  destruct (match_tag (String c s)); [apply subseq_drop | apply subseq_keep];
    apply IH.
Qed.

Lemma subseq_lstrip (s : string) : subseq (PyStr.lstrip s) s.
Proof.
  induction s as [|c s IH]; [constructor|]. cbn [PyStr.lstrip].
  destruct (PyStr.is_space c); [now apply subseq_drop | apply subseq_refl].
Qed.

Lemma subseq_rstrip (s : string) : subseq (PyStr.rstrip s) s.
Proof.
  induction s as [|c s IH]; [constructor|]. cbn [PyStr.rstrip].
  destruct (PyStr.is_space c && negb (PyStr.nonempty (PyStr.rstrip s))).
  - apply subseq_empty.
  - now apply subseq_keep.
Qed.

Lemma subseq_length (a b : string) :
  subseq a b -> (String.length a <= String.length b)%nat.
Proof. induction 1; simpl; lia. Qed.

(** X3: [strip_html_tags] only deletes: its result is the input with
    some characters left out, in the same order, so it is never longer
    than the input, and it has no blank at either end. *)
Theorem strip_html_tags_only_deletes (html : string) :
  subseq (strip_html_tags html) html
  /\ (String.length (strip_html_tags html) <= String.length html)%nat
  /\ PyStr.strip (strip_html_tags html) = strip_html_tags html.
Proof.
  assert (subseq (strip_html_tags html) html) as H.
  { unfold strip_html_tags, PyStr.strip.
    eapply subseq_trans; [apply subseq_rstrip|].
    eapply subseq_trans; [apply subseq_lstrip|].
    apply subseq_re_sub_tags. }
  split; [exact H|]. split; [now apply subseq_length|].
  unfold strip_html_tags. apply strip_idem.
Qed.

End StripHtmlMore.

(* ----------------------------------------------------------------- *)
(** ** More on [wrap_text] *)

Section WrapTextMore.

Lemma length_append (a b : string) :
  String.length (a ++ b) = (String.length a + String.length b)%nat.
Proof. induction a as [|c a IH]; simpl; [reflexivity | now rewrite IH]. Qed.

Lemma len_app (a b : string) : PyStr.len (a ++ b) = PyStr.len a + PyStr.len b.
Proof. unfold PyStr.len. rewrite length_append. lia. Qed.

Lemma line_ok_more (width : Z) (indent : string) (ws : list string) (w line : string) :
  line_ok width indent ws line -> line_ok width indent (ws ++ [w]) line.
Proof.
  intros [H | [H | (x & Hx & H)]]; [now left | right; now left|].
  right; right. exists x. split; [apply in_or_app; now left | exact H].
Qed.

(** The loop keeps every closed line and the open line in order, and
    every one of them begins with the indent. *)
Lemma wrap_loop_lines (width : Z) (indent : string) (words : list string) :
  forall (st : list string * string) (seen : list string),
    Forall (line_ok width indent seen) (fst st) ->
    line_ok width indent seen (snd st) ->
    Forall (fun l => exists rest, l = indent ++ rest) (snd st :: fst st) ->
    let st' := fold_left (wrap_step width indent) words st in
    Forall (line_ok width indent (seen ++ words)) (snd st' :: fst st')
    /\ Forall (fun l => exists rest, l = indent ++ rest) (snd st' :: fst st').
Proof.
  induction words as [|w words IH]; intros [lines line] seen Hl Hc Hp; simpl.
  - rewrite app_nil_r. split; [now constructor | exact Hp].
  - replace (seen ++ w :: words)%list with ((seen ++ [w]) ++ words)%list
      by (rewrite <- app_assoc; reflexivity).
    simpl in Hl, Hc, Hp. inversion Hp as [|? ? Hp1 Hp2]; subst.
    apply IH; unfold wrap_step.
    + destruct (PyStr.len line + PyStr.len w + 1 >? width); simpl.
      * apply Forall_app. split.
        -- eapply Forall_impl; [|exact Hl]. intros; now apply line_ok_more.
        -- constructor; [now apply line_ok_more | constructor].
      * destruct (String.eqb line indent); simpl;
          (eapply Forall_impl; [|exact Hl]; intros; now apply line_ok_more).
    + destruct (PyStr.len line + PyStr.len w + 1 >? width) eqn:E; simpl.
      * right; right. exists w. split; [|reflexivity].
        apply in_or_app. right. now left.
      * assert (PyStr.len line + PyStr.len w + 1 <= width) as Hle.
        { destruct (Z.gtb_spec (PyStr.len line + PyStr.len w + 1) width);
            [discriminate | assumption]. }
        destruct (String.eqb line indent); cbn [fst snd]; left.
        -- rewrite len_app. lia.
        -- rewrite len_app. change (String " " w) with (" " ++ w).
           rewrite len_app. change (PyStr.len " ") with 1. lia.
    + destruct Hp1 as [rest ->].
      destruct (PyStr.len (indent ++ rest) + PyStr.len w + 1 >? width); simpl.
      * constructor; [now exists w|].
        apply Forall_app. split; [exact Hp2|].
        constructor; [now exists rest | constructor].
      * destruct (String.eqb (indent ++ rest) indent); simpl.
        -- constructor; [|exact Hp2]. exists (rest ++ w).
           now rewrite append_assoc.
        -- constructor; [|exact Hp2]. exists (rest ++ " " ++ w).
           now rewrite append_assoc.
Qed.

(** X4: every line [wrap_text] returns fits in [width] columns, unless
    it is the indent followed by a single word of the text (a word too
    long to fit) or the bare indent; and every line begins with the
    indent. *)
Theorem wrap_text_lines_fit (text : string) (width : Z) (indent : string) :
  Forall (fun line =>
            line_ok width indent (PyStr.split text) line
            /\ exists rest, line = indent ++ rest)
         (wrap_text text width indent).
Proof.
  unfold wrap_text.
  destruct (wrap_loop_lines width indent (PyStr.split text) ([], indent) [])
    as [Hok Hpre].
  - constructor.
  - right. now left.
  - constructor; [|constructor]. exists "". now rewrite append_nil_r.
  - simpl in Hok, Hpre.
    destruct (fold_left _ _ _) as [lines line]. simpl in Hok, Hpre.
    inversion Hok as [|? ? Hok1 Hok2]; subst.
    inversion Hpre as [|? ? Hpre1 Hpre2]; subst.
    assert (Forall (fun l => line_ok width indent (PyStr.split text) l
                             /\ exists rest, l = indent ++ rest) lines) as Hl.
    { clear - Hok2 Hpre2. induction lines as [|l lines IH]; constructor.
      - inversion Hok2; inversion Hpre2; subst. now split.
      - inversion Hok2; inversion Hpre2; subst. now apply IH. }
    destruct (PyStr.nonempty (PyStr.strip line)); [|exact Hl].
    apply Forall_app. split; [exact Hl|]. constructor; [now split | constructor].
Qed.

(** X5: for an indent made of blanks, [wrap_text] returns no line at all
    exactly when the text has no word (it is empty or blank). *)
Theorem wrap_text_empty_iff (text : string) (width : Z) (indent : string) :
  PyStr.all_space indent = true ->
  (wrap_text text width indent = [] <-> PyStr.split text = []).
Proof.
  intros Hi. unfold wrap_text.
  pose proof (wrap_loop_inv width indent (PyStr.split text) Hi
                (split_words text) ([], indent) []) as H.
  destruct (fold_left _ _ _) as [lines line] eqn:E.
  destruct H as (cur & Hline & Hcur & Hseen).
  { exists []. simpl. rewrite append_nil_r. repeat split; constructor. }
  simpl in Hline, Hseen. rewrite strip_nonempty. subst line.
  rewrite all_space_app, Hi. cbn [andb].
  destruct cur as [|x cur].
  - cbn [PyStr.join PyStr.all_space negb]. rewrite app_nil_r in Hseen.
    split.
    + intros ->. now rewrite <- Hseen.
    + intros Hs. rewrite Hs in Hseen. destruct lines as [|l lines]; [reflexivity|].
      exfalso. rewrite Hs in E. simpl in E. discriminate.
  - rewrite (join_has_nonspace _ Hcur) by discriminate. cbn [negb].
    split.
    + intros H. destruct lines; discriminate.
    + intros Hs. rewrite Hs in Hseen.
      destruct (List.concat (map PyStr.split lines)); discriminate.
Qed.

Lemma wrap_text_empty_iff_witness :
  PyStr.all_space "  " = true
  /\ (wrap_text " 	 " 80 "  " = [] <-> PyStr.split " 	 " = []).
Proof.
  split; [reflexivity|].
  apply (wrap_text_empty_iff " 	 " 80 "  "). reflexivity.
Defined.

End WrapTextMore.

(* ----------------------------------------------------------------- *)
(** ** The line formatters *)

Section LineFormatters.

Lemma format_f_ok (d : nat) (v : json) (s : string) :
  Py.format_f d v = Ok s -> formattable v = true.
Proof.
  destruct v as [|b|n|f|t|l|l]; try discriminate; try reflexivity.
  unfold Py.format_f, Py.to_float, formattable. cbn [Py.as_num].
  destruct (PyFloat.of_int n); [reflexivity | discriminate].
Qed.

Lemma format_f_iff (d : nat) (v : json) :
  (exists s, Py.format_f d v = Ok s) <-> formattable v = true.
Proof.
  split; [intros [s H]; exact (format_f_ok _ _ _ H)|].
  apply format_f_formattable.
Qed.

Lemma get_non_dict (v : json) (key : string) (d : json) :
  is_dict v = false ->
  Py.get v key d
  = raise AttributeError
      ("'" ++ Py.type_name v ++ "' object has no attribute 'get'").
Proof. destruct v; try discriminate; reflexivity. Qed.

(** X6: [format_basket_line] returns a string for a dict exactly when
    its [ItemPrice] and its [Price], 0 when missing, are numbers that
    [float] can hold; every other field may be missing or of any type.
    On a value that is not a dict it raises [AttributeError]. *)
Theorem format_basket_line_ok_iff :
  (forall fields : list (string * json),
      (exists s, format_basket_line (JObj fields) = Ok s)
      <-> formattable (field_or fields "ItemPrice" (JInt 0)) = true
          /\ formattable (field_or fields "Price" (JInt 0)) = true)
  /\ (forall line : json,
        is_dict line = false ->
        exists msg, format_basket_line line = raise AttributeError msg).
Proof.
  split.
  - intros fields. unfold format_basket_line. cbn [Py.get obind].
    fold (field_or fields "ItemPrice" (JInt 0)).
    fold (field_or fields "Price" (JInt 0)).
    split.
    + intros [s H].
      apply obind_ok in H as (a & Ha & H).
      apply obind_ok in H as (b & Hb & H).
      split; eapply format_f_ok; eassumption.
    + intros [Hi Hp].
      destruct (format_f_formattable 2 _ Hi) as [a ->].
      destruct (format_f_formattable 2 _ Hp) as [b ->].
      eexists. reflexivity.
  - intros line H. eexists. unfold format_basket_line.
    rewrite (get_non_dict _ _ _ H). reflexivity.
Qed.

Lemma format_basket_line_ok_iff_witness :
  is_dict (JStr "7") = false
  /\ exists msg, format_basket_line (JStr "7") = raise AttributeError msg.
Proof.
  split; [reflexivity|].
  apply (proj2 format_basket_line_ok_iff (JStr "7")). reflexivity.
Defined.

(** X7: [format_order_line] returns a string for a dict exactly when
    its [Quantity], [AverageItemPrice] and [Amount], 0 when missing, are
    numbers that [float] can hold; a quantity that is text, for one,
    makes it raise. *)
Theorem format_order_line_ok_iff (fields : list (string * json)) :
  (exists s, format_order_line (JObj fields) = Ok s)
  <-> formattable (field_or fields "Quantity" (JInt 0)) = true
      /\ formattable (field_or fields "AverageItemPrice" (JInt 0)) = true
      /\ formattable (field_or fields "Amount" (JInt 0)) = true.
Proof.
  unfold format_order_line. cbn [Py.get obind].
  fold (field_or fields "Quantity" (JInt 0)).
  fold (field_or fields "AverageItemPrice" (JInt 0)).
  fold (field_or fields "Amount" (JInt 0)).
  split.
  - intros [s H].
    apply obind_ok in H as (a & Ha & H).
    apply obind_ok in H as (b & Hb & H).
    apply obind_ok in H as (c & Hc & H).
    repeat split; eapply format_f_ok; eassumption.
  - intros (Hq & Ha & Hm).
    destruct (format_f_formattable 0 _ Hq) as [a ->].
    destruct (format_f_formattable 2 _ Ha) as [b ->].
    destruct (format_f_formattable 2 _ Hm) as [c ->].
    eexists. reflexivity.
Qed.

End LineFormatters.

(* ----------------------------------------------------------------- *)
(** ** [format_order_summary] *)

Section OrderSummary.

Lemma split_on_no_sep (sep : ascii) (s : string) :
  PyStr.has_char sep s = false -> Py.split_on sep s = [s].
Proof.
  induction s as [|c s IH]; [reflexivity|]. cbn [PyStr.has_char Py.split_on].
  intros H. apply orb_false_iff in H as [Hc Hs].
  rewrite Ascii.eqb_sym, Hc, (IH Hs). reflexivity.
Qed.

Lemma split_on_first (sep : ascii) (a b : string) :
  PyStr.has_char sep a = false ->
  Py.split_on sep (a ++ String sep b) = a :: Py.split_on sep b.
Proof.
  induction a as [|c a IH]; cbn [append PyStr.has_char Py.split_on].
  - intros _. now rewrite Ascii.eqb_refl.
  - intros H. apply orb_false_iff in H as [Hc Ha].
    rewrite Ascii.eqb_sym, Hc, (IH Ha). reflexivity.
Qed.

Lemma contains_char_app (sep : ascii) (a b : string) :
  PyStr.contains (String sep "") (a ++ String sep b) = true.
Proof.
  induction a as [|c a IH]; cbn [append PyStr.contains].
  - cbn [String.prefix]. destruct (ascii_dec sep sep); [|congruence].
    now destruct b.
  - rewrite IH. apply orb_true_r.
Qed.

Lemma split_T_item_date (d t : string) :
  PyStr.has_char "T" d = false ->
  split_T_item (JStr (d ++ String "T" t)) 0 = Ok d.
Proof.
  intros H. unfold split_T_item. cbn [Py.split_T obind].
  now rewrite (split_on_first _ _ _ H).
Qed.

Lemma time_of_stamp (d t : string) :
  PyStr.has_char "T" d = false ->
  PyStr.has_char "T" t = false ->
  time_of (JStr (d ++ String "T" t)) = Ok (String.substring 0 5 t).
Proof.
  intros Hd Ht. unfold time_of, split_T_item. cbn [Py.contains obind].
  rewrite contains_char_app. cbn [Py.split_T obind].
  rewrite (split_on_first _ _ _ Hd), (split_on_no_sep _ _ Ht). reflexivity.
Qed.

Lemma truthy_stamp (d t : string) : Py.truthy (JStr (d ++ String "T" t)) = true.
Proof. now destruct d. Qed.

(** X8: for an order whose [OrderDate] and delivery [Start] and [End]
    are timestamps [date T time], whose [Status] is an int and whose
    [Total] is a number, [format_order_summary] shows the date of the
    order, the total to two decimals, the status name (or [Status n] for
    a code other than 1, 2 and 4), and the delivery window as the date
    of [Start] and the first five characters of the two times; the date
    of [End] is not shown. *)
Theorem format_order_summary_timestamps
    (fields window : list (string * json)) (code : Z)
    (d t sd st ed et total_2f : string) :
  Py.lookup "OrderDate" fields = Some (JStr (d ++ "T" ++ t)) ->
  Py.lookup "Status" fields = Some (JInt code) ->
  Py.lookup "DeliveryTime" fields = Some (JObj window) ->
  Py.lookup "Start" window = Some (JStr (sd ++ "T" ++ st)) ->
  Py.lookup "End" window = Some (JStr (ed ++ "T" ++ et)) ->
  PyStr.has_char "T" d = false ->
  PyStr.has_char "T" sd = false -> PyStr.has_char "T" st = false ->
  PyStr.has_char "T" ed = false -> PyStr.has_char "T" et = false ->
  Py.format_f 2 (field_or fields "Total" (JInt 0)) = Ok total_2f ->
  format_order_summary (JObj fields)
  = Ok ("  [" ++ Py.str (field_or fields "Id" (JStr "")) ++ "] "
        ++ Py.str (field_or fields "OrderNumber" (JStr "Unknown")) ++ " - "
        ++ d ++ " - " ++ total_2f ++ " kr - " ++ status_text code
        ++ " - Delivery: "
        ++ (sd ++ " " ++ String.substring 0 5 st ++ "-"
            ++ String.substring 0 5 et)).
Proof.
  intros Hdate Hstatus Hdt Hstart Hend Hd Hsd Hst Hed Het Htotal.
  unfold format_order_summary. cbn [Py.get obind].
  fold (field_or fields "Total" (JInt 0)).
  fold (field_or fields "Id" (JStr "")).
  fold (field_or fields "OrderNumber" (JStr "Unknown")).
  rewrite Hdate, Hstatus, Hdt. cbn [Py.get obind]. rewrite Hstart, Hend.
  change (d ++ "T" ++ t) with (d ++ String "T" t).
  change (sd ++ "T" ++ st) with (sd ++ String "T" st).
  change (ed ++ "T" ++ et) with (ed ++ String "T" et).
  rewrite !truthy_stamp. cbn [andb].
  rewrite (split_T_item_date _ _ Hd). cbn [obind].
  rewrite (time_of_stamp _ _ Hsd Hst), (time_of_stamp _ _ Hed Het).
  cbn [obind Py.contains]. rewrite contains_char_app.
  rewrite (split_T_item_date _ _ Hsd). cbn [obind]. rewrite Htotal.
  cbn [obind]. unfold ORDER_STATUS_MAP_get, status_text. cbn [Py.eq_int obind].
  destruct (code =? 1); [reflexivity|].
  destruct (code =? 2); [reflexivity|].
  destruct (code =? 4); reflexivity.
Qed.

End OrderSummary.

Section OrderSummaryEdges.

Lemma format_order_summary_timestamps_witness :
  format_order_summary (JObj sample_order)
  = Ok "  [4711] N-4711 - 2025-11-25 - 107.50 kr - Delivered - Delivery: 2025-11-26 10:00-12:30".
Proof.
  apply (format_order_summary_timestamps
           sample_order
           [ ("Start", JStr "2025-11-26T10:00:00Z");
             ("End", JStr "2025-11-27T12:30:00Z") ]
           4 "2025-11-25" "06:07:18Z" "2025-11-26" "10:00:00Z"
           "2025-11-27" "12:30:00Z" "107.50");
    reflexivity.
Defined.

(** X9: for an order whose [OrderDate] is missing or empty and whose
    delivery window lacks a [Start] or an [End] (or is missing
    altogether), [format_order_summary] shows [Unknown] for the date and
    [N/A] for the delivery. *)
Theorem format_order_summary_missing
    (fields window : list (string * json)) (code : Z) (total_2f : string) :
  Py.truthy (field_or fields "OrderDate" (JStr "")) = false ->
  field_or fields "Status" (JInt 0) = JInt code ->
  field_or fields "DeliveryTime" (JObj []) = JObj window ->
  Py.truthy (field_or window "Start" (JStr ""))
  && Py.truthy (field_or window "End" (JStr "")) = false ->
  Py.format_f 2 (field_or fields "Total" (JInt 0)) = Ok total_2f ->
  format_order_summary (JObj fields)
  = Ok ("  [" ++ Py.str (field_or fields "Id" (JStr "")) ++ "] "
        ++ Py.str (field_or fields "OrderNumber" (JStr "Unknown")) ++ " - "
        ++ "Unknown" ++ " - " ++ total_2f ++ " kr - " ++ status_text code
        ++ " - Delivery: " ++ "N/A").
Proof.
  intros Hdate Hstatus Hdt Hwin Htotal.
  unfold format_order_summary. cbn [Py.get obind].
  fold (field_or fields "Total" (JInt 0)).
  fold (field_or fields "Id" (JStr "")).
  fold (field_or fields "OrderNumber" (JStr "Unknown")).
  fold (field_or fields "OrderDate" (JStr "")).
  fold (field_or fields "Status" (JInt 0)).
  fold (field_or fields "DeliveryTime" (JObj [])).
  rewrite Hdate, Hstatus, Hdt. cbn [Py.get obind].
  fold (field_or window "Start" (JStr "")).
  fold (field_or window "End" (JStr "")).
  rewrite Hwin, Htotal. cbn [obind].
  unfold ORDER_STATUS_MAP_get, status_text. cbn [Py.eq_int obind].
  destruct (code =? 1); [reflexivity|].
  destruct (code =? 2); [reflexivity|].
  destruct (code =? 4); reflexivity.
Qed.

Lemma format_order_summary_missing_witness :
  format_order_summary (JObj bare_order)
  = Ok "  [4712] Unknown - Unknown - 99.00 kr - Status 3 - Delivery: N/A".
Proof.
  apply (format_order_summary_missing bare_order [] 3 "99.00"); reflexivity.
Defined.

End OrderSummaryEdges.

(* ----------------------------------------------------------------- *)
(** ** [format_product_details] *)

(** Comparisons of two string literals are evaluated. *)
Ltac eval_string_eqb :=
  repeat match goal with
    | |- context [String.eqb ?a ?b] =>
        let v := eval vm_compute in (String.eqb a b) in
        change (String.eqb a b) with v
    end;
  cbv iota.

(** Two runs that start with the same step are compared after it. *)
Ltac same_step :=
  match goal with
  | |- obind ?x _ = obind ?x _ => destruct x; cbn [obind]; [|reflexivity]
  end.

Section ProductDetailsText.

(** X10: [format_product_details] takes [len(name)] for its underline,
    so a product whose [Name] has no length (a number, a bool or null)
    makes it raise the [TypeError] of [len], whatever the other fields
    are. *)
Theorem format_product_details_name_without_len
    (fields : list (string * json)) (e : exc) :
  Py.len (field_or fields "Name" (JStr "Unknown")) = Raised e ->
  format_product_details (JObj fields) = Raised e.
Proof.
  intros H. unfold format_product_details. cbn [Py.get obind].
  fold (field_or fields "Name" (JStr "Unknown")). now rewrite H.
Qed.

Lemma format_product_details_name_without_len_witness :
  format_product_details (JObj [("Name", JInt 5); ("Price", JInt 12)])
  = raise TypeError "object of type 'int' has no len()"
  /\ format_product (JObj [("Name", JInt 5); ("Price", JInt 12)])
     = Ok "  [] 5 () - 12.00 kr -  [OUT OF STOCK]".
Proof.
  split; [|reflexivity].
  apply (format_product_details_name_without_len
           [("Name", JInt 5); ("Price", JInt 12)]).
  reflexivity.
Defined.

(** X11: a [Text] that is nothing but tags and blanks gives no [About]
    section: the product is rendered as with an empty [Text]. *)
Theorem format_product_details_markup_only
    (fields : list (string * json)) (t : string) :
  strip_html_tags t = "" ->
  format_product_details (JObj (("Text", JStr t) :: fields))
  = format_product_details (JObj (("Text", JStr "") :: fields)).
Proof.
  intros H. unfold format_product_details.
  cbn [Py.get Py.get1 Py.lookup obind]. eval_string_eqb.
  repeat same_step.
  cbn [Py.truthy strip_html_tags_of obind PyStr.nonempty]. rewrite H.
  cbn [PyStr.nonempty]. now destruct (PyStr.nonempty t).
Qed.

Lemma format_product_details_markup_only_witness :
  strip_html_tags "<p> <br/> </p>" = ""
  /\ format_product_details
       (JObj [("Text", JStr "<p> <br/> </p>"); ("Name", JStr "Milk")])
     = format_product_details
         (JObj [("Text", JStr ""); ("Name", JStr "Milk")]).
Proof.
  split; [reflexivity|].
  apply (format_product_details_markup_only [("Name", JStr "Milk")]).
  reflexivity.
Defined.

End ProductDetailsText.

(* ----------------------------------------------------------------- *)
(** ** What goes to which stream *)

Section Streams.

Context {A B : Type}.

Lemma keeps_bind (stream : World -> list string) (m : M A) (k : A -> M B) :
  keeps stream m -> (forall a, keeps stream (k a)) -> keeps stream (bind m k).
Proof.
  intros Hm Hk w. unfold bind. specialize (Hm w).
  destruct (m w) as [[a|e] w1]; simpl in *; [|exact Hm].
  now rewrite (Hk a w1).
Qed.

Lemma keeps_ret (stream : World -> list string) (a : A) : keeps stream (ret a).
Proof. intros w. reflexivity. Qed.

Lemma keeps_lift (stream : World -> list string) (x : outcome A) :
  keeps stream (lift x).
Proof. intros w. reflexivity. Qed.

End Streams.

Lemma keeps_new_uuid_out : keeps stdout new_uuid.
Proof. intros w. reflexivity. Qed.

Lemma keeps_new_uuid_err : keeps stderr new_uuid.
Proof. intros w. reflexivity. Qed.

Lemma keeps_request_out (r : Request) : keeps stdout (session_request r).
Proof.
  intros w. unfold session_request. now destruct (remote w (sent w) r).
Qed.

Lemma keeps_request_err (r : Request) : keeps stderr (session_request r).
Proof.
  intros w. unfold session_request. now destruct (remote w (sent w) r).
Qed.

Lemma keeps_print_err_out (s : string) : keeps stdout (print_err s).
Proof. intros w. reflexivity. Qed.

(** The goal [keeps stream m] is taken apart along the program [m]. *)
Ltac keeps_steps :=
  repeat
    (cbv zeta;
     first
       [ apply keeps_ret
       | apply keeps_lift
       | apply keeps_new_uuid_out
       | apply keeps_new_uuid_err
       | apply keeps_request_out
       | apply keeps_request_err
       | apply keeps_print_err_out
       | assumption
       | apply keeps_bind; [|intros ?]
       | match goal with
         | |- keeps _ (if ?b then _ else _) => destruct b
         | |- keeps _ (match ?x with _ => _ end) => destruct x
         end ]).

Section StreamsOfProgram.

Lemma auth_headers_keeps (stream : World -> list string) (auth : AuthTokens) :
  keeps stream new_uuid -> keeps stream (auth_headers auth).
Proof.
  intros H. unfold auth_headers, get_common_headers. keeps_steps.
Qed.

Lemma get_app_settings_keeps (stream : World -> list string) (auth : AuthTokens) :
  keeps stream new_uuid -> (forall r, keeps stream (session_request r)) ->
  keeps stream (get_app_settings auth).
Proof.
  intros H1 H2. pose proof (auth_headers_keeps stream auth H1).
  unfold get_app_settings, session_get. keeps_steps. apply H2.
Qed.

Lemma get_page_settings_keeps (stream : World -> list string) (auth : AuthTokens) :
  keeps stream new_uuid -> (forall r, keeps stream (session_request r)) ->
  keeps stream (get_page_settings auth).
Proof.
  intros H1 H2. pose proof (auth_headers_keeps stream auth H1).
  pose proof (get_app_settings_keeps stream auth H1 H2).
  unfold get_page_settings, session_get. keeps_steps. apply H2.
Qed.

Lemma search_products_keeps (stream : World -> list string) (auth : AuthTokens)
    (q : string) (l : Z) :
  keeps stream new_uuid -> (forall r, keeps stream (session_request r)) ->
  keeps stream (search_products auth q l).
Proof.
  intros H1 H2. pose proof (get_page_settings_keeps stream auth H1 H2).
  unfold search_products, session_get. keeps_steps; apply H2.
Qed.

Lemma client_keeps (stream : World -> list string) (auth : AuthTokens) :
  keeps stream new_uuid -> (forall r, keeps stream (session_request r)) ->
  keeps stream (get_basket auth)
  /\ (forall pid q, keeps stream (add_to_basket auth pid q))
  /\ (forall skip take, keeps stream (get_order_history auth skip take))
  /\ (forall id, keeps stream (get_order_details auth id))
  /\ (forall q l, keeps stream (search_products auth q l))
  /\ (forall pid, keeps stream (get_product_details auth pid)).
Proof.
  intros H1 H2. pose proof (auth_headers_keeps stream auth H1) as Ha.
  pose proof (get_page_settings_keeps stream auth H1 H2) as Hp.
  repeat split; intros.
  - unfold get_basket, session_get. keeps_steps. apply H2.
  - unfold add_to_basket, session_post. keeps_steps. apply H2.
  - unfold get_order_history, session_get. keeps_steps. apply H2.
  - unfold get_order_details, session_get. keeps_steps. apply H2.
  - now apply search_products_keeps.
  - pose proof (search_products_keeps stream auth pid 5 H1 H2).
    unfold get_product_details, session_get. keeps_steps; apply H2.
Qed.

(** X12: [login] writes nothing to the output stream, whatever its
    outcome (its progress messages go to the error stream); and the
    functions of the API client write to neither stream. *)
Theorem client_output_streams :
  (forall u p : string, keeps stdout (login u p))
  /\ (forall auth : AuthTokens,
        (keeps stdout (get_basket auth) /\ keeps stderr (get_basket auth))
        /\ (forall pid q, keeps stdout (add_to_basket auth pid q)
                          /\ keeps stderr (add_to_basket auth pid q))
        /\ (forall skip take,
              keeps stdout (get_order_history auth skip take)
              /\ keeps stderr (get_order_history auth skip take))
        /\ (forall id, keeps stdout (get_order_details auth id)
                       /\ keeps stderr (get_order_details auth id))
        /\ (forall q l, keeps stdout (search_products auth q l)
                        /\ keeps stderr (search_products auth q l))
        /\ (forall pid, keeps stdout (get_product_details auth pid)
                        /\ keeps stderr (get_product_details auth pid))).
Proof.
  split.
  - intros u p. unfold login, get_common_headers, session_get, session_post.
    keeps_steps.
  - intros auth.
    destruct (client_keeps stdout auth keeps_new_uuid_out keeps_request_out)
      as (O1 & O2 & O3 & O4 & O5 & O6).
    destruct (client_keeps stderr auth keeps_new_uuid_err keeps_request_err)
      as (E1 & E2 & E3 & E4 & E5 & E6).
    repeat split; auto.
Qed.

End StreamsOfProgram.

(* ----------------------------------------------------------------- *)
(** ** More on the login handshake *)

Section LoginRuns.

(** A login whose five replies are in order. *)
Lemma login_run (u p : string) (w : World) (r1 r2 r3 r4 r5 : Response)
    (v1 v2 v3 v4 v5 x0 b0 x1 b1 : json) (rest : list (exc + Response)) :
  scripted w (inr r1 :: inr r2 :: inr r3 :: inr r4 :: inr r5 :: rest) ->
  json_reply r1 v1 -> Py.subscript v1 "Value" = Ok x0 ->
  json_reply r2 v2 -> Py.subscript v2 "access_token" = Ok b0 ->
  json_reply r3 v3 -> Py.contains "RedirectUrl" v3 = Ok true ->
  json_reply r4 v4 -> Py.subscript v4 "access_token" = Ok b1 ->
  json_reply r5 v5 -> Py.subscript v5 "Value" = Ok x1 ->
  exists (w' : World) (q1 q2 q3 q4 q5 : Request),
    login u p w = (Ok (mkAuthTokens x1 b1), w')
    /\ sent w' = (sent w ++ [q1; q2; q3; q4; q5])%list
    /\ scripted w' rest
    /\ stdout w' = stdout w
    /\ stderr w' = (stderr w ++ login_messages)%list
    /\ map req_url [q1; q2; q3; q4; q5]
       = [ BASE_URL ++ "/webapi/AntiForgery"; BASE_URL ++ "/webapi/Token";
           BASE_URL ++ "/webapi/login"; BASE_URL ++ "/webapi/Token";
           BASE_URL ++ "/webapi/AntiForgery" ]
    /\ map req_json [q1; q2; q3; q4; q5]
       = [None; None; Some (login_payload u p); None; None]
    /\ map req_method [q1; q2; q3; q4; q5] = [GET; GET; POST; GET; GET]
    /\ Py.lookup "X-XSRF-TOKEN" (req_headers q3) = Some x0
    /\ Py.lookup "Authorization" (req_headers q3)
       = Some (JStr ("Bearer " ++ Py.str b0)).
Proof.
  intros Hs [S1 J1] X0 [S2 J2] B0 [S3 J3] C [S4 J4] B1 [S5 J5] X1.
  do 6 eexists. split.
  { unfold login, session_get, session_post. run Hs.
    cbv beta zeta. cbn [negb]. run Hs. reflexivity. }
  split.
  { cbn [sent add_sent add_stderr add_drawn]. rewrite <- !app_assoc.
    cbn [app]. reflexivity. }
  split.
  { unfold scripted in *. cbn [remote sent add_sent add_stderr add_drawn].
    match goal with
    | |- scripted_from _ (((((_ ++ [?a]) ++ [?b]) ++ [?c]) ++ [?d]) ++ [?e])%list _ =>
        exact (proj2 (proj2 (proj2 (proj2 (proj2 (Hs a) b) c) d) e))
    end. }
  split; [reflexivity|]. split.
  { cbn [stderr add_sent add_stderr add_drawn]. rewrite <- !app_assoc.
    reflexivity. }
  split; [reflexivity|]. split; [reflexivity|]. split; [reflexivity|].
  cbn [req_headers]. split.
  - repeat first
      [ rewrite lookup_dict_set_same
      | rewrite lookup_dict_set_other by reflexivity ].
    reflexivity.
  - repeat first
      [ rewrite lookup_dict_set_same
      | rewrite lookup_dict_set_other by reflexivity ].
    reflexivity.
Qed.

(** X13: a login whose five replies are in order returns the tokens of
    the two replies that follow the login, not those fetched before it.
    It sends one POST, the third request, whose body holds the user
    name and the password and whose headers carry the two tokens
    fetched before it; the four other requests are GETs without a body.
    Its four progress messages go to the error stream. *)
Theorem login_returns_tokens_fetched_after
    (u p : string) (w : World) (r1 r2 r3 r4 r5 : Response)
    (v1 v2 v3 v4 v5 x0 b0 x1 b1 : json) :
  scripted w [inr r1; inr r2; inr r3; inr r4; inr r5] ->
  json_reply r1 v1 -> Py.subscript v1 "Value" = Ok x0 ->
  json_reply r2 v2 -> Py.subscript v2 "access_token" = Ok b0 ->
  json_reply r3 v3 -> Py.contains "RedirectUrl" v3 = Ok true ->
  json_reply r4 v4 -> Py.subscript v4 "access_token" = Ok b1 ->
  json_reply r5 v5 -> Py.subscript v5 "Value" = Ok x1 ->
  exists (w' : World) (q1 q2 q3 q4 q5 : Request),
    login u p w = (Ok (mkAuthTokens x1 b1), w')
    /\ sent w' = (sent w ++ [q1; q2; q3; q4; q5])%list
    /\ stderr w' = (stderr w ++ login_messages)%list
    /\ map req_url [q1; q2; q3; q4; q5]
       = [ BASE_URL ++ "/webapi/AntiForgery"; BASE_URL ++ "/webapi/Token";
           BASE_URL ++ "/webapi/login"; BASE_URL ++ "/webapi/Token";
           BASE_URL ++ "/webapi/AntiForgery" ]
    /\ map req_json [q1; q2; q3; q4; q5]
       = [None; None; Some (login_payload u p); None; None]
    /\ map req_method [q1; q2; q3; q4; q5] = [GET; GET; POST; GET; GET]
    /\ Py.lookup "X-XSRF-TOKEN" (req_headers q3) = Some x0
    /\ Py.lookup "Authorization" (req_headers q3)
       = Some (JStr ("Bearer " ++ Py.str b0)).
Proof.
  intros Hs R1 X0 R2 B0 R3 C R4 B1 R5 X1.
  destruct (login_run u p w r1 r2 r3 r4 r5 v1 v2 v3 v4 v5 x0 b0 x1 b1 []
              Hs R1 X0 R2 B0 R3 C R4 B1 R5 X1)
    as (w' & q1 & q2 & q3 & q4 & q5 & H1 & H2 & _ & _ & H5 & H6 & H7 & H8
        & H9 & H10).
  exists w', q1, q2, q3, q4, q5. repeat split; assumption.
Qed.

Lemma login_returns_tokens_fetched_after_witness :
  exists (w' : World) (q1 q2 q3 q4 q5 : Request),
    login "user@example.dk" "secret" (script_world login_replies sample_uuid)
    = (Ok (mkAuthTokens (JStr "xsrf-1") (JStr "bearer-1")), w')
    /\ sent w' = [q1; q2; q3; q4; q5]
    /\ Py.lookup "X-XSRF-TOKEN" (req_headers q3) = Some (JStr "xsrf-0")
    /\ Py.lookup "Authorization" (req_headers q3)
       = Some (JStr "Bearer bearer-0").
Proof.
  destruct (login_returns_tokens_fetched_after
              "user@example.dk" "secret"
              (script_world login_replies sample_uuid)
              (ok_response (JObj [("Value", JStr "xsrf-0")]))
              (ok_response (JObj [("access_token", JStr "bearer-0")]))
              (ok_response (JObj [("RedirectUrl", JStr "/")]))
              (ok_response (JObj [("access_token", JStr "bearer-1")]))
              (ok_response (JObj [("Value", JStr "xsrf-1")]))
              (JObj [("Value", JStr "xsrf-0")])
              (JObj [("access_token", JStr "bearer-0")])
              (JObj [("RedirectUrl", JStr "/")])
              (JObj [("access_token", JStr "bearer-1")])
              (JObj [("Value", JStr "xsrf-1")])
              (JStr "xsrf-0") (JStr "bearer-0") (JStr "xsrf-1") (JStr "bearer-1")
              (script_world_scripted login_replies sample_uuid)
              (conj eq_refl eq_refl) eq_refl (conj eq_refl eq_refl) eq_refl
              (conj eq_refl eq_refl) eq_refl (conj eq_refl eq_refl) eq_refl
              (conj eq_refl eq_refl) eq_refl)
    as (w' & q1 & q2 & q3 & q4 & q5 & H1 & H2 & _ & _ & _ & _ & H7 & H8).
  exists w', q1, q2, q3, q4, q5. repeat split; assumption.
Defined.

End LoginRuns.

Section LoginStopsEarly.

Lemma token_of_ok (reply : exc + Response) (key : string) (x : json) :
  token_of reply key = Ok x ->
  exists resp v,
    reply = inr resp /\ raise_for_status resp = Ok tt
    /\ resp_json resp = Ok v /\ Py.subscript v key = Ok x.
Proof.
  destruct reply as [e|resp]; [discriminate|]. unfold token_of.
  destruct (raise_for_status resp) as [[]|] eqn:S; [|discriminate].
  destruct (resp_json resp) as [v|] eqn:J; [|discriminate].
  cbn [obind]. intros H. exists resp, v. auto.
Qed.

(** The ways a token fetch fails, each with the fact that decides it. *)
Lemma token_of_raised (reply : exc + Response) (key : string) (e : exc) :
  token_of reply key = Raised e ->
  reply = inl e
  \/ exists resp,
       reply = inr resp
       /\ (raise_for_status resp = Raised e
           \/ (raise_for_status resp = Ok tt /\ resp_json resp = Raised e)
           \/ exists v, raise_for_status resp = Ok tt /\ resp_json resp = Ok v
                        /\ Py.subscript v key = Raised e).
Proof.
  destruct reply as [e1|resp]; [intros [= ->]; now left|]. unfold token_of.
  right. exists resp. split; [reflexivity|].
  destruct (raise_for_status resp) as [[]|] eqn:S.
  - destruct (resp_json resp) as [v|] eqn:J; cbn [obind] in H.
    + right; right. exists v. auto.
    + right; left. split; [reflexivity|]. now injection H as ->.
  - left. now injection H as ->.
Qed.

(** X14: when the fetch of the anti-forgery token or of the bearer
    token fails (the library raises, the status is an error, the body is
    not JSON, or the token is missing from it), [login] raises that
    error at once, and the user name and the password have not left the
    program: the run ends in the same world whatever the credentials
    are, and the requests sent are the GET for the anti-forgery token
    and, when that is answered well, the GET for the bearer token, each
    with the common headers and a fresh identifier, no parameters and no
    body. *)
Theorem login_sends_no_credentials_after_failed_fetch :
  (forall (w : World) (a1 : exc + Response) (e : exc),
      scripted w [a1] ->
      token_of a1 "Value" = Raised e ->
      exists w' : World,
        (forall u p : string, login u p w = (Raised e, w'))
        /\ sent w'
           = (sent w
              ++ [ mkRequest GET (BASE_URL ++ "/webapi/AntiForgery")
                     (common_headers (uuid4 w (drawn w))) [] None ])%list)
  /\ (forall (w : World) (a1 a2 : exc + Response) (x : json) (e : exc),
        scripted w [a1; a2] ->
        token_of a1 "Value" = Ok x ->
        token_of a2 "access_token" = Raised e ->
        exists w' : World,
          (forall u p : string, login u p w = (Raised e, w'))
          /\ sent w'
             = (sent w
                ++ [ mkRequest GET (BASE_URL ++ "/webapi/AntiForgery")
                       (common_headers (uuid4 w (drawn w))) [] None;
                     mkRequest GET (BASE_URL ++ "/webapi/Token")
                       (common_headers (uuid4 w (S (drawn w)))) [] None ])%list).
Proof.
  split.
  - intros w a1 e Hs H.
    apply token_of_raised in H
      as [-> | (resp & -> & [S | [[S J] | (v & S & J & X)]])];
      eexists; split.
    1: { intros u p. pose proof Hs as H.
         unfold login, session_get. run H. cbv beta zeta.
         rewrite (bind_request_failed _ _ _ _ _ H). reflexivity. }
    2: { intros u p. pose proof Hs as H.
         unfold login, session_get. run H. reflexivity. }
    3: { intros u p. pose proof Hs as H.
         unfold login, session_get. run H. reflexivity. }
    4: { intros u p. pose proof Hs as H.
         unfold login, session_get. run H. reflexivity. }
    all: reflexivity.
  - intros w a1 a2 x e Hs H1 H2.
    apply token_of_ok in H1 as (r1 & v1 & -> & S1 & J1 & X1).
    apply token_of_raised in H2
      as [-> | (resp & -> & [S | [[S J] | (v & S & J & X)]])];
      eexists; split.
    1: { intros u p. pose proof Hs as H.
         unfold login, session_get. run H. cbv beta zeta.
         rewrite (bind_request_failed _ _ _ _ _ H). reflexivity. }
    2: { intros u p. pose proof Hs as H.
         unfold login, session_get. run H. reflexivity. }
    3: { intros u p. pose proof Hs as H.
         unfold login, session_get. run H. reflexivity. }
    4: { intros u p. pose proof Hs as H.
         unfold login, session_get. run H. reflexivity. }
    all: cbn [sent add_sent add_stderr add_drawn drawn uuid4];
      rewrite <- ?app_assoc; reflexivity.
Qed.

Lemma login_sends_no_credentials_after_failed_fetch_witness :
  scripted (script_world no_token_replies sample_uuid) (map inr no_token_replies)
  /\ exists w' : World,
       login "user@example.dk" "secret"
             (script_world no_token_replies sample_uuid)
       = (raise KeyError "'Value'", w')
       /\ login "someone@else.dk" "other"
               (script_world no_token_replies sample_uuid)
          = (raise KeyError "'Value'", w')
       /\ sent w'
          = [ mkRequest GET "https://www.nemlig.com/webapi/AntiForgery"
                (common_headers "00000000-0000-4000-8000-000000000000") []
                None ].
Proof.
  split; [apply script_world_scripted|].
  destruct (proj1 login_sends_no_credentials_after_failed_fetch
              (script_world no_token_replies sample_uuid)
              (inr (ok_response (JObj [("Message", JStr "maintenance")])))
              (mkExc KeyError "'Value'" None)
              (script_world_scripted no_token_replies sample_uuid)
              eq_refl)
    as (w' & H1 & H2).
  exists w'. split; [apply H1|]. split; [apply H1|].
  rewrite H2. vm_compute. reflexivity.
Defined.

End LoginStopsEarly.

(* ----------------------------------------------------------------- *)
(** ** The API client *)

Section PageSettings.

Lemma get_app_settings_run (auth : AuthTokens) (w : World) (r : Response)
    (v : json) (rest : list (exc + Response)) :
  scripted w (inr r :: rest) ->
  json_reply r v ->
  exists q,
    get_app_settings auth w = (Ok v, add_sent q (add_drawn w))
    /\ req_url q = BASE_URL ++ "/webapi/v2/AppSettings/Website"
    /\ req_method q = GET.
Proof.
  intros Hs [S J]. eexists. split.
  - unfold get_app_settings, session_get. run Hs. cbv beta zeta.
    unfold lift. now rewrite J.
  - split; reflexivity.
Qed.

Lemma get_page_settings_run (auth : AuthTokens) (w : World) (r1 r2 : Response)
    (settings data page : list (string * json)) (rest : list (exc + Response)) :
  scripted w (inr r1 :: inr r2 :: rest) ->
  json_reply r1 (JObj settings) ->
  json_reply r2 (JObj data) ->
  field_or data "Settings" (JObj []) = JObj page ->
  exists (w' : World) (q1 q2 : Request),
    get_page_settings auth w = (Ok (page_settings_of settings page), w')
    /\ sent w' = (sent w ++ [q1; q2])%list
    /\ scripted w' rest
    /\ drawn w' = (drawn w + 2)%nat
    /\ req_url q1 = BASE_URL ++ "/webapi/v2/AppSettings/Website"
    /\ req_url q2 = BASE_URL ++ "/"
    /\ req_params q2 = [("GetAsJson", JStr "1"); ("d", JStr "1")]
    /\ map req_method [q1; q2] = [GET; GET]
    /\ uuid4 w' = uuid4 w
    /\ stdout w' = stdout w
    /\ stderr w' = stderr w.
Proof.
  intros Hs R1 [S2 J2] Hpage.
  assert (Hs1 := scripted_add_drawn _ _ Hs).
  destruct (get_app_settings_run auth _ r1 _ _ Hs1 R1) as (q1 & Happ & U1 & M1).
  apply (scripted_tail q1) in Hs1.
  eexists. exists q1. eexists. split.
  { unfold get_page_settings, session_get. rewrite bind_auth_headers.
    cbv beta zeta. rewrite (bind_eq _ _ _ _ _ Happ).
    run Hs1. cbv beta zeta.
    rewrite bind_lift. cbn [Py.get]. fold (field_or data "Settings" (JObj [])).
    rewrite Hpage. rewrite bind_lift. cbn [Py.get1 Py.get].
    fold (field_or page "TimeslotUtc" JNull).
    rewrite bind_lift.
    assert ((if Py.truthy (field_or page "TimeslotUtc" JNull)
             then Py.subscript (JObj page) "TimeslotUtc"
             else Ok (JStr "2025120216-180-1020"))
            = Ok (ps_timeslotUtc (page_settings_of settings page))) as ->.
    { unfold page_settings_of, fallback_timeslot, field_or. cbn [ps_timeslotUtc Py.subscript].
      destruct (Py.lookup "TimeslotUtc" page) as [j|]; [|reflexivity].
      now destruct (Py.truthy j). }
    rewrite !bind_lift. reflexivity. }
  split.
  { cbn [sent add_sent add_drawn]. rewrite <- app_assoc. reflexivity. }
  split.
  { unfold scripted in *. cbn [remote sent add_sent add_drawn] in *.
    match goal with
    | |- scripted_from _ ((_ ++ [?a]) ++ [?b])%list _ =>
        exact (proj2 (proj2 (Hs a) b))
    end. }
  split; [cbn [drawn add_sent add_drawn]; lia|].
  split; [exact U1|]. split; [reflexivity|]. split; [reflexivity|].
  split; [cbn [map]; now rewrite M1|].
  split; [reflexivity|]. split; reflexivity.
Qed.

(** X15: [get_page_settings] sends two GETs, for the app settings and
    for the front page as JSON, and reads the four settings with their
    defaults: an empty timestamp, delivery zone 1, an empty user id; and
    the fixed time slot [2025120216-180-1020] whenever the front page
    gives none, or gives an empty or null one. *)
Theorem get_page_settings_defaults
    (auth : AuthTokens) (w : World) (r1 r2 : Response)
    (settings data page : list (string * json)) :
  scripted w [inr r1; inr r2] ->
  json_reply r1 (JObj settings) ->
  json_reply r2 (JObj data) ->
  field_or data "Settings" (JObj []) = JObj page ->
  exists (w' : World) (q1 q2 : Request),
    get_page_settings auth w = (Ok (page_settings_of settings page), w')
    /\ sent w' = (sent w ++ [q1; q2])%list
    /\ req_url q1 = BASE_URL ++ "/webapi/v2/AppSettings/Website"
    /\ req_url q2 = BASE_URL ++ "/"
    /\ req_params q2 = [("GetAsJson", JStr "1"); ("d", JStr "1")]
    /\ map req_method [q1; q2] = [GET; GET]
    /\ (Py.truthy (field_or page "TimeslotUtc" JNull) = false ->
        ps_timeslotUtc (page_settings_of settings page) = fallback_timeslot).
Proof.
  intros Hs R1 R2 Hpage.
  destruct (get_page_settings_run auth w r1 r2 settings data page [] Hs R1 R2 Hpage)
    as (w' & q1 & q2 & H1 & H2 & _ & _ & H5 & H6 & H7 & H8 & _).
  exists w', q1, q2. repeat split; try assumption.
  intros Hf. unfold page_settings_of. cbn [ps_timeslotUtc]. now rewrite Hf.
Qed.

Lemma get_page_settings_defaults_witness :
  exists (w' : World) (q1 q2 : Request),
    get_page_settings sample_auth
      (script_world [ok_response (JObj []); ok_response (JObj [])] sample_uuid)
    = (Ok (mkPageSettings (JStr "") (JStr "2025120216-180-1020") (JInt 1)
                          (JStr "")), w')
    /\ sent w' = [q1; q2].
Proof.
  destruct (get_page_settings_defaults
              sample_auth
              (script_world [ok_response (JObj []); ok_response (JObj [])]
                            sample_uuid)
              (ok_response (JObj [])) (ok_response (JObj [])) [] [] []
              (script_world_scripted _ sample_uuid)
              (conj eq_refl eq_refl) (conj eq_refl eq_refl) eq_refl)
    as (w' & q1 & q2 & H1 & H2 & _).
  exists w', q1, q2. split; assumption.
Defined.

End PageSettings.

Section SearchProducts.

Lemma search_products_run (auth : AuthTokens) (query : string) (limit : Z)
    (w : World) (r1 r2 r3 : Response)
    (settings data page found inner : list (string * json))
    (rest : list (exc + Response)) :
  scripted w (inr r1 :: inr r2 :: inr r3 :: rest) ->
  json_reply r1 (JObj settings) ->
  json_reply r2 (JObj data) ->
  field_or data "Settings" (JObj []) = JObj page ->
  json_reply r3 (JObj found) ->
  field_or found "Products" (JObj []) = JObj inner ->
  exists (w' : World) (q1 q2 q3 : Request),
    search_products auth query limit w
    = (Ok (field_or inner "Products" (JArr [])), w')
    /\ sent w' = (sent w ++ [q1; q2; q3])%list
    /\ scripted w' rest
    /\ stdout w' = stdout w
    /\ stderr w' = stderr w
    /\ q3 = mkRequest GET (SEARCH_API_URL ++ "/search")
              [ ("Accept", JStr "application/json, text/plain, */*");
                ("Authorization", JStr ("Bearer " ++ Py.str (bearer_token auth)));
                ("X-Correlation-Id", JStr (uuid4 w (drawn w + 2)%nat));
                ("Referer", JStr (BASE_URL ++ "/"));
                ("User-Agent",
                 JStr "Mozilla/5.0 (X11; Linux x86_64) AppleWebKit/537.36") ]
              (let ps := page_settings_of settings page in
               let params :=
                 [ ("query", JStr query); ("take", JInt limit);
                   ("skip", JInt 0); ("recipeCount", JInt 0);
                   ("timestamp", ps_timestamp ps);
                   ("timeslotUtc", ps_timeslotUtc ps);
                   ("deliveryZoneId", ps_deliveryZoneId ps) ] in
               if Py.truthy (ps_userId ps)
               then dict_set "includeFavorites" (ps_userId ps) params
               else params)
              None.
Proof.
  intros Hs R1 R2 Hpage [S3 J3] Hinner.
  destruct (get_page_settings_run auth w r1 r2 settings data page _ Hs R1 R2 Hpage)
    as (w1 & q1 & q2 & Hps & Hsent & Hs1 & Hdrawn & _ & _ & _ & _ & Hu & Hout & Herr).
  eexists. exists q1, q2. eexists. split.
  { unfold search_products, session_get. rewrite (bind_eq _ _ _ _ _ Hps).
    run Hs1. cbv beta zeta. rewrite bind_lift. cbn [Py.get].
    fold (field_or found "Products" (JObj [])). rewrite Hinner.
    unfold lift. cbn [Py.get]. reflexivity. }
  split.
  { cbn [sent add_sent add_drawn]. rewrite Hsent, <- app_assoc. reflexivity. }
  split.
  { unfold scripted in *. cbn [remote sent add_sent add_drawn] in *.
    match goal with
    | |- scripted_from _ (_ ++ [?a])%list _ => exact (proj2 (Hs1 a))
    end. }
  split; [exact Hout|]. split; [exact Herr|].
  rewrite Hu, Hdrawn. reflexivity.
Qed.

(** X16: the search request.  [search_products] fetches the page
    settings and then sends one GET to the search gateway that carries
    the bearer token but no anti-forgery token, an identifier of its
    own, the query, [take] set to the limit, [skip] 0 and the time slot
    of the page settings; [includeFavorites] is sent exactly when the
    user id of the page settings is truthy, and is then that id.  The
    result is the list under [Products.Products], the empty list when
    the inner key is missing. *)
Theorem search_products_request
    (auth : AuthTokens) (query : string) (limit : Z)
    (w : World) (r1 r2 r3 : Response)
    (settings data page found inner : list (string * json)) :
  scripted w [inr r1; inr r2; inr r3] ->
  json_reply r1 (JObj settings) ->
  json_reply r2 (JObj data) ->
  field_or data "Settings" (JObj []) = JObj page ->
  json_reply r3 (JObj found) ->
  field_or found "Products" (JObj []) = JObj inner ->
  exists (w' : World) (q1 q2 q3 : Request),
    search_products auth query limit w
    = (Ok (field_or inner "Products" (JArr [])), w')
    /\ sent w' = (sent w ++ [q1; q2; q3])%list
    /\ req_method q3 = GET
    /\ req_url q3 = SEARCH_API_URL ++ "/search"
    /\ Py.lookup "X-XSRF-TOKEN" (req_headers q3) = None
    /\ Py.lookup "Authorization" (req_headers q3)
       = Some (JStr ("Bearer " ++ Py.str (bearer_token auth)))
    /\ correlation_id q3 = Some (JStr (uuid4 w (drawn w + 2)%nat))
    /\ Py.lookup "query" (req_params q3) = Some (JStr query)
    /\ Py.lookup "take" (req_params q3) = Some (JInt limit)
    /\ Py.lookup "skip" (req_params q3) = Some (JInt 0)
    /\ Py.lookup "timeslotUtc" (req_params q3)
       = Some (ps_timeslotUtc (page_settings_of settings page))
    /\ Py.lookup "includeFavorites" (req_params q3)
       = (if Py.truthy (field_or page "UserId" (JStr ""))
          then Some (field_or page "UserId" (JStr ""))
          else None).
Proof.
  intros Hs R1 R2 Hpage R3 Hinner.
  destruct (search_products_run auth query limit w r1 r2 r3 settings data page
              found inner [] Hs R1 R2 Hpage R3 Hinner)
    as (w' & q1 & q2 & q3 & Hrun & Hsent & _ & _ & _ & Hq).
  exists w', q1, q2, q3.
  split; [exact Hrun|]. split; [exact Hsent|].
  rewrite Hq. cbv zeta. cbn [req_method req_url req_headers req_params ps_userId
                              page_settings_of].
  split; [reflexivity|]. split; [reflexivity|]. split; [reflexivity|].
  split; [reflexivity|]. split; [reflexivity|].
  destruct (Py.truthy (field_or page "UserId" (JStr ""))).
  - repeat split.
  - repeat split.
Qed.

Lemma search_products_request_witness :
  exists (w' : World) (q1 q2 q3 : Request),
    search_products sample_auth "milk" 5 (script_world search_replies sample_uuid)
    = (Ok (JArr milk_with_url), w')
    /\ sent w' = [q1; q2; q3]
    /\ Py.lookup "X-XSRF-TOKEN" (req_headers q3) = None
    /\ Py.lookup "take" (req_params q3) = Some (JInt 5)
    /\ Py.lookup "includeFavorites" (req_params q3) = Some (JStr "u-17").
Proof.
  destruct (search_products_request
              sample_auth "milk" 5 (script_world search_replies sample_uuid)
              (ok_response (JObj [("CombinedProductsAndSitecoreTimestamp", JStr "t0")]))
              (ok_response (JObj [("Settings", JObj [("UserId", JStr "u-17")])]))
              (ok_response (JObj [("Products", JObj [("Products", JArr milk_with_url)])]))
              [("CombinedProductsAndSitecoreTimestamp", JStr "t0")]
              [("Settings", JObj [("UserId", JStr "u-17")])]
              [("UserId", JStr "u-17")]
              [("Products", JObj [("Products", JArr milk_with_url)])]
              [("Products", JArr milk_with_url)]
              (script_world_scripted search_replies sample_uuid)
              (conj eq_refl eq_refl) (conj eq_refl eq_refl) eq_refl
              (conj eq_refl eq_refl) eq_refl)
    as (w' & q1 & q2 & q3 & H1 & H2 & _ & _ & H5 & _ & _ & _ & H9 & _ & _ & H12).
  exists w', q1, q2, q3. repeat split; assumption.
Defined.

End SearchProducts.


(* ----------------------------------------------------------------- *)
(** ** What the commands print *)

Section Loops.

Lemma printed_nil (w : World) : printed [] w = w.
Proof. destruct w. unfold printed. cbn. now rewrite app_nil_r. Qed.

Lemma printed_cons (s : string) (l : list string) (w : World) :
  printed l (add_stdout s w) = printed (s :: l) w.
Proof. unfold printed, add_stdout. cbn. now rewrite <- app_assoc. Qed.

Context {A : Type} (f : A -> outcome string).

(** A loop that prints [f x] for every item prints all the lines when
    no [f x] raises, and otherwise the lines before the first that
    does. *)
Lemma for_each_print_ok (items : list A) :
  forall (lines : list string) (w : World),
    Py.map_o f items = Ok lines ->
    for_each items (fun x => line <~ f x ;; print line)%py w
    = (Ok tt, printed lines w).
Proof.
  induction items as [|x r IH]; intros lines w H; cbn in H.
  - injection H as <-. now rewrite printed_nil.
  - destruct (f x) as [y|] eqn:E; [|discriminate]. cbn in H.
    destruct (Py.map_o f r) as [ys|] eqn:Er; [|discriminate].
    injection H as <-. cbn [for_each].
    unfold bind at 1. rewrite bind_lift, E. unfold print at 1.
    rewrite (IH ys _ eq_refl). now rewrite printed_cons.
Qed.

Lemma for_each_print_raised (pre post : list A) (x : A) (e : exc) :
  forall (lines : list string) (w : World),
    Py.map_o f pre = Ok lines ->
    f x = Raised e ->
    for_each (pre ++ x :: post) (fun x => line <~ f x ;; print line)%py w
    = (Raised e, printed lines w).
Proof.
  induction pre as [|y r IH]; intros lines w H Hx; cbn in H.
  - injection H as <-. cbn [app for_each].
    unfold bind at 1. rewrite bind_lift, Hx. now rewrite printed_nil.
  - destruct (f y) as [s|] eqn:E; [|discriminate]. cbn in H.
    destruct (Py.map_o f r) as [ys|] eqn:Er; [|discriminate].
    injection H as <-. cbn [app for_each].
    unfold bind at 1. rewrite bind_lift, E. unfold print at 1.
    rewrite (IH ys _ eq_refl Hx). now rewrite printed_cons.
Qed.

End Loops.

Lemma truthy_nonempty (l : list json) : l <> [] -> Py.truthy (JArr l) = true.
Proof. destruct l; [congruence | reflexivity]. Qed.

Section SearchCommand.

(** X17: a search that returns a non-empty list prints a header with
    the number of products and then one entry per product, in order, and
    exits with 0.  When [format_product] raises on a product, the header
    and the entries of the products before it have been printed, and the
    exception leaves the command. *)
Theorem cmd_search_lists_until_failure
    (auth : AuthTokens) (q : string) (l : Z) (w w1 : World)
    (products : list json) :
  search_products auth q l (add_stderr ("Searching for '" ++ q ++ "'...") w)
  = (Ok (JArr products), w1) ->
  products <> [] ->
  let header :=
    Py.nl ++ "Found " ++ PyStr.of_int (Z.of_nat (List.length products))
    ++ " products:" ++ Py.nl in
  (forall lines : list string,
      Py.map_o format_product products = Ok lines ->
      exists w' : World,
        cmd_search auth q l w = (Ok 0, w')
        /\ stdout w' = (stdout w1 ++ header :: lines)%list
        /\ stderr w' = stderr w1
        /\ sent w' = sent w1)
  /\ (forall (pre post : list json) (x : json) (lines : list string) (e : exc),
        products = (pre ++ x :: post)%list ->
        Py.map_o format_product pre = Ok lines ->
        format_product x = Raised e ->
        exists w' : World,
          cmd_search auth q l w = (Raised e, w')
          /\ stdout w' = (stdout w1 ++ header :: lines)%list).
Proof.
  intros Hs Hne header.
  assert (cmd_search auth q l w
          = (for_each products
               (fun product => line <~ format_product product ;; print line) ;;
             ret 0)%py (add_stdout header w1)) as Hrun.
  { unfold cmd_search.
    rewrite bind_print_err, (bind_eq _ _ _ _ _ Hs), (truthy_nonempty _ Hne).
    cbn [negb]. rewrite bind_lift. cbn [Py.len]. cbv beta iota.
    rewrite bind_print, bind_lift. cbn [Py.iter]. reflexivity. }
  split.
  - intros lines Hl. eexists. split.
    + rewrite Hrun. rewrite (bind_eq _ _ _ _ _ (for_each_print_ok _ _ _ _ Hl)).
      reflexivity.
    + cbn [stdout stderr sent printed add_stdout]. rewrite <- app_assoc.
      repeat split.
  - intros pre post x lines e -> Hl Hx. eexists. split.
    + rewrite Hrun.
      rewrite (bind_raised _ _ _ _ _ (for_each_print_raised _ _ _ _ _ _ _ Hl Hx)).
      reflexivity.
    + cbn [stdout printed add_stdout]. now rewrite <- app_assoc.
Qed.

Lemma cmd_search_lists_until_failure_witness :
  exists (w' : World) (e : exc),
    cmd_search sample_auth "milk" 5 (script_world two_products_replies sample_uuid)
    = (Raised e, w')
    /\ stdout w'
       = [ Py.nl ++ "Found 2 products:" ++ Py.nl;
           "  [5000123] Milk () - 12.00 kr -  [OUT OF STOCK]" ]
    /\ class_name (exc_cls e) = "ValueError".
Proof.
  assert (search_products sample_auth "milk" 5
            (add_stderr ("Searching for '" ++ "milk" ++ "'...")
               (script_world two_products_replies sample_uuid))
          = (Ok (JArr milk_and_bad_price),
             snd (search_products sample_auth "milk" 5
                    (add_stderr ("Searching for '" ++ "milk" ++ "'...")
                       (script_world two_products_replies sample_uuid)))))
    as Hs by (vm_compute; reflexivity).
  assert (milk_and_bad_price <> []) as Hne by discriminate.
  destruct (proj2 (cmd_search_lists_until_failure _ _ _ _ _ _ Hs Hne)
              [JObj [("Id", JStr "5000123"); ("Name", JStr "Milk");
                     ("Price", JInt 12)]]
              []
              (JObj [("Id", JStr "5000124"); ("Name", JStr "Bread");
                     ("Price", JStr "n/a")])
              ["  [5000123] Milk () - 12.00 kr -  [OUT OF STOCK]"]
              (mkExc ValueError
                 "Unknown format code 'f' for object of type 'str'" None)
              eq_refl ltac:(vm_compute; reflexivity)
              ltac:(vm_compute; reflexivity))
    as (w' & Hrun & Hout).
  exists w'. eexists. split; [exact Hrun|]. split; [|reflexivity].
  rewrite Hout. vm_compute. reflexivity.
Defined.

End SearchCommand.


Section BasketCommands.

(** When every [f x] is a value, the sum of the generator is the sum of
    the list of the values. *)
Lemma sum_gen_from_of_map {A : Type} (f : A -> outcome json) (l : list A) :
  forall (acc total : Py.num) (ys : list json),
    Py.map_o f l = Ok ys ->
    Py.sum_from acc ys = Ok total ->
    Py.sum_gen_from f acc l = Ok total.
Proof.
  induction l as [|x r IH]; intros acc total ys Hm Hs; cbn in Hm.
  - injection Hm as <-. exact Hs.
  - destruct (f x) as [y|] eqn:Ex; [|discriminate]. cbn in Hm.
    destruct (Py.map_o f r) as [ys'|] eqn:Er; [|discriminate].
    injection Hm as <-. cbn [Py.sum_from] in Hs. cbn [Py.sum_gen_from].
    rewrite Ex. cbn [obind].
    destruct (Py.add (Py.num_json acc) y) as [acc'|]; [|discriminate].
    cbn [obind] in *. now apply (IH acc' total ys').
Qed.

Lemma sum_gen_of_map {A : Type} (f : A -> outcome json) (l : list A)
    (ys : list json) (total : Py.num) :
  Py.map_o f l = Ok ys -> Py.sum ys = Ok total -> Py.sum_gen f l = Ok total.
Proof. apply sum_gen_from_of_map. Qed.

Lemma basket_loop (lines : list json) :
  forall (acc total : Py.num) (rows : list string) (prices : list json)
         (w : World),
    Py.map_o format_basket_line lines = Ok rows ->
    Py.map_o line_price lines = Ok prices ->
    Py.sum_from acc prices = Ok total ->
    for_fold lines acc (fun total line =>
      row <~ format_basket_line line ;;
      print row ;;
      price <~ Py.get line "Price" (JInt 0) ;;
      lift (Py.add (Py.num_json total) price))%py w
    = (Ok total, printed rows w).
Proof.
  induction lines as [|x r IH]; intros acc total rows prices w Hr Hp Hs;
    cbn in Hr, Hp.
  - injection Hr as <-. injection Hp as <-. cbn in Hs. injection Hs as <-.
    cbn [for_fold]. now rewrite printed_nil.
  - destruct (format_basket_line x) as [row|] eqn:Ex; [|discriminate].
    cbn in Hr.
    destruct (Py.map_o format_basket_line r) as [rs|] eqn:Er; [|discriminate].
    injection Hr as <-.
    destruct (line_price x) as [p|] eqn:Ep; [|discriminate]. cbn in Hp.
    destruct (Py.map_o line_price r) as [ps|] eqn:Eps; [|discriminate].
    injection Hp as <-. cbn [Py.sum_from] in Hs.
    destruct (Py.add (Py.num_json acc) p) as [acc'|] eqn:Ea; [|discriminate].
    cbn in Hs. cbn [for_fold].
    assert ((row <~ format_basket_line x ;;
             print row ;;
             price <~ Py.get x "Price" (JInt 0) ;;
             lift (Py.add (Py.num_json acc) price))%py w
            = (Ok acc', add_stdout row w)) as Hbody.
    { rewrite bind_lift, Ex, bind_print, bind_lift.
      unfold line_price in Ep. rewrite Ep. unfold lift. now rewrite Ea. }
    rewrite (bind_eq _ _ _ _ _ Hbody), (IH _ _ _ _ _ eq_refl eq_refl Hs).
    now rewrite printed_cons.
Qed.

(** X18: the basket listing.  For a basket with lines, [cmd_basket]
    prints a header with the number of lines, one row per line and a
    total, and exits with 0; the total is [sum] of the [Price] fields of
    the lines, 0 for a line without one, the sum [cmd_add] prints for
    the same lines. *)
Theorem cmd_basket_total_is_sum
    (auth : AuthTokens) (w w1 : World) (basket : json) (lines : list json)
    (rows : list string) (prices : list json) (total : Py.num) (text : string) :
  get_basket auth (add_stderr "Fetching basket..." w) = (Ok basket, w1) ->
  Py.get basket "Lines" (JArr []) = Ok (JArr lines) ->
  lines <> [] ->
  Py.map_o format_basket_line lines = Ok rows ->
  Py.map_o line_price lines = Ok prices ->
  Py.sum prices = Ok total ->
  Py.format_f 2 (Py.num_json total) = Ok text ->
  let header :=
    Py.nl ++ "Basket (" ++ PyStr.of_int (Z.of_nat (List.length lines))
    ++ " items):" ++ Py.nl in
  let footer := Py.nl ++ "  Total: " ++ text ++ " kr" in
  exists w' : World,
    cmd_basket auth w = (Ok 0, w')
    /\ stdout w' = (stdout w1 ++ header :: rows ++ [footer])%list
    /\ stderr w' = stderr w1
    /\ sent w' = sent w1.
Proof.
  intros Hb Hl Hne Hrows Hprices Hsum Htext header footer. eexists. split.
  - unfold cmd_basket.
    rewrite bind_print_err, (bind_eq _ _ _ _ _ Hb), bind_lift, Hl.
    cbv beta iota. rewrite (truthy_nonempty _ Hne). cbn [negb].
    rewrite bind_lift. cbn [Py.len]. cbv beta iota.
    rewrite bind_print, bind_lift. cbn [Py.iter]. cbv beta iota.
    rewrite (bind_eq _ _ _ _ _
               (basket_loop _ _ _ _ _ _ Hrows Hprices Hsum)).
    rewrite bind_lift, Htext. cbv beta iota. rewrite bind_print. reflexivity.
  - cbn [stdout stderr sent printed add_stdout].
    rewrite <- !app_assoc. repeat split.
Qed.

Lemma cmd_basket_total_is_sum_witness :
  exists w' : World,
    cmd_basket sample_auth (script_world basket_replies sample_uuid) = (Ok 0, w')
    /\ stdout w'
       = [ Py.nl ++ "Basket (2 items):" ++ Py.nl;
           "  [5000123] Milk () x2 @ 12.50 kr = 25.00 kr";
           "  [5000124] Bread () x1 @ 19.95 kr = 19.95 kr";
           Py.nl ++ "  Total: 44.95 kr" ].
Proof.
  assert (get_basket sample_auth
            (add_stderr "Fetching basket..."
               (script_world basket_replies sample_uuid))
          = (Ok (JObj [("Lines", JArr two_lines)]),
             snd (get_basket sample_auth
                    (add_stderr "Fetching basket..."
                       (script_world basket_replies sample_uuid)))))
    as Hb by (vm_compute; reflexivity).
  assert (two_lines <> []) as Hne by discriminate.
  destruct (cmd_basket_total_is_sum
              sample_auth _ _ _ two_lines
              [ "  [5000123] Milk () x2 @ 12.50 kr = 25.00 kr";
                "  [5000124] Bread () x1 @ 19.95 kr = 19.95 kr" ]
              [ JInt 25; JFloat (PyFloat.of_decimal 1995 2) ]
              (Py.NFloat (PyFloat.of_decimal 4495 2))
              "44.95"
              Hb eq_refl Hne
              ltac:(vm_compute; reflexivity) ltac:(vm_compute; reflexivity)
              ltac:(vm_compute; reflexivity) ltac:(vm_compute; reflexivity))
    as (w' & Hrun & Hout & _).
  exists w'. split; [exact Hrun|]. rewrite Hout. vm_compute. reflexivity.
Defined.

(** X19: [cmd_add] does not check that the product is in the basket
    the service returns.  When no line of it has the id, as a string,
    the command still reports the product as added, prints the total and
    the number of lines of the basket and exits with 0. *)
Theorem cmd_add_without_matching_line
    (auth : AuthTokens) (product_id : string) (quantity : Z) (w w1 : World)
    (result : json) (lines prices : list json) (total : Py.num) (text : string) :
  add_to_basket auth product_id quantity
    (add_stderr ("Adding product " ++ product_id ++ " (quantity: "
                 ++ PyStr.of_int quantity ++ ") to basket...") w)
  = (Ok result, w1) ->
  Py.get result "Lines" (JArr []) = Ok (JArr lines) ->
  forallb is_dict lines = true ->
  existsb (id_is product_id) lines = false ->
  Py.map_o line_price lines = Ok prices ->
  Py.sum prices = Ok total ->
  Py.format_f 2 (Py.num_json total) = Ok text ->
  let report := "Product " ++ product_id ++ " added to basket." in
  let footer :=
    Py.nl ++ "Basket total: " ++ text ++ " kr ("
    ++ PyStr.of_int (Z.of_nat (List.length lines)) ++ " items)" in
  exists w' : World,
    cmd_add auth product_id quantity w = (Ok 0, w')
    /\ stdout w' = (stdout w1 ++ [report; footer])%list
    /\ stderr w' = stderr w1
    /\ sent w' = sent w1.
Proof.
  intros Ha Hl Hd Hno Hprices Hsum Htext report footer.
  apply find_none_existsb in Hno. eexists. split.
  - unfold cmd_add.
    rewrite bind_print_err, (bind_eq _ _ _ _ _ Ha), bind_lift, Hl.
    cbv beta iota. rewrite bind_lift. cbn [Py.iter]. cbv beta iota.
    rewrite bind_lift,
      (find_first_dicts "Id" (fun id => Py.eq_str id product_id) _ Hd).
    cbv beta iota. fold (id_is product_id). rewrite Hno.
    unfold bind at 1. unfold print at 1.
    rewrite bind_lift. fold line_price.
    rewrite (sum_gen_of_map _ _ _ _ Hprices Hsum). cbv beta iota.
    rewrite bind_lift, Htext. cbv beta iota.
    rewrite bind_lift. cbn [Py.len]. cbv beta iota.
    rewrite bind_print. reflexivity.
  - cbn [stdout stderr sent add_stdout]. rewrite <- !app_assoc.
    repeat split.
Qed.

Lemma cmd_add_without_matching_line_witness :
  exists w' : World,
    cmd_add sample_auth "5000123" 2 (script_world basket_replies sample_uuid)
    = (Ok 0, w')
    /\ stdout w'
       = [ "Product 5000123 added to basket.";
           Py.nl ++ "Basket total: 44.95 kr (2 items)" ].
Proof.
  assert (add_to_basket sample_auth "5000123" 2
            (add_stderr ("Adding product " ++ "5000123" ++ " (quantity: "
                         ++ PyStr.of_int 2 ++ ") to basket...")
               (script_world basket_replies sample_uuid))
          = (Ok (JObj [("Lines", JArr two_lines)]),
             snd (add_to_basket sample_auth "5000123" 2
                    (add_stderr ("Adding product " ++ "5000123" ++ " (quantity: "
                                 ++ PyStr.of_int 2 ++ ") to basket...")
                       (script_world basket_replies sample_uuid)))))
    as Ha by (vm_compute; reflexivity).
  destruct (cmd_add_without_matching_line
              sample_auth "5000123" 2 _ _ _ two_lines
              [ JInt 25; JFloat (PyFloat.of_decimal 1995 2) ]
              (Py.NFloat (PyFloat.of_decimal 4495 2))
              "44.95"
              Ha eq_refl eq_refl
              ltac:(vm_compute; reflexivity) ltac:(vm_compute; reflexivity)
              ltac:(vm_compute; reflexivity) ltac:(vm_compute; reflexivity))
    as (w' & Hrun & Hout & _).
  exists w'. split; [exact Hrun|]. rewrite Hout. vm_compute. reflexivity.
Defined.

End BasketCommands.


Section HistoryCommand.

Lemma get_order_details_run (auth : AuthTokens) (id : Z) (w : World)
    (r : Response) (v : json) (rest : list (exc + Response)) :
  scripted w (inr r :: rest) ->
  json_reply r v ->
  exists q : Request,
    get_order_details auth id w = (Ok v, add_sent q (add_drawn w))
    /\ req_method q = GET
    /\ req_url q
       = BASE_URL ++ "/webapi/v2/order/GetOrderHistory/" ++ PyStr.of_int id
    /\ req_params q = [].
Proof.
  intros Hs [S J]. eexists. split.
  - unfold get_order_details, session_get. run Hs. cbv beta zeta.
    unfold lift. now rewrite J.
  - repeat split.
Qed.

(** X20: the lookup of an order that is among the orders returned.
    [cmd_history] with an order id other than 0 shows the first order of
    the history with that id: it sends one more GET, for the lines of
    the order, to the address that ends in the id, prints an empty line
    and the details, and exits with 0; the limit of the command line
    plays no part. *)
Theorem history_lookup_shows_first_match
    (auth : AuthTokens) (id limit : Z) (w w1 : World)
    (history details lines order : json) (orders : list json)
    (r : Response) (out : string) :
  id <> 0 ->
  get_order_history auth 0 MAX_ORDER_HISTORY_LOOKUP
    (add_stderr ("Fetching order " ++ PyStr.of_int id ++ "...") w)
  = (Ok history, w1) ->
  Py.get history "Orders" (JArr []) = Ok (JArr orders) ->
  forallb is_dict orders = true ->
  find (has_id id) orders = Some order ->
  scripted w1 [inr r] ->
  json_reply r details ->
  Py.get details "Lines" (JArr []) = Ok lines ->
  format_order_details order lines = Ok out ->
  exists (w' : World) (q : Request),
    cmd_history auth (Some id) limit w = (Ok 0, w')
    /\ sent w' = (sent w1 ++ [q])%list
    /\ req_method q = GET
    /\ req_url q
       = BASE_URL ++ "/webapi/v2/order/GetOrderHistory/" ++ PyStr.of_int id
    /\ req_params q = []
    /\ stdout w' = (stdout w1 ++ [""; out])%list
    /\ stderr w' = stderr w1.
Proof.
  intros Hid Hh Ho Hd Hfind Hs R Hl Hout.
  destruct (get_order_details_run auth id w1 r details [] Hs R)
    as (q & Hq & Hm & Hu & Hp).
  eexists. exists q. split.
  - unfold cmd_history, order_id_given.
    rewrite (proj2 (Z.eqb_neq id 0) Hid). unfold history_lookup.
    rewrite bind_print_err, (bind_eq _ _ _ _ _ Hh), bind_lift, Ho.
    cbv beta iota. rewrite bind_lift. cbn [Py.iter]. cbv beta iota.
    rewrite bind_lift. unfold find_order.
    rewrite (find_first_dicts "Id" (fun v => Py.eq_int v id) _ Hd).
    fold (has_id id). rewrite Hfind. cbv beta iota.
    rewrite (bind_eq _ _ _ _ _ Hq), bind_lift, Hl. cbv beta iota.
    rewrite bind_print, bind_lift, Hout. cbv beta iota.
    rewrite bind_print. reflexivity.
  - cbn [sent stdout stderr add_sent add_stdout add_drawn].
    rewrite <- !app_assoc. repeat split; assumption.
Qed.

Lemma history_lookup_shows_first_match_witness :
  exists (w' : World) (q : Request) (out : string),
    cmd_history sample_auth (Some 4711) 10
      (script_world lookup_replies sample_uuid)
    = (Ok 0, w')
    /\ req_url (nth 1 (sent w') q)
       = "https://www.nemlig.com/webapi/v2/order/GetOrderHistory/4711"
    /\ format_order_details (nth 0 twin_orders JNull) (JArr []) = Ok out
    /\ stdout w' = [""; out].
Proof.
  pose (w := script_world lookup_replies sample_uuid).
  pose (w1 := snd (get_order_history sample_auth 0 MAX_ORDER_HISTORY_LOOKUP
                     (add_stderr ("Fetching order " ++ PyStr.of_int 4711 ++ "...")
                        w))).
  pose (out := match format_order_details (nth 0 twin_orders JNull) (JArr []) with
               | Ok s => s
               | Raised _ => ""
               end).
  assert (4711 <> 0) as Hid by discriminate.
  assert (get_order_history sample_auth 0 MAX_ORDER_HISTORY_LOOKUP
            (add_stderr ("Fetching order " ++ PyStr.of_int 4711 ++ "...") w)
          = (Ok (JObj [("Orders", JArr twin_orders)]), w1)) as Hh
    by (vm_compute; reflexivity).
  assert (scripted w1 [inr (ok_response (JObj [("Lines", JArr [])]))]) as Hs.
  { apply scripted_one. intros q. vm_compute. reflexivity. }
  destruct (history_lookup_shows_first_match
              sample_auth 4711 10 w w1 _ (JObj [("Lines", JArr [])]) (JArr [])
              (nth 0 twin_orders JNull) twin_orders _ out
              Hid Hh eq_refl eq_refl eq_refl Hs (conj eq_refl eq_refl) eq_refl
              ltac:(vm_compute; reflexivity))
    as (w' & q & Hrun & Hsent & _ & Hurl & _ & Hout & _).
  exists w', q, out. split; [exact Hrun|]. split.
  - rewrite Hsent.
    replace (nth 1 (sent w1 ++ [q]) q) with q by (vm_compute; reflexivity).
    rewrite Hurl. vm_compute. reflexivity.
  - split; [vm_compute; reflexivity|]. rewrite Hout. reflexivity.
Defined.

(** X21: the list of orders.  Without an order id, and with the order
    id 0, [cmd_history] lists the orders of the reply: a header with
    their number and the number of pages, one row per order and a closing
    hint, and exits with 0.  When [format_order_summary] raises on an
    order, the header and the rows before it have been printed and the
    exception leaves the command. *)
Theorem history_list_prints_until_failure
    (auth : AuthTokens) (oid : option Z) (limit : Z) (w w1 : World)
    (history pages : json) (orders : list json) :
  oid = None \/ oid = Some 0 ->
  get_order_history auth 0 limit (add_stderr "Fetching order history..." w)
  = (Ok history, w1) ->
  Py.get history "Orders" (JArr []) = Ok (JArr orders) ->
  orders <> [] ->
  Py.get history "NumberOfPages" (JInt 1) = Ok pages ->
  let header :=
    Py.nl ++ "Order History (" ++ PyStr.of_int (Z.of_nat (List.length orders))
    ++ " orders, " ++ Py.str pages ++ " pages total):" ++ Py.nl in
  let footer := Py.nl ++ "Use 'history ORDER_ID' to see order details." in
  (forall rows : list string,
      Py.map_o format_order_summary orders = Ok rows ->
      exists w' : World,
        cmd_history auth oid limit w = (Ok 0, w')
        /\ stdout w' = (stdout w1 ++ header :: rows ++ [footer])%list
        /\ stderr w' = stderr w1
        /\ sent w' = sent w1)
  /\ (forall (pre post : list json) (x : json) (rows : list string) (e : exc),
        orders = (pre ++ x :: post)%list ->
        Py.map_o format_order_summary pre = Ok rows ->
        format_order_summary x = Raised e ->
        exists w' : World,
          cmd_history auth oid limit w = (Raised e, w')
          /\ stdout w' = (stdout w1 ++ header :: rows)%list).
Proof.
  intros Hoid Hh Ho Hne Hp header footer.
  assert (cmd_history auth oid limit w
          = (for_each orders
               (fun order => row <~ format_order_summary order ;; print row) ;;
             print footer ;;
             ret 0)%py (add_stdout header w1)) as Hrun.
  { unfold cmd_history.
    assert (order_id_given oid = None) as -> by (now destruct Hoid as [-> | ->]).
    unfold history_list.
    rewrite bind_print_err, (bind_eq _ _ _ _ _ Hh), bind_lift, Ho.
    cbv beta iota. rewrite bind_lift, Hp. cbv beta iota.
    rewrite (truthy_nonempty _ Hne). cbn [negb].
    rewrite bind_lift. cbn [Py.len]. cbv beta iota.
    rewrite bind_print, bind_lift. cbn [Py.iter]. reflexivity. }
  split.
  - intros rows Hr. eexists. split.
    + rewrite Hrun. rewrite (bind_eq _ _ _ _ _ (for_each_print_ok _ _ _ _ Hr)).
      rewrite bind_print. reflexivity.
    + cbn [stdout stderr sent printed add_stdout]. rewrite <- !app_assoc.
      repeat split.
  - intros pre post x rows e -> Hr Hx. eexists. split.
    + rewrite Hrun.
      rewrite (bind_raised _ _ _ _ _ (for_each_print_raised _ _ _ _ _ _ _ Hr Hx)).
      reflexivity.
    + cbn [stdout printed add_stdout]. now rewrite <- app_assoc.
Qed.

Lemma history_list_prints_until_failure_witness :
  exists (w' : World) (e : exc) (row : string),
    cmd_history sample_auth (Some 0) 10 (script_world list_replies sample_uuid)
    = (Raised e, w')
    /\ format_order_summary (JObj bare_order) = Ok row
    /\ stdout w' = [ Py.nl ++ "Order History (2 orders, 1 pages total):" ++ Py.nl;
                     row ]
    /\ exc_str e = "unhashable type: 'list'".
Proof.
  pose (w := script_world list_replies sample_uuid).
  pose (row := match format_order_summary (JObj bare_order) with
               | Ok s => s
               | Raised _ => ""
               end).
  assert (get_order_history sample_auth 0 10
            (add_stderr "Fetching order history..." w)
          = (Ok (JObj [("Orders", JArr orders_with_bad_status)]),
             snd (get_order_history sample_auth 0 10
                    (add_stderr "Fetching order history..." w)))) as Hh
    by (vm_compute; reflexivity).
  assert (orders_with_bad_status <> []) as Hne by discriminate.
  destruct (proj2 (history_list_prints_until_failure
                     sample_auth (Some 0) 10 w _ _ (JInt 1)
                     orders_with_bad_status
                     (or_intror eq_refl) Hh eq_refl Hne eq_refl)
              [JObj bare_order] []
              (JObj [("Id", JInt 4713); ("Status", JArr [])])
              [row]
              (mkExc TypeError "unhashable type: 'list'" None)
              eq_refl ltac:(vm_compute; reflexivity)
              ltac:(vm_compute; reflexivity))
    as (w' & Hrun & Hout).
  exists w'. eexists. exists row. split; [exact Hrun|].
  split; [vm_compute; reflexivity|]. split; [|reflexivity].
  rewrite Hout. vm_compute. reflexivity.
Defined.

End HistoryCommand.


(* ----------------------------------------------------------------- *)
(** ** HTTP errors *)

Section HttpErrors.

Lemma raise_for_status_error (r : Response) :
  400 <= status_code r < 600 ->
  exists e,
    raise_for_status r = Raised e
    /\ exc_cls e = HTTPError
    /\ exc_response e = Some r.
Proof.
  intros H. unfold raise_for_status.
  destruct ((400 <=? status_code r) && (status_code r <? 500)) eqn:E1.
  - eexists. repeat split.
  - destruct ((500 <=? status_code r) && (status_code r <? 600)) eqn:E2.
    + eexists. repeat split.
    + apply andb_false_iff in E1, E2. lia.
Qed.

Variables (auth : AuthTokens) (r : Response) (e : exc).
Hypothesis He : raise_for_status r = Raised e.

Lemma get_app_settings_stops : stops_on r e (get_app_settings auth).
Proof.
  intros w Hs. do 2 eexists. split.
  { unfold get_app_settings, session_get. run Hs. reflexivity. }
  repeat split.
Qed.

Lemma get_page_settings_stops : stops_on r e (get_page_settings auth).
Proof.
  intros w Hs.
  destruct (get_app_settings_stops (add_drawn w) Hs) as (w' & q & Hrun & H).
  exists w', q. split; [|exact H].
  unfold get_page_settings. rewrite bind_auth_headers. cbv beta.
  now rewrite (bind_raised _ _ _ _ _ Hrun).
Qed.

Lemma search_products_stops (query : string) (limit : Z) :
  stops_on r e (search_products auth query limit).
Proof.
  intros w Hs. destruct (get_page_settings_stops w Hs) as (w' & q & Hrun & H).
  exists w', q. split; [|exact H].
  unfold search_products. now rewrite (bind_raised _ _ _ _ _ Hrun).
Qed.

Lemma get_product_details_stops (product_id : string) :
  stops_on r e (get_product_details auth product_id).
Proof.
  intros w Hs.
  destruct (search_products_stops product_id 5 w Hs) as (w' & q & Hrun & H).
  exists w', q. split; [|exact H].
  unfold get_product_details. now rewrite (bind_raised _ _ _ _ _ Hrun).
Qed.

Lemma get_basket_stops : stops_on r e (get_basket auth).
Proof.
  intros w Hs. do 2 eexists. split.
  { unfold get_basket, session_get. run Hs. reflexivity. }
  repeat split.
Qed.

Lemma add_to_basket_stops (product_id : string) (quantity : Z) :
  stops_on r e (add_to_basket auth product_id quantity).
Proof.
  intros w Hs. do 2 eexists. split.
  { unfold add_to_basket, session_post. run Hs. reflexivity. }
  repeat split.
Qed.

Lemma get_order_history_stops (skip take : Z) :
  stops_on r e (get_order_history auth skip take).
Proof.
  intros w Hs. do 2 eexists. split.
  { unfold get_order_history, session_get. run Hs. reflexivity. }
  repeat split.
Qed.

End HttpErrors.

Section HttpErrorsOfCommands.

Variables (auth : AuthTokens) (w : World) (r : Response) (e : exc).
Hypothesis Hs : scripted w [inr r].
Hypothesis He : raise_for_status r = Raised e.
Hypothesis Hc : exc_cls e = HTTPError.

Lemma command_stops (c : Command) :
  exists (w' : World) (q : Request),
    match c with
    | Search query limit => cmd_search auth query limit
    | Details product_id => cmd_details auth product_id
    | Basket => cmd_basket auth
    | Add product_id quantity => cmd_add auth product_id quantity
    | History order_id limit => cmd_history auth order_id limit
    end w = (Raised e, w')
    /\ sent w' = (sent w ++ [q])%list
    /\ stdout w' = stdout w
    /\ stderr w' = (stderr w ++ [progress c])%list.
Proof.
  destruct c as [query limit|product_id| |product_id quantity|order_id limit];
    cbn [progress].
  - destruct (search_products_stops auth r e He query limit
                (add_stderr ("Searching for '" ++ query ++ "'...") w) Hs)
      as (w' & q & Hrun & H).
    exists w', q. split; [|exact H].
    unfold cmd_search. rewrite bind_print_err.
    now rewrite (bind_raised _ _ _ _ _ Hrun).
  - destruct (get_product_details_stops auth r e He product_id
                (add_stderr ("Fetching details for product " ++ product_id
                             ++ "...") w) Hs)
      as (w' & q & Hrun & H).
    exists w', q. split; [|exact H].
    unfold cmd_details. rewrite bind_print_err.
    unfold bind at 1. unfold try_except.
    rewrite (bind_raised _ _ _ _ _ Hrun), Hc. reflexivity.
  - destruct (get_basket_stops auth r e He
                (add_stderr "Fetching basket..." w) Hs)
      as (w' & q & Hrun & H).
    exists w', q. split; [|exact H].
    unfold cmd_basket. rewrite bind_print_err.
    now rewrite (bind_raised _ _ _ _ _ Hrun).
  - destruct (add_to_basket_stops auth r e He product_id quantity
                (add_stderr ("Adding product " ++ product_id ++ " (quantity: "
                             ++ PyStr.of_int quantity ++ ") to basket...") w) Hs)
      as (w' & q & Hrun & H).
    exists w', q. split; [|exact H].
    unfold cmd_add. rewrite bind_print_err.
    now rewrite (bind_raised _ _ _ _ _ Hrun).
  - unfold cmd_history. destruct (order_id_given order_id) as [id|].
    + destruct (get_order_history_stops auth r e He 0 MAX_ORDER_HISTORY_LOOKUP
                  (add_stderr ("Fetching order " ++ PyStr.of_int id ++ "...") w)
                  Hs)
        as (w' & q & Hrun & H).
      exists w', q. split; [|exact H].
      unfold history_lookup. rewrite bind_print_err.
      now rewrite (bind_raised _ _ _ _ _ Hrun).
    + destruct (get_order_history_stops auth r e He 0 limit
                  (add_stderr "Fetching order history..." w) Hs)
        as (w' & q & Hrun & H).
      exists w', q. split; [|exact H].
      unfold history_list. rewrite bind_print_err.
      now rewrite (bind_raised _ _ _ _ _ Hrun).
Qed.

End HttpErrorsOfCommands.

Section HttpErrorsOfMain.

(** X22: an error status after the login.  When the first reply to a
    command, whichever it is, has a status from 400 to 599, the command
    sends nothing more and prints nothing; [main] writes the progress
    message of the command, the text of the [HTTPError] and the body of
    the reply to the error stream, and returns 1. *)
Theorem main_reports_http_error
    (args : Args) (w w0 : World) (auth : AuthTokens) (r : Response) :
  login (username args) (password args) w = (Ok auth, w0) ->
  scripted w0 [inr r] ->
  400 <= status_code r < 600 ->
  exists (e : exc) (w' : World) (q : Request),
    raise_for_status r = Raised e
    /\ main args w = (Ok 1, w')
    /\ sent w' = (sent w0 ++ [q])%list
    /\ stdout w' = stdout w0
    /\ stderr w'
       = (stderr w0
          ++ [ progress (command args); ("HTTP Error: " ++ exc_str e)%string;
               ("Response: " ++ text r)%string ])%list.
Proof.
  intros Hl Hs Hst.
  destruct (raise_for_status_error r Hst) as (e & He & Hc & Hr).
  destruct (command_stops auth w0 r e Hs He Hc (command args))
    as (w1 & q & Hrun & Hsent & Hout & Herr).
  assert (run_command args w = (Raised e, w1)) as Hcmd.
  { unfold run_command. now rewrite (bind_eq _ _ _ _ _ Hl). }
  destruct (main_of_raised _ _ _ _ Hcmd) as (w' & Hm & Ho' & He').
  exists e, w', q. split; [exact He|]. split; [exact Hm|].
  assert (handle_error e w1 = (Ok 1, w')) as Hh.
  { unfold main, try_except in Hm. now rewrite Hcmd in Hm. }
  split.
  { unfold handle_error in Hh. rewrite Hc, Hr in Hh. cbn in Hh.
    injection Hh as <-. exact Hsent. }
  split; [congruence|].
  rewrite He', Herr, <- app_assoc. unfold diagnostic. now rewrite Hc, Hr.
Qed.

Lemma main_reports_http_error_witness :
  exists w' : World,
    main (mkArgs "user@example.dk" "secret" Basket)
      (script_world unavailable_replies sample_uuid)
    = (Ok 1, w')
    /\ stdout w' = []
    /\ stderr w'
       = (login_messages
          ++ [ "Fetching basket...";
               "HTTP Error: 503 Server Error: Service Unavailable for url: https://www.nemlig.com/webapi/basket/GetBasket";
               "Response: <html>down</html>" ])%list.
Proof.
  pose (w := script_world unavailable_replies sample_uuid).
  pose (w0 := snd (login "user@example.dk" "secret" w)).
  assert (login "user@example.dk" "secret" w = (Ok sample_auth, w0)) as Hl
    by (vm_compute; reflexivity).
  assert (scripted w0 [inr unavailable]) as Hs.
  { apply scripted_one. intros q. vm_compute. reflexivity. }
  assert (400 <= status_code unavailable < 600) as Hst
    by (cbn; lia).
  destruct (main_reports_http_error
              (mkArgs "user@example.dk" "secret" Basket) w w0 sample_auth
              unavailable Hl Hs Hst)
    as (e & w' & q & He & Hm & _ & Hout & Herr).
  exists w'. split; [exact Hm|]. split; [rewrite Hout; reflexivity|].
  rewrite Herr. injection He as <-. vm_compute. reflexivity.
Defined.

End HttpErrorsOfMain.


(* ----------------------------------------------------------------- *)
(** ** The page of a product *)

Section ProductPage.

(** X23: the run of [get_product_details] that finds the product.  It
    takes six requests: the page settings and the search, the page
    settings again, and the page of the product.  The page is asked for
    at the url of the first search result with the id, with the time
    slot of the second fetch of the page settings and with both tokens;
    the result is the first item of the page whose template name is
    [productdetailspot]. *)
Theorem get_product_details_fetches_page
    (auth : AuthTokens) (product_id : string) (w : World)
    (r1 r2 r3 r4 r5 r6 : Response)
    (settings1 data1 page1 found inner settings2 data2 page2
       : list (string * json))
    (doc item : json) (products content : list json) :
  scripted w [inr r1; inr r2; inr r3; inr r4; inr r5; inr r6] ->
  json_reply r1 (JObj settings1) ->
  json_reply r2 (JObj data1) ->
  field_or data1 "Settings" (JObj []) = JObj page1 ->
  json_reply r3 (JObj found) ->
  field_or found "Products" (JObj []) = JObj inner ->
  field_or inner "Products" (JArr []) = JArr products ->
  forallb is_dict products = true ->
  Py.truthy (matched_url product_id products) = true ->
  json_reply r4 (JObj settings2) ->
  json_reply r5 (JObj data2) ->
  field_or data2 "Settings" (JObj []) = JObj page2 ->
  json_reply r6 doc ->
  Py.get doc "content" (JArr []) = Ok (JArr content) ->
  forallb is_dict content = true ->
  find is_detail_block content = Some item ->
  exists (w' : World) (q1 q2 q3 q4 q5 q6 : Request),
    get_product_details auth product_id w = (Ok item, w')
    /\ sent w' = (sent w ++ [q1; q2; q3; q4; q5; q6])%list
    /\ req_method q6 = GET
    /\ req_url q6 = BASE_URL ++ "/" ++ Py.str (matched_url product_id products)
    /\ req_params q6
       = [ ("GetAsJson", JStr "1");
           ("t", ps_timeslotUtc (page_settings_of settings2 page2));
           ("d", JStr "1") ]
    /\ Py.lookup "X-XSRF-TOKEN" (req_headers q6) = Some (xsrf_token auth)
    /\ Py.lookup "Authorization" (req_headers q6)
       = Some (JStr ("Bearer " ++ Py.str (bearer_token auth)))
    /\ Py.lookup "take" (req_params q3) = Some (JInt 5)
    /\ Py.lookup "query" (req_params q3) = Some (JStr product_id).
Proof.
  intros Hs R1 R2 Hp1 R3 Hin Hprod Hd Hurl R4 R5 Hp2 [S6 J6] Hc Hcd Hfind.
  destruct (search_products_run auth product_id 5 w r1 r2 r3 settings1 data1
              page1 found inner _ Hs R1 R2 Hp1 R3 Hin)
    as (w1 & q1 & q2 & q3 & Hsearch & Hsent1 & Hs1 & _ & _ & Hq3).
  rewrite Hprod in Hsearch.
  destruct (get_page_settings_run auth w1 r4 r5 settings2 data2 page2 _
              Hs1 R4 R5 Hp2)
    as (w2 & q4 & q5 & Hps & Hsent2 & Hs2 & _).
  exists (add_sent
            (mkRequest GET
               (BASE_URL ++ "/" ++ Py.str (matched_url product_id products))
               (dict_set "X-XSRF-TOKEN" (xsrf_token auth)
                  (dict_set "Authorization"
                     (JStr ("Bearer " ++ Py.str (bearer_token auth)))
                     (common_headers (uuid4 w2 (drawn w2)))))
               [ ("GetAsJson", JStr "1");
                 ("t", ps_timeslotUtc (page_settings_of settings2 page2));
                 ("d", JStr "1") ]
               None)
            (add_drawn w2)).
  exists q1, q2, q3, q4, q5. eexists. split; [|split].
  - unfold get_product_details. rewrite (bind_eq _ _ _ _ _ Hsearch).
    rewrite bind_lift, (find_product_url_dicts _ _ Hd). cbv beta iota.
    rewrite Hurl. cbn [negb]. rewrite (bind_eq _ _ _ _ _ Hps).
    unfold session_get. run Hs2. cbv beta zeta.
    rewrite bind_lift. cbn [Py.iter]. cbv beta iota.
    rewrite bind_lift, (find_detail_block_dicts _ Hcd), Hfind. reflexivity.
  - cbn [sent add_sent add_drawn]. rewrite Hsent2, Hsent1, <- !app_assoc.
    reflexivity.
  - cbn [req_method req_url req_params req_headers].
    split; [reflexivity|]. split; [reflexivity|]. split; [reflexivity|].
    split; [apply lookup_dict_set_same|].
    split.
    { rewrite lookup_dict_set_other by reflexivity.
      apply lookup_dict_set_same. }
    rewrite Hq3. cbv zeta. cbn [req_params].
    destruct (Py.truthy (ps_userId (page_settings_of settings1 page1)));
      split; reflexivity.
Qed.

Lemma get_product_details_fetches_page_witness :
  exists (w' : World) (q1 q2 q3 q4 q5 q6 : Request),
    get_product_details sample_auth "5000123"
      (script_world details_replies_two_slots sample_uuid)
    = (Ok (JObj [("TemplateName", JStr "productdetailspot"); ("Name", JStr "Milk")]),
       w')
    /\ sent w' = [q1; q2; q3; q4; q5; q6]
    /\ req_url q6 = "https://www.nemlig.com/milk-5000123"
    /\ Py.lookup "t" (req_params q6) = Some (JStr "slot-2").
Proof.
  destruct (get_product_details_fetches_page
              sample_auth "5000123"
              (script_world details_replies_two_slots sample_uuid)
              (ok_response (JObj []))
              (ok_response (JObj [("Settings", JObj [("TimeslotUtc", JStr "slot-1")])]))
              (ok_response (JObj [("Products", JObj [("Products", JArr milk_with_url)])]))
              (ok_response (JObj []))
              (ok_response (JObj [("Settings", JObj [("TimeslotUtc", JStr "slot-2")])]))
              (ok_response (JObj [("content", JArr detail_page)]))
              [] [("Settings", JObj [("TimeslotUtc", JStr "slot-1")])]
              [("TimeslotUtc", JStr "slot-1")]
              [("Products", JObj [("Products", JArr milk_with_url)])]
              [("Products", JArr milk_with_url)]
              [] [("Settings", JObj [("TimeslotUtc", JStr "slot-2")])]
              [("TimeslotUtc", JStr "slot-2")]
              (JObj [("content", JArr detail_page)])
              (JObj [("TemplateName", JStr "productdetailspot"); ("Name", JStr "Milk")])
              milk_with_url detail_page
              (script_world_scripted details_replies_two_slots sample_uuid)
              (conj eq_refl eq_refl) (conj eq_refl eq_refl) eq_refl
              (conj eq_refl eq_refl) eq_refl eq_refl eq_refl eq_refl
              (conj eq_refl eq_refl) (conj eq_refl eq_refl) eq_refl
              (conj eq_refl eq_refl) eq_refl eq_refl eq_refl)
    as (w' & q1 & q2 & q3 & q4 & q5 & q6 & Hrun & Hsent & _ & Hurl & Hpar & _).
  exists w', q1, q2, q3, q4, q5, q6.
  split; [exact Hrun|]. split; [exact Hsent|].
  split; [rewrite Hurl; reflexivity|]. rewrite Hpar. reflexivity.
Defined.

(** X24: what [cmd_details] prints.  For a product that is found it
    prints an empty line and then the details, and returns 0.  When
    [format_product_details] raises, the empty line has been printed and
    the exception, which the handler of [cmd_details] does not take,
    leaves the command. *)
Theorem cmd_details_prints_after_blank_line
    (auth : AuthTokens) (product_id : string) (w w1 : World) (product : json) :
  get_product_details auth product_id
    (add_stderr ("Fetching details for product " ++ product_id ++ "...") w)
  = (Ok product, w1) ->
  exists w' : World,
    cmd_details auth product_id w
    = (match format_product_details product with
       | Ok text => Ok 0
       | Raised e => Raised e
       end, w')
    /\ stdout w'
       = (stdout w1
          ++ "" :: match format_product_details product with
                   | Ok text => [text]
                   | Raised _ => []
                   end)%list
    /\ stderr w' = stderr w1
    /\ sent w' = sent w1.
Proof.
  intros Hd.
  assert (cmd_details auth product_id w
          = (details <~ format_product_details product ;;
             print details ;;
             ret 0)%py (add_stdout "" w1)) as Hrun.
  { unfold cmd_details. rewrite bind_print_err.
    unfold bind at 1. unfold try_except.
    rewrite (bind_eq _ _ _ _ _ Hd). unfold ret at 1.
    now rewrite bind_print. }
  rewrite Hrun, bind_lift.
  destruct (format_product_details product) as [text|e].
  - eexists. split; [rewrite bind_print; reflexivity|].
    cbn [stdout stderr sent add_stdout]. rewrite <- app_assoc. repeat split.
  - eexists. split; [reflexivity|]. repeat split.
Qed.

Lemma cmd_details_prints_after_blank_line_witness :
  exists (w' : World) (e : exc),
    cmd_details sample_auth "5000123"
      (script_world (details_replies milk_with_url numbered_page) sample_uuid)
    = (Raised e, w')
    /\ stdout w' = [""]
    /\ exc_str e = "object of type 'int' has no len()".
Proof.
  pose (w := script_world (details_replies milk_with_url numbered_page)
                          sample_uuid).
  pose (w1 := snd (get_product_details sample_auth "5000123"
                     (add_stderr ("Fetching details for product " ++ "5000123"
                                  ++ "...") w))).
  assert (get_product_details sample_auth "5000123"
            (add_stderr ("Fetching details for product " ++ "5000123" ++ "...") w)
          = (Ok (nth 0 numbered_page JNull), w1)) as Hd
    by (vm_compute; reflexivity).
  destruct (cmd_details_prints_after_blank_line _ _ _ _ _ Hd)
    as (w' & Hrun & Hout & _).
  exists w'.
  exists (mkExc TypeError "object of type 'int' has no len()" None).
  split; [exact Hrun|]. split; [|reflexivity].
  rewrite Hout. vm_compute. reflexivity.
Defined.

End ProductPage.


(* ----------------------------------------------------------------- *)
(** ** The calls of one request *)

Section SingleRequests.

Variables (auth : AuthTokens) (w : World) (r : Response) (v : json).
Hypothesis Hs : scripted w [inr r].
Hypothesis Hj : json_reply r v.

Ltac one_request f :=
  destruct Hj as [S J];
  do 2 eexists; split;
  [ unfold f, session_get, session_post;
    pose proof Hs as H; run H; cbv beta zeta; unfold lift; rewrite J;
    reflexivity
  | cbn [sent drawn add_sent add_drawn req_method req_url req_params req_json
         req_headers];
    unfold correlation_id; cbn [req_headers];
    repeat first
      [ rewrite lookup_dict_set_same
      | rewrite lookup_dict_set_other by reflexivity ];
    repeat split ].

(** X25: the five calls of the client that take one request.  Each
    sends one request with the two tokens and a fresh identifier and
    returns the JSON body of the reply as it is, whatever it holds, when
    the status of the reply is no error.  [add_to_basket] posts the
    product id as a string with the quantity and two flags set to false;
    [get_order_history] passes [skip] and [take]; [get_order_details]
    puts the order id into the address. *)
Theorem client_calls_of_one_request
    (product_id : string) (quantity skip take order_id : Z) :
  sends_one auth w (get_app_settings auth) v
    GET (BASE_URL ++ "/webapi/v2/AppSettings/Website") [] None
  /\ sends_one auth w (get_basket auth) v
       GET (BASE_URL ++ "/webapi/basket/GetBasket") [] None
  /\ sends_one auth w (add_to_basket auth product_id quantity) v
       POST (BASE_URL ++ "/webapi/basket/AddToBasket") []
       (Some (JObj [ ("ProductId", JStr product_id);
                     ("quantity", JInt quantity);
                     ("AffectPartialQuantity", JBool false);
                     ("disableQuantityValidation", JBool false) ]))
  /\ sends_one auth w (get_order_history auth skip take) v
       GET (BASE_URL ++ "/webapi/order/GetBasicOrderHistory")
       [("skip", JInt skip); ("take", JInt take)] None
  /\ sends_one auth w (get_order_details auth order_id) v
       GET (BASE_URL ++ "/webapi/v2/order/GetOrderHistory/"
            ++ PyStr.of_int order_id) [] None.
Proof.
  split; [one_request get_app_settings|].
  split; [one_request get_basket|].
  split; [one_request add_to_basket|].
  split; [one_request get_order_history|].
  one_request get_order_details.
Qed.

End SingleRequests.

Lemma client_calls_of_one_request_witness :
  sends_one sample_auth (script_world basket_replies sample_uuid)
    (add_to_basket sample_auth "5000123" 2)
    (JObj [("Lines", JArr two_lines)])
    POST "https://www.nemlig.com/webapi/basket/AddToBasket" []
    (Some (JObj [ ("ProductId", JStr "5000123"); ("quantity", JInt 2);
                  ("AffectPartialQuantity", JBool false);
                  ("disableQuantityValidation", JBool false) ])).
Proof.
  exact (proj1 (proj2 (proj2
           (client_calls_of_one_request
              sample_auth (script_world basket_replies sample_uuid)
              (ok_response (JObj [("Lines", JArr two_lines)]))
              (JObj [("Lines", JArr two_lines)])
              (script_world_scripted basket_replies sample_uuid)
              (conj eq_refl eq_refl)
              "5000123" 2 0 10 4711)))).
Defined.

(* ----------------------------------------------------------------- *)
(** ** The lookup scans the reply *)

Section HistoryLookupReply.





End HistoryLookupReply.

(* ----------------------------------------------------------------- *)
(** ** Exit codes of the commands that show their results *)

Section ExitCodeOfSuccess.

Ltac same_world :=
  unfold printed, add_stdout;
  cbn [remote uuid4 sent drawn stdout stderr];
  rewrite <- ?app_assoc; reflexivity.

Lemma main_of_command (args : Args) (w w0 w' : World) (auth : AuthTokens)
    (c : Z) :
  login (username args) (password args) w = (Ok auth, w0) ->
  match command args with
  | Search query limit => cmd_search auth query limit
  | Details product_id => cmd_details auth product_id
  | Basket => cmd_basket auth
  | Add product_id quantity => cmd_add auth product_id quantity
  | History order_id limit => cmd_history auth order_id limit
  end w0 = (Ok c, w') ->
  exit_code args w = c /\ snd (main args w) = w'.
Proof.
  intros Hlogin Hcmd. unfold exit_code.
  rewrite (main_of_ok args w w' c); [auto|].
  unfold run_command. now rewrite (bind_eq _ _ _ _ _ Hlogin).
Qed.

Lemma search_listed_run (auth : AuthTokens) (q : string) (l : Z)
    (w w1 : World) (products : list json) (lines : list string) :
  search_products auth q l (add_stderr ("Searching for '" ++ q ++ "'...") w)
  = (Ok (JArr products), w1) ->
  products <> [] ->
  Py.map_o format_product products = Ok lines ->
  cmd_search auth q l w
  = (Ok 0,
     printed ((Py.nl ++ "Found "
               ++ PyStr.of_int (Z.of_nat (List.length products))
               ++ " products:" ++ Py.nl) :: lines) w1).
Proof.
  intros Hs Hne Hl. unfold cmd_search.
  rewrite bind_print_err, (bind_eq _ _ _ _ _ Hs), (truthy_nonempty _ Hne).
  cbn [negb]. rewrite bind_lift. cbn [Py.len]. cbv beta iota.
  rewrite bind_print, bind_lift. cbn [Py.iter]. cbv beta iota.
  rewrite (bind_eq _ _ _ _ _ (for_each_print_ok _ _ _ _ Hl)).
  unfold ret. f_equal. same_world.
Qed.

Lemma details_shown_run (auth : AuthTokens) (pid : string) (w w1 : World)
    (product : json) (text : string) :
  get_product_details auth pid
    (add_stderr ("Fetching details for product " ++ pid ++ "...") w)
  = (Ok product, w1) ->
  format_product_details product = Ok text ->
  cmd_details auth pid w = (Ok 0, printed [""; text] w1).
Proof.
  intros Hd Ht. unfold cmd_details. rewrite bind_print_err.
  unfold bind at 1. unfold try_except.
  rewrite (bind_eq _ _ _ _ _ Hd). unfold ret at 1.
  rewrite bind_print, bind_lift, Ht. cbv beta iota. rewrite bind_print.
  unfold ret. f_equal. same_world.
Qed.

Lemma basket_listed_run (auth : AuthTokens) (w w1 : World) (basket : json)
    (lines prices : list json) (rows : list string) (total : Py.num)
    (text : string) :
  get_basket auth (add_stderr "Fetching basket..." w) = (Ok basket, w1) ->
  Py.get basket "Lines" (JArr []) = Ok (JArr lines) ->
  lines <> [] ->
  Py.map_o format_basket_line lines = Ok rows ->
  Py.map_o line_price lines = Ok prices ->
  Py.sum prices = Ok total ->
  Py.format_f 2 (Py.num_json total) = Ok text ->
  cmd_basket auth w
  = (Ok 0,
     printed ((Py.nl ++ "Basket ("
               ++ PyStr.of_int (Z.of_nat (List.length lines))
               ++ " items):" ++ Py.nl)
              :: rows ++ [Py.nl ++ "  Total: " ++ text ++ " kr"]) w1).
Proof.
  intros Hb Hl Hne Hrows Hprices Hsum Htext. unfold cmd_basket.
  rewrite bind_print_err, (bind_eq _ _ _ _ _ Hb), bind_lift, Hl.
  cbv beta iota. rewrite (truthy_nonempty _ Hne). cbn [negb].
  rewrite bind_lift. cbn [Py.len]. cbv beta iota.
  rewrite bind_print, bind_lift. cbn [Py.iter]. cbv beta iota.
  rewrite (bind_eq _ _ _ _ _ (basket_loop _ _ _ _ _ _ Hrows Hprices Hsum)).
  rewrite bind_lift, Htext. cbv beta iota. rewrite bind_print.
  unfold ret. f_equal. same_world.
Qed.

Lemma add_done_run (auth : AuthTokens) (pid : string) (qty : Z) (w w1 : World)
    (result : json) (lines prices : list json) (row : string)
    (total : Py.num) (text : string) :
  add_to_basket auth pid qty
    (add_stderr ("Adding product " ++ pid ++ " (quantity: "
                 ++ PyStr.of_int qty ++ ") to basket...") w)
  = (Ok result, w1) ->
  Py.get result "Lines" (JArr []) = Ok (JArr lines) ->
  forallb is_dict lines = true ->
  (forall line, find (id_is pid) lines = Some line ->
                format_basket_line line = Ok row) ->
  Py.map_o line_price lines = Ok prices ->
  Py.sum prices = Ok total ->
  Py.format_f 2 (Py.num_json total) = Ok text ->
  cmd_add auth pid qty w
  = (Ok 0,
     printed (match find (id_is pid) lines with
              | Some _ => [Py.nl ++ "Added to basket:"; row]
              | None => ["Product " ++ pid ++ " added to basket."]
              end
              ++ [Py.nl ++ "Basket total: " ++ text ++ " kr ("
                  ++ PyStr.of_int (Z.of_nat (List.length lines))
                  ++ " items)"]) w1).
Proof.
  intros Ha Hl Hd Hrow Hprices Hsum Htext. unfold cmd_add.
  rewrite bind_print_err, (bind_eq _ _ _ _ _ Ha), bind_lift, Hl.
  cbv beta iota. rewrite bind_lift. cbn [Py.iter]. cbv beta iota.
  rewrite bind_lift,
    (find_first_dicts "Id" (fun id => Py.eq_str id pid) _ Hd).
  cbv beta iota. fold (id_is pid).
  destruct (find (id_is pid) lines) as [line|] eqn:Hf.
  - assert ((print (Py.nl ++ "Added to basket:") ;;
             row <~ format_basket_line line ;;
             print row)%py w1
            = (Ok tt, add_stdout row
                        (add_stdout (Py.nl ++ "Added to basket:") w1))) as Hp.
    { rewrite bind_print, bind_lift, (Hrow line eq_refl). reflexivity. }
    rewrite (bind_eq _ _ _ _ _ Hp).
    rewrite bind_lift. fold line_price.
    rewrite (sum_gen_of_map _ _ _ _ Hprices Hsum). cbv beta iota.
    rewrite bind_lift, Htext. cbv beta iota.
    rewrite bind_lift. cbn [Py.len]. cbv beta iota.
    rewrite bind_print. unfold ret. f_equal. same_world.
  - unfold bind at 1. unfold print at 1.
    rewrite bind_lift. fold line_price.
    rewrite (sum_gen_of_map _ _ _ _ Hprices Hsum). cbv beta iota.
    rewrite bind_lift, Htext. cbv beta iota.
    rewrite bind_lift. cbn [Py.len]. cbv beta iota.
    rewrite bind_print. unfold ret. f_equal. same_world.
Qed.

Lemma order_shown_run (auth : AuthTokens) (id limit : Z) (w w1 : World)
    (history details lines order : json) (orders : list json)
    (r : Response) (out : string) :
  id <> 0 ->
  get_order_history auth 0 MAX_ORDER_HISTORY_LOOKUP
    (add_stderr ("Fetching order " ++ PyStr.of_int id ++ "...") w)
  = (Ok history, w1) ->
  Py.get history "Orders" (JArr []) = Ok (JArr orders) ->
  forallb is_dict orders = true ->
  find (has_id id) orders = Some order ->
  scripted w1 [inr r] ->
  json_reply r details ->
  Py.get details "Lines" (JArr []) = Ok lines ->
  format_order_details order lines = Ok out ->
  exists w' : World,
    cmd_history auth (Some id) limit w = (Ok 0, w')
    /\ stdout w' = (stdout w1 ++ [""; out])%list
    /\ stderr w' = stderr w1.
Proof.
  intros Hid Hh Ho Hd Hfind Hs R Hl Hout.
  destruct (get_order_details_run auth id w1 r details [] Hs R)
    as (q & Hq & _).
  eexists. split.
  - unfold cmd_history, order_id_given.
    rewrite (proj2 (Z.eqb_neq id 0) Hid). unfold history_lookup.
    rewrite bind_print_err, (bind_eq _ _ _ _ _ Hh), bind_lift, Ho.
    cbv beta iota. rewrite bind_lift. cbn [Py.iter]. cbv beta iota.
    rewrite bind_lift. unfold find_order.
    rewrite (find_first_dicts "Id" (fun v => Py.eq_int v id) _ Hd).
    fold (has_id id). rewrite Hfind. cbv beta iota.
    rewrite (bind_eq _ _ _ _ _ Hq), bind_lift, Hl. cbv beta iota.
    rewrite bind_print, bind_lift, Hout. cbv beta iota.
    rewrite bind_print. reflexivity.
  - cbn [stdout stderr add_sent add_stdout add_drawn].
    rewrite <- !app_assoc. split; reflexivity.
Qed.

Lemma history_listed_run (auth : AuthTokens) (oid : option Z) (limit : Z)
    (w w1 : World) (history pages : json) (orders : list json)
    (rows : list string) :
  order_id_given oid = None ->
  get_order_history auth 0 limit (add_stderr "Fetching order history..." w)
  = (Ok history, w1) ->
  Py.get history "Orders" (JArr []) = Ok (JArr orders) ->
  orders <> [] ->
  Py.get history "NumberOfPages" (JInt 1) = Ok pages ->
  Py.map_o format_order_summary orders = Ok rows ->
  cmd_history auth oid limit w
  = (Ok 0,
     printed ((Py.nl ++ "Order History ("
               ++ PyStr.of_int (Z.of_nat (List.length orders)) ++ " orders, "
               ++ Py.str pages ++ " pages total):" ++ Py.nl)
              :: rows
              ++ [Py.nl ++ "Use 'history ORDER_ID' to see order details."]) w1).
Proof.
  intros Hid Hh Ho Hne Hp Hr. unfold cmd_history. rewrite Hid.
  unfold history_list.
  rewrite bind_print_err, (bind_eq _ _ _ _ _ Hh), bind_lift, Ho.
  cbv beta iota. rewrite bind_lift, Hp. cbv beta iota.
  rewrite (truthy_nonempty _ Hne). cbn [negb].
  rewrite bind_lift. cbn [Py.len]. cbv beta iota.
  rewrite bind_print, bind_lift. cbn [Py.iter]. cbv beta iota.
  rewrite (bind_eq _ _ _ _ _ (for_each_print_ok _ _ _ _ Hr)).
  rewrite bind_print. unfold ret. f_equal. same_world.
Qed.

(** C4 (as amended): the exit code is always 0 or 1.  It is 1 whenever
    an exception leaves the login or the command, an HTTP error or any
    other, and [main] then writes its diagnostic to the error stream;
    it is 1 for a search without products, for a product that is not
    found and for an order that is not found.  It is 0 for an empty
    basket and for an empty list of orders.  And it is 0 on success,
    with the results on the output stream: for a search that lists its
    products, for a product that is shown, for a basket that is listed,
    for a product that is added, for an order that is shown and for a
    list of orders. *)
Theorem exit_code_cases :
  (forall (args : Args) (w : World),
      exit_code args w = 0 \/ exit_code args w = 1)
  /\ (forall (args : Args) (w w' : World) (e : exc),
        run_command args w = (Raised e, w') ->
        exit_code args w = 1
        /\ stdout (snd (main args w)) = stdout w'
        /\ stderr (snd (main args w)) = (stderr w' ++ diagnostic e)%list)
  /\ (forall (u p q : string) (l : Z) (w w0 w1 : World) (auth : AuthTokens)
             (products : json),
        login u p w = (Ok auth, w0) ->
        search_products auth q l
          (add_stderr ("Searching for '" ++ q ++ "'...") w0)
        = (Ok products, w1) ->
        Py.truthy products = false ->
        exit_code (mkArgs u p (Search q l)) w = 1)
  /\ (forall (u p pid : string) (w w0 w1 : World) (auth : AuthTokens) (e : exc),
        login u p w = (Ok auth, w0) ->
        get_product_details auth pid
          (add_stderr ("Fetching details for product " ++ pid ++ "...") w0)
        = (Raised e, w1) ->
        exc_cls e = ProductNotFoundError ->
        exit_code (mkArgs u p (Details pid)) w = 1)
  /\ (forall (u p : string) (id limit : Z) (w w0 w1 : World) (auth : AuthTokens)
             (history : json) (orders : list json),
        login u p w = (Ok auth, w0) ->
        id <> 0 ->
        get_order_history auth 0 MAX_ORDER_HISTORY_LOOKUP
          (add_stderr ("Fetching order " ++ PyStr.of_int id ++ "...") w0)
        = (Ok history, w1) ->
        Py.get history "Orders" (JArr []) = Ok (JArr orders) ->
        find_order orders id = Ok None ->
        exit_code (mkArgs u p (History (Some id) limit)) w = 1)
  /\ (forall (u p : string) (w w0 w1 : World) (auth : AuthTokens)
             (basket lines : json),
        login u p w = (Ok auth, w0) ->
        get_basket auth (add_stderr "Fetching basket..." w0) = (Ok basket, w1) ->
        Py.get basket "Lines" (JArr []) = Ok lines ->
        Py.truthy lines = false ->
        exit_code (mkArgs u p Basket) w = 0)
  /\ (forall (u p : string) (oid : option Z) (limit : Z) (w w0 w1 : World)
             (auth : AuthTokens) (history orders pages : json),
        login u p w = (Ok auth, w0) ->
        order_id_given oid = None ->
        get_order_history auth 0 limit
          (add_stderr "Fetching order history..." w0)
        = (Ok history, w1) ->
        Py.get history "Orders" (JArr []) = Ok orders ->
        Py.get history "NumberOfPages" (JInt 1) = Ok pages ->
        Py.truthy orders = false ->
        exit_code (mkArgs u p (History oid limit)) w = 0)
  /\ (forall (u p q : string) (l : Z) (w w0 w1 : World) (auth : AuthTokens)
             (products : list json) (lines : list string),
        login u p w = (Ok auth, w0) ->
        search_products auth q l
          (add_stderr ("Searching for '" ++ q ++ "'...") w0)
        = (Ok (JArr products), w1) ->
        products <> [] ->
        Py.map_o format_product products = Ok lines ->
        let header :=
          Py.nl ++ "Found " ++ PyStr.of_int (Z.of_nat (List.length products))
          ++ " products:" ++ Py.nl in
        exit_code (mkArgs u p (Search q l)) w = 0
        /\ snd (main (mkArgs u p (Search q l)) w) = printed (header :: lines) w1)
  /\ (forall (u p pid : string) (w w0 w1 : World) (auth : AuthTokens)
             (product : json) (text : string),
        login u p w = (Ok auth, w0) ->
        get_product_details auth pid
          (add_stderr ("Fetching details for product " ++ pid ++ "...") w0)
        = (Ok product, w1) ->
        format_product_details product = Ok text ->
        exit_code (mkArgs u p (Details pid)) w = 0
        /\ snd (main (mkArgs u p (Details pid)) w) = printed [""; text] w1)
  /\ (forall (u p : string) (w w0 w1 : World) (auth : AuthTokens)
             (basket : json) (lines prices : list json) (rows : list string)
             (total : Py.num) (text : string),
        login u p w = (Ok auth, w0) ->
        get_basket auth (add_stderr "Fetching basket..." w0) = (Ok basket, w1) ->
        Py.get basket "Lines" (JArr []) = Ok (JArr lines) ->
        lines <> [] ->
        Py.map_o format_basket_line lines = Ok rows ->
        Py.map_o line_price lines = Ok prices ->
        Py.sum prices = Ok total ->
        Py.format_f 2 (Py.num_json total) = Ok text ->
        let header :=
          Py.nl ++ "Basket (" ++ PyStr.of_int (Z.of_nat (List.length lines))
          ++ " items):" ++ Py.nl in
        let footer := Py.nl ++ "  Total: " ++ text ++ " kr" in
        exit_code (mkArgs u p Basket) w = 0
        /\ snd (main (mkArgs u p Basket) w)
           = printed (header :: rows ++ [footer]) w1)
  /\ (forall (u p pid : string) (qty : Z) (w w0 w1 : World) (auth : AuthTokens)
             (result : json) (lines prices : list json) (row : string)
             (total : Py.num) (text : string),
        login u p w = (Ok auth, w0) ->
        add_to_basket auth pid qty
          (add_stderr ("Adding product " ++ pid ++ " (quantity: "
                       ++ PyStr.of_int qty ++ ") to basket...") w0)
        = (Ok result, w1) ->
        Py.get result "Lines" (JArr []) = Ok (JArr lines) ->
        forallb is_dict lines = true ->
        (forall line, find (id_is pid) lines = Some line ->
                      format_basket_line line = Ok row) ->
        Py.map_o line_price lines = Ok prices ->
        Py.sum prices = Ok total ->
        Py.format_f 2 (Py.num_json total) = Ok text ->
        let report :=
          match find (id_is pid) lines with
          | Some _ => [Py.nl ++ "Added to basket:"; row]
          | None => ["Product " ++ pid ++ " added to basket."]
          end in
        let footer :=
          Py.nl ++ "Basket total: " ++ text ++ " kr ("
          ++ PyStr.of_int (Z.of_nat (List.length lines)) ++ " items)" in
        exit_code (mkArgs u p (Add pid qty)) w = 0
        /\ snd (main (mkArgs u p (Add pid qty)) w)
           = printed (report ++ [footer]) w1)
  /\ (forall (u p : string) (id limit : Z) (w w0 w1 : World) (auth : AuthTokens)
             (history details lines order : json) (orders : list json)
             (r : Response) (out : string),
        login u p w = (Ok auth, w0) ->
        id <> 0 ->
        get_order_history auth 0 MAX_ORDER_HISTORY_LOOKUP
          (add_stderr ("Fetching order " ++ PyStr.of_int id ++ "...") w0)
        = (Ok history, w1) ->
        Py.get history "Orders" (JArr []) = Ok (JArr orders) ->
        forallb is_dict orders = true ->
        find (has_id id) orders = Some order ->
        scripted w1 [inr r] ->
        json_reply r details ->
        Py.get details "Lines" (JArr []) = Ok lines ->
        format_order_details order lines = Ok out ->
        exit_code (mkArgs u p (History (Some id) limit)) w = 0
        /\ stdout (snd (main (mkArgs u p (History (Some id) limit)) w))
           = (stdout w1 ++ [""; out])%list
        /\ stderr (snd (main (mkArgs u p (History (Some id) limit)) w))
           = stderr w1)
  /\ (forall (u p : string) (oid : option Z) (limit : Z) (w w0 w1 : World)
             (auth : AuthTokens) (history pages : json) (orders : list json)
             (rows : list string),
        login u p w = (Ok auth, w0) ->
        order_id_given oid = None ->
        get_order_history auth 0 limit
          (add_stderr "Fetching order history..." w0)
        = (Ok history, w1) ->
        Py.get history "Orders" (JArr []) = Ok (JArr orders) ->
        orders <> [] ->
        Py.get history "NumberOfPages" (JInt 1) = Ok pages ->
        Py.map_o format_order_summary orders = Ok rows ->
        let header :=
          Py.nl ++ "Order History ("
          ++ PyStr.of_int (Z.of_nat (List.length orders)) ++ " orders, "
          ++ Py.str pages ++ " pages total):" ++ Py.nl in
        let footer := Py.nl ++ "Use 'history ORDER_ID' to see order details." in
        exit_code (mkArgs u p (History oid limit)) w = 0
        /\ snd (main (mkArgs u p (History oid limit)) w)
           = printed (header :: rows ++ [footer]) w1).
Proof.
  split; [exact exit_code_0_or_1|].
  split.
  { intros args w w' e H.
    destruct (main_of_raised _ _ _ _ H) as (w'' & Hm & Ho & He).
    unfold exit_code. rewrite Hm. auto. }
  split.
  { intros u p q l w w0 w1 auth products Hl Hs Ht.
    eapply (exit_code_of_command (mkArgs u p (Search q l))); [exact Hl|].
    exact (search_empty_code _ _ _ _ _ _ Hs Ht). }
  split.
  { intros u p pid w w0 w1 auth e Hl Hd Hc.
    eapply (exit_code_of_command (mkArgs u p (Details pid))); [exact Hl|].
    exact (details_not_found_code _ _ _ _ _ Hd Hc). }
  split.
  { intros u p id limit w w0 w1 auth history orders Hl Hid Hh Ho Hf.
    eapply (exit_code_of_command (mkArgs u p (History (Some id) limit)));
      [exact Hl|].
    exact (order_not_found_code _ _ limit _ _ _ _ Hid Hh Ho Hf). }
  split.
  { intros u p w w0 w1 auth basket lines Hl Hb Hg Ht.
    eapply (exit_code_of_command (mkArgs u p Basket)); [exact Hl|].
    exact (basket_empty_code _ _ _ _ _ Hb Hg Ht). }
  split.
  { intros u p oid limit w w0 w1 auth history orders pages Hl Hid Hh Ho Hp Ht.
    eapply (exit_code_of_command (mkArgs u p (History oid limit))); [exact Hl|].
    exact (history_empty_code _ _ _ _ _ _ _ _ Hid Hh Ho Hp Ht). }
  split.
  { intros u p q l w w0 w1 auth products lines Hl Hs Hne Hlines header.
    apply (main_of_command (mkArgs u p (Search q l)) w w0 _ auth 0 Hl).
    exact (search_listed_run _ _ _ _ _ _ _ Hs Hne Hlines). }
  split.
  { intros u p pid w w0 w1 auth product text Hl Hd Ht.
    apply (main_of_command (mkArgs u p (Details pid)) w w0 _ auth 0 Hl).
    exact (details_shown_run _ _ _ _ _ _ Hd Ht). }
  split.
  { intros u p w w0 w1 auth basket lines prices rows total text
           Hl Hb Hg Hne Hr Hp Hs Ht header footer.
    apply (main_of_command (mkArgs u p Basket) w w0 _ auth 0 Hl).
    exact (basket_listed_run _ _ _ _ _ _ _ _ _ Hb Hg Hne Hr Hp Hs Ht). }
  split.
  { intros u p pid qty w w0 w1 auth result lines prices row total text
           Hl Ha Hg Hd Hrow Hp Hs Ht report footer.
    apply (main_of_command (mkArgs u p (Add pid qty)) w w0 _ auth 0 Hl).
    exact (add_done_run _ _ _ _ _ _ _ _ _ _ _ Ha Hg Hd Hrow Hp Hs Ht). }
  split.
  { intros u p id limit w w0 w1 auth history details lines order orders r out
           Hl Hid Hh Ho Hd Hf Hs Hj Hli Hout.
    destruct (order_shown_run auth id limit w0 w1 history details lines order
                orders r out Hid Hh Ho Hd Hf Hs Hj Hli Hout)
      as (w' & Hrun & Hso & Hse).
    destruct (main_of_command (mkArgs u p (History (Some id) limit)) w w0 w'
                auth 0 Hl Hrun) as [Hc Hw].
    rewrite Hw. auto. }
  intros u p oid limit w w0 w1 auth history pages orders rows
         Hl Hid Hh Ho Hne Hp Hr header footer.
  apply (main_of_command (mkArgs u p (History oid limit)) w w0 _ auth 0 Hl).
  exact (history_listed_run _ _ _ _ _ _ _ _ _ Hid Hh Ho Hne Hp Hr).
Qed.

Lemma exit_code_cases_witness :
  (run_command (mkArgs "user@example.dk" "wrong" Basket)
     (script_world refused_replies sample_uuid)
   = (Raised (mkExc Exception
                "Login failed: {'Error': 'bad credentials'}" None),
      snd (run_command (mkArgs "user@example.dk" "wrong" Basket)
             (script_world refused_replies sample_uuid)))
   /\ exit_code (mkArgs "user@example.dk" "wrong" Basket)
        (script_world refused_replies sample_uuid) = 1)
  /\ (Py.truthy (JArr []) = false
      /\ exit_code (mkArgs "user@example.dk" "secret" Basket)
           (script_world empty_basket_replies sample_uuid) = 0)
  /\ (exit_code (mkArgs "user@example.dk" "secret" Basket)
        (script_world listed_basket_replies sample_uuid) = 0
      /\ stdout (snd (main (mkArgs "user@example.dk" "secret" Basket)
                        (script_world listed_basket_replies sample_uuid)))
         = [ Py.nl ++ "Basket (2 items):" ++ Py.nl;
             "  [5000123] Milk () x2 @ 12.50 kr = 25.00 kr";
             "  [5000124] Bread () x1 @ 19.95 kr = 19.95 kr";
             Py.nl ++ "  Total: 44.95 kr" ]).
Proof.
  split; [|split].
  - assert (run_command (mkArgs "user@example.dk" "wrong" Basket)
              (script_world refused_replies sample_uuid)
            = (Raised (mkExc Exception
                         "Login failed: {'Error': 'bad credentials'}" None),
               snd (run_command (mkArgs "user@example.dk" "wrong" Basket)
                      (script_world refused_replies sample_uuid)))) as H
      by (vm_compute; reflexivity).
    split; [exact H|].
    exact (proj1 (proj1 (proj2 exit_code_cases) _ _ _ _ H)).
  - split; [reflexivity|].
    refine (proj1 (proj2 (proj2 (proj2 (proj2 (proj2 exit_code_cases)))))
              "user@example.dk" "secret"
              (script_world empty_basket_replies sample_uuid)
              (snd (login "user@example.dk" "secret"
                      (script_world empty_basket_replies sample_uuid)))
              (snd (get_basket sample_auth
                      (add_stderr "Fetching basket..."
                         (snd (login "user@example.dk" "secret"
                                 (script_world empty_basket_replies
                                               sample_uuid))))))
              sample_auth (JObj [("Lines", JArr [])]) (JArr [])
              _ _ eq_refl eq_refl);
      vm_compute; reflexivity.
  - pose (w := script_world listed_basket_replies sample_uuid).
    pose (w0 := snd (login "user@example.dk" "secret" w)).
    pose (w1 := snd (get_basket sample_auth
                       (add_stderr "Fetching basket..." w0))).
    assert (login "user@example.dk" "secret" w = (Ok sample_auth, w0)) as Hl
      by (vm_compute; reflexivity).
    assert (get_basket sample_auth (add_stderr "Fetching basket..." w0)
            = (Ok (JObj [("Lines", JArr two_lines)]), w1)) as Hb
      by (vm_compute; reflexivity).
    assert (two_lines <> []) as Hne by discriminate.
    destruct (proj1 (proj2 (proj2 (proj2 (proj2 (proj2 (proj2 (proj2 (proj2
                (proj2 exit_code_cases)))))))))
                "user@example.dk" "secret" w w0 w1 sample_auth
                (JObj [("Lines", JArr two_lines)]) two_lines
                [ JInt 25; JFloat (PyFloat.of_decimal 1995 2) ]
                [ "  [5000123] Milk () x2 @ 12.50 kr = 25.00 kr";
                  "  [5000124] Bread () x1 @ 19.95 kr = 19.95 kr" ]
                (Py.NFloat (PyFloat.of_decimal 4495 2)) "44.95"
                Hl Hb eq_refl Hne
                ltac:(vm_compute; reflexivity) ltac:(vm_compute; reflexivity)
                ltac:(vm_compute; reflexivity) ltac:(vm_compute; reflexivity))
      as [Hc Hw].
    split; [exact Hc|]. fold w. rewrite Hw. vm_compute. reflexivity.
Defined.

(** C4 as stated fails for the basket: with an empty basket the result
    set is empty and the exit code is 0. *)
Lemma empty_basket_exits_0 :
  fst (main (mkArgs "user@example.dk" "secret" Basket)
         (script_world empty_basket_replies sample_uuid)) = Ok 0
  /\ stdout (snd (main (mkArgs "user@example.dk" "secret" Basket)
                    (script_world empty_basket_replies sample_uuid)))
     = ["Your basket is empty."]
  /\ exit_code (mkArgs "user@example.dk" "secret" Basket)
       (script_world empty_basket_replies sample_uuid) <> 1.
Proof.
  split; [vm_compute; reflexivity|]. split; [vm_compute; reflexivity|].
  vm_compute. discriminate.
Qed.

End ExitCodeOfSuccess.
